(** * dynamicExecutor_js_v1.js: a model of DynamicExecutorJS

    The executor asks a language model for the source of a JavaScript
    function, checks it with [vm.Script], stores it as a JSON record in
    a directory, and later runs it in a [vm] context.  This file embeds
    the class method by method and states the properties of the design
    document over that embedding.

    Layout: JavaScript values and the conversions the code relies on,
    [JSON], the store directory ([fs]), the prompt builder, the methods
    of the class, then the theorems.

    What the model leaves out.  Numbers are the integers; strings are
    sequences of bytes.  The language model and the script compiler
    are parameters of the class.  Console output is dropped, but the
    arguments of a logging call are still evaluated where evaluating
    them can throw.  A host getter is the value it returns.  The store
    directory is keyed by file name. *)

From Stdlib Require Import ZArith String Ascii List Bool Lia.
From Stdlib Require Import DecimalString DecimalPos DecimalZ.
From stdpp Require Import base option list strings gmap.

Open Scope string_scope.
Open Scope list_scope.

(** ** JavaScript values *)

(** The data the executor handles: what a tool call carries, what a
    stored function returns, what a record file holds.  [VNum] is a
    Number holding an integer; [VBigInt] is there because it is the
    plain-data value [JSON.stringify] refuses.  [VObj] lists the own
    properties of an object in the order they are enumerated. *)
Unset Elimination Schemes.
Inductive value : Type :=
| VUndefined
| VNull
| VBool (b : bool)
| VNum (n : Z)
| VBigInt (n : Z)
| VStr (s : string)
| VArr (items : list value)
| VObj (props : list (string * value)).
Set Elimination Schemes.

(** Induction on a value reaches the elements of an array and the
    property values of an object. *)
Section value_induction.

Variable P : value -> Prop.
Hypothesis on_undefined : P VUndefined.
Hypothesis on_null : P VNull.
Hypothesis on_bool : forall b, P (VBool b).
Hypothesis on_num : forall n, P (VNum n).
Hypothesis on_bigint : forall n, P (VBigInt n).
Hypothesis on_str : forall s, P (VStr s).
Hypothesis on_arr : forall items, Forall P items -> P (VArr items).
Hypothesis on_obj : forall props, Forall (fun kv => P (snd kv)) props -> P (VObj props).

Fixpoint value_ind (v : value) : P v :=
  match v with
  | VUndefined => on_undefined
  | VNull => on_null
  | VBool b => on_bool b
  | VNum n => on_num n
  | VBigInt n => on_bigint n
  | VStr s => on_str s
  | VArr items =>
      on_arr items
        ((fix all (l : list value) : Forall P l :=
            match l with
            | [] => List.Forall_nil P
            | x :: rest => List.Forall_cons P x rest (value_ind x) (all rest)
            end) items)
  | VObj props =>
      on_obj props
        ((fix all (l : list (string * value)) : Forall (fun kv => P (snd kv)) l :=
            match l with
            | [] => List.Forall_nil _
            | kv :: rest => List.Forall_cons _ kv rest (value_ind (snd kv)) (all rest)
            end) props)
  end.

End value_induction.

(** What a [throw] carries: an Error object with its [name] and
    [message], or any other value ([throw null] is legal). *)
Inductive exn : Type :=
| Error (name message : string)
| Thrown (v : value).

(** How an evaluation ends.  [Pending] is an awaited promise that never
    settles (or a loop that never exits): the caller gets nothing. *)
Inductive completion (A : Type) : Type :=
| Normal (a : A)
| Throw (e : exn)
| Pending.
Arguments Normal {A} a.
Arguments Throw {A} e.
Arguments Pending {A}.

Definition bind {A B} (c : completion A) (k : A -> completion B) : completion B :=
  match c with
  | Normal a => k a
  | Throw e => Throw e
  | Pending => Pending
  end.

Notation "'let*' x ':=' c 'in' k" := (bind c (fun x => k))
  (at level 10, x pattern, c at level 100, k at level 200).

(** [try { c } catch (e) { h e }] *)
Definition try_catch {A} (c : completion A) (h : exn -> completion A) : completion A :=
  match c with
  | Throw e => h e
  | other => other
  end.

Definition dq : string := String (ascii_of_nat 34) EmptyString.
Definition nl : string := String (ascii_of_nat 10) EmptyString.

Definition Number_toString (n : Z) : string :=
  NilZero.string_of_int (Z.to_int n).

Fixpoint join (sep : string) (l : list string) : string :=
  match l with
  | [] => ""
  | [x] => x
  | x :: rest => x +:+ sep +:+ join sep rest
  end.

(** ToString, as applied by a template literal [`${v}`] and by
    [RegExp.prototype.test]. *)
Fixpoint ToString (v : value) : string :=
  match v with
  | VUndefined => "undefined"
  | VNull => "null"
  | VBool true => "true"
  | VBool false => "false"
  | VNum n => Number_toString n
  | VBigInt n => Number_toString n
  | VStr s => s
  | VArr items =>
      join "," (map (fun x => match x with
                              | VUndefined | VNull => ""
                              | _ => ToString x
                              end) items)
  | VObj _ => "[object Object]"
  end.

(** ToBoolean: what [!v], [v || w] and [if (v)] test. *)
Definition truthy (v : value) : bool :=
  match v with
  | VUndefined | VNull => false
  | VBool b => b
  | VNum n | VBigInt n => negb (n =? 0)%Z
  | VStr s => negb (s =? "")%string
  | VArr _ | VObj _ => true
  end.

(** [v === undefined] *)
Definition is_undefined (v : value) : bool :=
  match v with
  | VUndefined => true
  | _ => false
  end.

Definition js_or (a b : value) : value := if truthy a then a else b.

Definition typeof (v : value) : string :=
  match v with
  | VUndefined => "undefined"
  | VNull => "object"
  | VBool _ => "boolean"
  | VNum _ => "number"
  | VBigInt _ => "bigint"
  | VStr _ => "string"
  | VArr _ | VObj _ => "object"
  end.

Fixpoint assoc (k : string) (props : list (string * value)) : option value :=
  match props with
  | [] => None
  | (k', v) :: rest => if (k' =? k)%string then Some v else assoc k rest
  end.

(** [o[k] = v] on an ordinary object: an existing key keeps its place. *)
Fixpoint obj_set (k : string) (v : value) (props : list (string * value))
  : list (string * value) :=
  match props with
  | [] => [(k, v)]
  | (k', v') :: rest =>
      if (k' =? k)%string then (k, v) :: rest else (k', v') :: obj_set k v rest
  end.

Fixpoint obj_delete (k : string) (props : list (string * value))
  : list (string * value) :=
  match props with
  | [] => []
  | (k', v') :: rest =>
      if (k' =? k)%string then rest else (k', v') :: obj_delete k rest
  end.

Definition TypeError (msg : string) : exn := Error "TypeError" msg.

(** [v.k]: reading a property of [undefined] or [null] throws; own
    properties of an object are found; everything else reads as
    [undefined] (no property of the prototypes is named in the code). *)
Definition get_prop (v : value) (k : string) : completion value :=
  match v with
  | VUndefined | VNull =>
      Throw (TypeError ("Cannot read properties of " +:+ ToString v +:+
                        " (reading '" +:+ k +:+ "')"))
  | VObj props => Normal (default VUndefined (assoc k props))
  | _ => Normal VUndefined
  end.

(** [e.message] in a catch handler. *)
Definition exn_message (e : exn) : completion value :=
  match e with
  | Error _ m => Normal (VStr m)
  | Thrown v => get_prop v "message"
  end.

(** [{ ...v }]: the own enumerable properties of an object, the
    indexed elements of an array or of a string; [null], [undefined]
    and the other primitives spread to nothing. *)
Definition spread (v : value) : list (string * value) :=
  match v with
  | VObj props => props
  | VArr items => imap (fun i x => (Number_toString (Z.of_nat i), x)) items
  | VStr s =>
      imap (fun i c => (Number_toString (Z.of_nat i), VStr (String c "")))
           (list_ascii_of_string s)
  | _ => []
  end.

(** ** Strings *)

Definition is_space (c : ascii) : bool :=
  let n := nat_of_ascii c in
  ((n =? 32) || (n =? 9) || (n =? 10) || (n =? 11) || (n =? 12) || (n =? 13))%nat.

Fixpoint trim_start (s : string) : string :=
  match s with
  | String c rest => if is_space c then trim_start rest else s
  | EmptyString => EmptyString
  end.

Definition rev_string (s : string) : string :=
  string_of_list_ascii (rev (list_ascii_of_string s)).

(** [String.prototype.trim] *)
Definition trim (s : string) : string :=
  rev_string (trim_start (rev_string (trim_start s))).

Fixpoint drop_string (n : nat) (s : string) : string :=
  match n, s with
  | 0, _ => s
  | S n', String _ rest => drop_string n' rest
  | S _, EmptyString => EmptyString
  end.

(** [s.startsWith(p)] *)
Fixpoint starts_with (p s : string) : bool :=
  match p with
  | EmptyString => true
  | String a p' =>
      match s with
      | String b s' => Ascii.eqb a b && starts_with p' s'
      | EmptyString => false
      end
  end.

(** [s.endsWith(suffix)] *)
Definition ends_with (s suffix : string) : bool :=
  starts_with (rev_string suffix) (rev_string s).

Definition strip_prefix (p s : string) : string :=
  if starts_with p s then drop_string (String.length p) s else s.

Definition strip_suffix (p s : string) : string :=
  if ends_with s p then rev_string (drop_string (String.length p) (rev_string s)) else s.

(** [s.replace(/^```javascript|```$/g, '')]: without the [m] flag [^]
    and [$] anchor at the two ends of the string, so the global replace
    removes one leading fence and then, in what follows it, one trailing
    fence. *)
Definition strip_fences (s : string) : string :=
  strip_suffix "```" (strip_prefix "```javascript" s).

(** [/^[a-zA-Z_$][0-9a-zA-Z_$]*$/] *)
Definition is_ident_start (c : ascii) : bool :=
  let n := nat_of_ascii c in
  (((97 <=? n) && (n <=? 122)) || ((65 <=? n) && (n <=? 90)) ||
   (n =? 95) || (n =? 36))%nat.

Definition is_ident_part (c : ascii) : bool :=
  let n := nat_of_ascii c in
  ((48 <=? n)%nat && (n <=? 57)%nat) || is_ident_start c.

Fixpoint all_chars (p : ascii -> bool) (s : string) : bool :=
  match s with
  | EmptyString => true
  | String c rest => p c && all_chars p rest
  end.

Definition identifier_test (s : string) : bool :=
  match s with
  | EmptyString => false
  | String c rest => is_ident_start c && all_chars is_ident_part rest
  end.

(** [s.substring(0, n)] *)
Definition substring0 (n : nat) (s : string) : string := String.substring 0 n s.

(** ** JSON *)

Module JSON.

Definition hex_digit (n : nat) : ascii :=
  match String.get n "0123456789abcdef" with
  | Some c => c
  | None => "0"%char
  end.

(** QuoteJSONString, one code unit at a time. *)
Definition escape (c : ascii) : string :=
  let n := nat_of_ascii c in
  if (n =? 34)%nat then "\" +:+ dq
  else if (n =? 92)%nat then "\\"
  else if (n =? 8)%nat then "\b"
  else if (n =? 12)%nat then "\f"
  else if (n =? 10)%nat then "\n"
  else if (n =? 13)%nat then "\r"
  else if (n =? 9)%nat then "\t"
  else if (n <? 32)%nat then
    "\u00" +:+ String (hex_digit (n / 16)) (String (hex_digit (n mod 16)) "")
  else String c "".

Fixpoint escape_all (s : string) : string :=
  match s with
  | EmptyString => ""
  | String c rest => escape c +:+ escape_all rest
  end.

Definition quote (s : string) : string := dq +:+ escape_all s +:+ dq.

(** SerializeJSONProperty with its two helpers SerializeJSONArray and
    SerializeJSONObject inlined.  [None] is the [undefined] the
    algorithm returns for a value that has no JSON form. *)
Fixpoint serialize (gap indent : string) (v : value) : completion (option string) :=
  match v with
  | VUndefined => Normal None
  | VNull => Normal (Some "null")
  | VBool true => Normal (Some "true")
  | VBool false => Normal (Some "false")
  | VNum n => Normal (Some (Number_toString n))
  | VBigInt _ => Throw (TypeError "Do not know how to serialize a BigInt")
  | VStr s => Normal (Some (quote s))
  | VArr items =>
      let stepback := indent in
      let indent := indent +:+ gap in
      let* partial :=
        (fix elements (l : list value) : completion (list string) :=
           match l with
           | [] => Normal []
           | x :: rest =>
               let* sx := serialize gap indent x in
               let* srest := elements rest in
               Normal (default "null" sx :: srest)
           end) items in
      Normal (Some
        match partial with
        | [] => "[]"
        | _ =>
            if (gap =? "")%string then "[" +:+ join "," partial +:+ "]"
            else "[" +:+ nl +:+ indent +:+ join ("," +:+ nl +:+ indent) partial
                 +:+ nl +:+ stepback +:+ "]"
        end)
  | VObj props =>
      let stepback := indent in
      let indent := indent +:+ gap in
      let* partial :=
        (fix members (l : list (string * value)) : completion (list string) :=
           match l with
           | [] => Normal []
           | (k, x) :: rest =>
               let* sx := serialize gap indent x in
               let* srest := members rest in
               Normal
                 match sx with
                 | None => srest
                 | Some str =>
                     (quote k +:+ ":" +:+ (if (gap =? "")%string then "" else " ")
                      +:+ str) :: srest
                 end
           end) props in
      Normal (Some
        match partial with
        | [] => "{}"
        | _ =>
            if (gap =? "")%string then "{" +:+ join "," partial +:+ "}"
            else "{" +:+ nl +:+ indent +:+ join ("," +:+ nl +:+ indent) partial
                 +:+ nl +:+ stepback +:+ "}"
        end)
  end.

Fixpoint spaces (n : nat) : string :=
  match n with
  | 0 => ""
  | S n' => String " " (spaces n')
  end.

(** [JSON.stringify(v, null, space)]; [space = 0] is [JSON.stringify(v)].
    The result is a string or [undefined]. *)
Definition stringify (v : value) (space : nat) : completion value :=
  let* r := serialize (spaces (Nat.min space 10)) "" v in
  Normal match r with
         | Some s => VStr s
         | None => VUndefined
         end.

(** *** JSON.parse

    A recursive-descent reader of the JSON grammar for the values
    above.  Number literals with a fraction or an exponent, and
    [\u] escapes above [00ff], lie outside [value] and are refused. *)

Definition is_ws (c : ascii) : bool :=
  let n := nat_of_ascii c in
  ((n =? 32) || (n =? 9) || (n =? 10) || (n =? 13))%nat.

Fixpoint skip_ws (s : string) : string :=
  match s with
  | String c rest => if is_ws c then skip_ws rest else s
  | EmptyString => EmptyString
  end.

Definition is_digit (c : ascii) : bool :=
  let n := nat_of_ascii c in ((48 <=? n) && (n <=? 57))%nat.

Definition unescape (c : ascii) : option ascii :=
  let n := nat_of_ascii c in
  if (n =? 34)%nat then Some c
  else if (n =? 92)%nat then Some c
  else if (n =? 47)%nat then Some c
  else if (n =? 98)%nat then Some (ascii_of_nat 8)
  else if (n =? 102)%nat then Some (ascii_of_nat 12)
  else if (n =? 110)%nat then Some (ascii_of_nat 10)
  else if (n =? 114)%nat then Some (ascii_of_nat 13)
  else if (n =? 116)%nat then Some (ascii_of_nat 9)
  else None.

Definition hex_value (c : ascii) : option nat :=
  let n := nat_of_ascii c in
  if ((48 <=? n) && (n <=? 57))%nat then Some (n - 48)
  else if ((97 <=? n) && (n <=? 102))%nat then Some (n - 87)
  else if ((65 <=? n) && (n <=? 70))%nat then Some (n - 55)
  else None.

Definition unicode_escape (h1 h2 h3 h4 : ascii) : option ascii :=
  match hex_value h1, hex_value h2, hex_value h3, hex_value h4 with
  | Some 0, Some 0, Some c, Some d => Some (ascii_of_nat (16 * c + d))
  | _, _, _, _ => None
  end.

(** The characters of a string literal, after its opening quote, up to
    and including the closing one. *)
Fixpoint parse_chars (s : string) : option (string * string) :=
  match s with
  | EmptyString => None
  | String c rest =>
      if (nat_of_ascii c =? 34)%nat then Some ("", rest)
      else if (nat_of_ascii c =? 92)%nat then
        match rest with
        | String e rest' =>
            if (nat_of_ascii e =? 117)%nat then
              match rest' with
              | String h1 (String h2 (String h3 (String h4 rest''))) =>
                  match unicode_escape h1 h2 h3 h4, parse_chars rest'' with
                  | Some c', Some (body, after) => Some (String c' body, after)
                  | _, _ => None
                  end
              | _ => None
              end
            else
              match unescape e, parse_chars rest' with
              | Some c', Some (body, after) => Some (String c' body, after)
              | _, _ => None
              end
        | EmptyString => None
        end
      else if (nat_of_ascii c <? 32)%nat then None
      else
        match parse_chars rest with
        | Some (body, after) => Some (String c body, after)
        | None => None
        end
  end.

Fixpoint span_digits (s : string) : string * string :=
  match s with
  | String c rest =>
      if is_digit c then
        let (digits, after) := span_digits rest in (String c digits, after)
      else ("", s)
  | EmptyString => ("", "")
  end.

Definition starts_fraction (s : string) : bool :=
  match s with
  | String c _ =>
      let n := nat_of_ascii c in ((n =? 46) || (n =? 101) || (n =? 69))%nat
  | EmptyString => false
  end.

(** An integer literal: an optional minus sign, then a single zero or
    digits that do not start with zero.  A literal is well formed when
    printing its value gives it back, [-0] apart. *)
Definition parse_number (s : string) : option (Z * string) :=
  let (sign, body) :=
    match s with
    | String c rest => if (nat_of_ascii c =? 45)%nat then ("-", rest) else ("", s)
    | EmptyString => ("", s)
    end in
  let (digits, after) := span_digits body in
  let literal := sign +:+ digits in
  if starts_fraction after then None
  else
    match NilZero.int_of_string literal with
    | Some d =>
        let n := Z.of_int d in
        if (Number_toString n =? literal)%string || (literal =? "-0")%string
        then Some (n, after) else None
    | None => None
    end.

Definition expect (word : string) (v : value) (s : string) : option (value * string) :=
  if starts_with word s then Some (v, drop_string (String.length word) s) else None.

(** [fuel] bounds the number of values and list cells read; the length
    of the text is always enough. *)
Fixpoint parse_value (fuel : nat) (s : string) : option (value * string) :=
  match fuel with
  | 0 => None
  | S fuel' =>
      match skip_ws s with
      | EmptyString => None
      | String c rest =>
          let n := nat_of_ascii c in
          if (n =? 123)%nat then
            match skip_ws rest with
            | String c' rest' =>
                if (nat_of_ascii c' =? 125)%nat then Some (VObj [], rest')
                else
                  match parse_members fuel' rest with
                  | Some (props, after) =>
                      Some (VObj (fold_left (fun acc kv => obj_set (fst kv) (snd kv) acc)
                                            props []), after)
                  | None => None
                  end
            | EmptyString => None
            end
          else if (n =? 91)%nat then
            match skip_ws rest with
            | String c' rest' =>
                if (nat_of_ascii c' =? 93)%nat then Some (VArr [], rest')
                else
                  match parse_elements fuel' rest with
                  | Some (items, after) => Some (VArr items, after)
                  | None => None
                  end
            | EmptyString => None
            end
          else if (n =? 34)%nat then
            match parse_chars rest with
            | Some (str, after) => Some (VStr str, after)
            | None => None
            end
          else if (n =? 116)%nat then expect "true" (VBool true) (String c rest)
          else if (n =? 102)%nat then expect "false" (VBool false) (String c rest)
          else if (n =? 110)%nat then expect "null" VNull (String c rest)
          else
            match parse_number (String c rest) with
            | Some (z, after) => Some (VNum z, after)
            | None => None
            end
      end
  end
with parse_elements (fuel : nat) (s : string) : option (list value * string) :=
  match fuel with
  | 0 => None
  | S fuel' =>
      match parse_value fuel' s with
      | Some (v, after) =>
          match skip_ws after with
          | String c rest =>
              if (nat_of_ascii c =? 44)%nat then
                match parse_elements fuel' rest with
                | Some (vs, after') => Some (v :: vs, after')
                | None => None
                end
              else if (nat_of_ascii c =? 93)%nat then Some ([v], rest)
              else None
          | EmptyString => None
          end
      | None => None
      end
  end
with parse_members (fuel : nat) (s : string) : option (list (string * value) * string) :=
  match fuel with
  | 0 => None
  | S fuel' =>
      match skip_ws s with
      | String q rest =>
          if (nat_of_ascii q =? 34)%nat then
            match parse_chars rest with
            | Some (k, after_key) =>
                match skip_ws after_key with
                | String colon after_colon =>
                    if (nat_of_ascii colon =? 58)%nat then
                      match parse_value fuel' after_colon with
                      | Some (v, after) =>
                          match skip_ws after with
                          | String c rest' =>
                              if (nat_of_ascii c =? 44)%nat then
                                match parse_members fuel' rest' with
                                | Some (kvs, after') => Some ((k, v) :: kvs, after')
                                | None => None
                                end
                              else if (nat_of_ascii c =? 125)%nat then Some ([(k, v)], rest')
                              else None
                          | EmptyString => None
                          end
                      | None => None
                      end
                    else None
                | EmptyString => None
                end
            | None => None
            end
          else None
      | EmptyString => None
      end
  end.

Definition SyntaxError (msg : string) : exn := Error "SyntaxError" msg.

(** [JSON.parse(text)]; a non-string argument arrives through ToString. *)
Definition parse (text : string) : completion value :=
  match parse_value (S (String.length text)) text with
  | Some (v, after) =>
      match skip_ws after with
      | EmptyString => Normal v
      | String _ _ => Throw (SyntaxError "Unexpected non-whitespace character after JSON")
      end
  | None => Throw (SyntaxError "Unexpected token in JSON")
  end.

End JSON.

(** ** The prompt builder

    The three template literals of [_generateJSFunctionCreationPrompt],
    character for character, with the interpolated expressions as
    arguments. *)

Definition repair_template (name error_message previous_code : string) : string :=
  "You are an expert JavaScript function generator assisting with a syntax error repair.
The JavaScript code you previously generated for the asynchronous function named `"
  +:+ name
  +:+ "` had an error: "
  +:+ error_message
  +:+ "

The faulty code was:
```javascript
"
  +:+ previous_code
  +:+ "
```

Please correct this error and provide the complete, valid asynchronous JavaScript function code again. Review the CRITICAL instructions below.".

Definition synthesis_template (name description schema_text api_text : string) : string :=
  "You are an expert JavaScript function generator. Your task is to create a single, standalone asynchronous Node.js JavaScript function string based on the provided specification.

Function Name: "
  +:+ name
  +:+ "
High-Level Description: "
  +:+ description
  +:+ "
Parameters Schema (for the 'params' object this function will receive):
"
  +:+ schema_text
  +:+ "

Host APIs:
The function will be executed in an environment where an 'external_apis' object is available.
Call these host APIs like: `await external_apis.someApiName(arguments_dictionary_for_host_api);`
Available Host APIs (in `external_apis` object):
"
  +:+ api_text
  +:+ "

".

Definition instructions_template (name : string) : string :=
  "
CRITICAL Instructions for JavaScript Code Generation:
1.  Write a single asynchronous JavaScript function: `async function "
  +:+ name
  +:+ "(params) { ... }`.
    - The `params` argument will be an object containing parameters as defined in the schema.
    - The `external_apis` object will be available in the function's scope (closure).
2.  The function MUST return a string. This string can be a simple message or a JSON stringified object (using `JSON.stringify`).
    - If you need to return structured data, return a JSON string like `JSON.stringify({ success: true, message: " +:+ dq +:+ "..." +:+ dq +:+ " })`.
    - If reporting an error from within the function logic (e.g., invalid parameters), return a string starting with " +:+ dq +:+ "Error: " +:+ dq +:+ " or a JSON string like `JSON.stringify({ error: " +:+ dq +:+ "..." +:+ dq +:+ " })`.
3.  Use `await` when calling functions from the `external_apis` object, as they are asynchronous. Example: `const apiResultString = await external_apis.someHostFunction({...});`
4.  Avoid top-level `try...catch` blocks for the *entire* function body, as the executor handles overarching errors. However, you *SHOULD* use `try...catch` for specific, fallible operations like calls to `external_apis.someFunction(...)` or `JSON.parse(...)` if you want to handle their errors gracefully *within* the function and return a custom error message (as a string). If an error within such a try/catch is not re-thrown and you handle it, ensure the function still returns a string.
5.  To parse a JSON string returned by a host API, use `JSON.parse(result_string)`. Example: `const data = JSON.parse(apiResultString); if (!data.success) return JSON.stringify({error: data.error });`
6.  To access parameters from the `params` object, use standard JavaScript property access: `params.parameterName` or `params['parameterName']`. For optional parameters, use `params.parameterName || defaultValue` or check if `params.parameterName !== undefined`.
7.  DO NOT include any `require()` calls or access `process`, `fs`, etc. These modules are not available in the sandbox environment. Functions like `uuidv4` (for generating UUIDs) and basic `Math` functions ARE available directly in the sandbox. The `THREE` library is NOT available. If you need vector math, implement simple helper functions for it within your generated code string or perform calculations component-wise.
8.  Output ONLY the JavaScript function code block. Do NOT include ```javascript or any other surrounding text or explanations.
9.  Ensure all paths in your function return a string.

Example Function Structure (Pay ATTENTION to async/await, direct external_apis access, JSON parsing, and error handling):
```javascript
async function exampleTool(params) {
    // Example of simple vector math helper (if needed, THREE is not available)
    // function vecSubtract(v1, v2) { return [v1[0]-v2[0], v1[1]-v2[1], v1[2]-v2[2]]; }

    const requiredParam = params.myRequiredParam;
    const optionalParam = params.myOptionalParam || 'default value for optional';

    if (requiredParam === undefined) {
        return JSON.stringify({ error: " +:+ dq +:+ "Missing myRequiredParam." +:+ dq +:+ " });
    }

    let hostApiResultString;
    try {
        const argsForHostApi = { input_data: requiredParam, user_id: params.user_id_if_available };
        hostApiResultString = await external_apis.someDescribedHostFunction(argsForHostApi);
    } catch (e) {
        // Handle potential errors when calling the host API itself (e.g., network issues)
        // This error is caught, and a string is returned, so the main executor won't see it as an unhandled exception.
        return JSON.stringify({ error: `Error during host API call: ${e.message}`});
    }

    let hostApiData;
    try {
        hostApiData = JSON.parse(hostApiResultString);
        if (!hostApiData.success) { 
            return JSON.stringify({ error: `Host API reported failure: ${hostApiData.error || hostApiData.message || 'Unknown API error'}` });
        }
        return JSON.stringify({ success: true, message: `Host API processed data: ${hostApiData.processed_info}`});
    } catch (e) {
        return JSON.stringify({ error: `Error parsing host API response as JSON: ${e.message}. Raw response: ${hostApiResultString}`});
    }
}
```

Your Task:
Generate *only* the asynchronous JavaScript function code for `"
  +:+ name
  +:+ "` based *exactly* on the specification provided above. Ensure correct JavaScript syntax, including async/await and object property access. All paths should return a string.
".

(** ** Script texts

    The texts handed to [new vm.Script]: the two syntax checks and the
    wrapper that runs a stored function. *)

Definition vmScriptCode (sanitized_code new_function_name : string) : string :=
  "
                        let funcToCheck;
                        "
  +:+ sanitized_code
  +:+ "
                        if (typeof "
  +:+ new_function_name
  +:+ " === 'function') {
                            funcToCheck = "
  +:+ new_function_name
  +:+ ";
                        } else {
                            throw new Error('Generated code did not define a function named "
  +:+ new_function_name
  +:+ ".');
                        }
                    ".

Definition vmScriptCode_predefined (code_string name : string) : string :=
  "
                let funcToCheck;
                "
  +:+ code_string
  +:+ "
                if (typeof "
  +:+ name
  +:+ " === 'function') {
                    funcToCheck = "
  +:+ name
  +:+ ";
                } else {
                    throw new Error('Provided code_string did not define a function named "
  +:+ name
  +:+ ".');
                }
            ".

Definition wrappedCode (code_string function_name : string) : string :=
  "
                (async () => {
                    "
  +:+ code_string
  +:+ "
                    if (typeof "
  +:+ function_name
  +:+ " !== 'function') {
                        throw new Error('Generated code did not define a callable function named "
  +:+ function_name
  +:+ ". Typeof: ' + typeof "
  +:+ function_name
  +:+ ");
                    }
                    return await "
  +:+ function_name
  +:+ "(params);
                })()
            ".

(** ** The store directory *)

Module fs.

(** An entry of [FUNCTION_CODE_DIR]: a regular file with its text, or
    a directory, which exists but can be neither read, written nor
    unlinked as a file. *)
Inductive node : Type :=
| File (content : string)
| Dir.

Definition io_error (code what : string) : exn :=
  Error "Error" (code +:+ ": " +:+ what).

Definition existsSync (d : gmap string node) (p : string) : bool :=
  match d !! p with
  | Some _ => true
  | None => false
  end.

Definition readFileSync (d : gmap string node) (p : string) : completion string :=
  match d !! p with
  | Some (File content) => Normal content
  | Some Dir => Throw (io_error "EISDIR" "illegal operation on a directory, read")
  | None => Throw (io_error "ENOENT" ("no such file or directory, open '" +:+ p +:+ "'"))
  end.

Definition writeFileSync (d : gmap string node) (p data : string)
  : completion (gmap string node) :=
  match d !! p with
  | Some Dir =>
      Throw (io_error "EISDIR" ("illegal operation on a directory, open '" +:+ p +:+ "'"))
  | _ => Normal (<[p := File data]> d)
  end.

Definition readdirSync (d : gmap string node) : list string :=
  (map_to_list d).*1.

Definition unlinkSync (d : gmap string node) (p : string)
  : completion (gmap string node) :=
  match d !! p with
  | Some (File _) => Normal (delete p d)
  | Some Dir =>
      Throw (io_error "EISDIR" ("illegal operation on a directory, unlink '" +:+ p +:+ "'"))
  | None => Throw (io_error "ENOENT" ("no such file or directory, unlink '" +:+ p +:+ "'"))
  end.

End fs.

(** ** The world the executor acts on *)

(** [files] is the content of [FUNCTION_CODE_DIR], keyed by file name
    ([path.join(FUNCTION_CODE_DIR, f)] is the entry [f]; function names
    that pass the identifier test contain no path separator).
    [llm_calls] records the prompts sent to the language model, oldest
    first. *)
Record world : Type := {
  files : gmap string fs.node;
  llm_calls : list string
}.

Definition M (A : Type) : Type := world -> completion A * world.

Definition ret {A} (a : A) : M A := fun w => (Normal a, w).

Definition lift {A} (c : completion A) : M A := fun w => (c, w).

Definition bindM {A B} (c : M A) (k : A -> M B) : M B :=
  fun w =>
    match c w with
    | (Normal a, w') => k a w'
    | (Throw e, w') => (Throw e, w')
    | (Pending, w') => (Pending, w')
    end.

Notation "'let!' x ':=' c 'in' k" := (bindM c (fun x => k))
  (at level 10, x pattern, c at level 100, k at level 200).

(** [try { c } catch (e) { h e }]: the effects of [c] up to the throw
    stay. *)
Definition try_catchM {A} (c : M A) (h : exn -> M A) : M A :=
  fun w =>
    match c w with
    | (Throw e, w') => h e w'
    | other => other
    end.

(** ** The [vm] module *)

(** A capability of [external_apis]: an asynchronous host function. *)
Definition capability : Type := value -> completion value.

Inductive host_object : Type :=
| host_JSON
| host_uuidv4
| host_Math
| host_console (function_name : string)
| host_setTimeout
| host_clearTimeout
| host_setInterval
| host_clearInterval
| host_Promise.

Inductive binding : Type :=
| Data (v : value)
| Capabilities (apis : list (string * capability))
| Host (h : host_object).

(** What [new vm.Script(code, options)] gives: a script, or a
    SyntaxError.  The constructor compiles and runs nothing; a script
    is run by [runInContext], and [runInContext context] stands for
    what [await script.runInContext(context)] yields: the value the
    promise resolves to, what it rejects with, or [Pending] when it
    never settles.

    Of the options the code passes to the constructor ([filename],
    [timeout: 15000], [breakOnSigint]) only [filename] is an option of
    the constructor; it names the script in stack traces.  In [vm],
    [timeout] and [breakOnSigint] are options of [runInContext], which
    the code calls with the context alone, and there a time limit
    bounds the synchronous run of the script, not the promise that the
    [async] wrapper hands back at once.  So no time limit appears in
    the model. *)
Inductive compiled : Type :=
| Script (runInContext : list (string * binding) -> completion value)
| CompileError (message : string).

Definition SyntaxError (msg : string) : exn := Error "SyntaxError" msg.

Definition ReferenceError (msg : string) : exn := Error "ReferenceError" msg.

(** A free identifier of the script resolves against the contextified
    sandbox object. *)
Definition resolve (sandbox : list (string * binding)) (x : string) : completion binding :=
  match List.find (fun kb => (kb.1 =? x)%string) sandbox with
  | Some (_, b) => Normal b
  | None => Throw (ReferenceError (x +:+ " is not defined"))
  end.

(** ** Small pieces of the language used by the methods *)

(** [v.substring(0, n)] on whatever [v] is at run time. *)
Definition substring_method (v : value) (n : nat) : completion string :=
  match v with
  | VStr s => Normal (substring0 n s)
  | VUndefined | VNull =>
      Throw (TypeError ("Cannot read properties of " +:+ ToString v +:+
                        " (reading 'substring')"))
  | _ => Throw (TypeError "substring is not a function")
  end.

(** [v?.trim()] *)
Definition optional_trim (v : value) : completion value :=
  match v with
  | VUndefined | VNull => Normal VUndefined
  | VStr s => Normal (VStr (trim s))
  | _ => Throw (TypeError "trim is not a function")
  end.

(** ToBoolean of a caught value. *)
Definition exn_truthy (e : exn) : bool :=
  match e with
  | Error _ _ => true
  | Thrown v => truthy v
  end.

(** [e.stack] *)
Definition exn_stack (e : exn) : completion value :=
  match e with
  | Error name m => Normal (VStr (name +:+ ": " +:+ m))
  | Thrown v => get_prop v "stack"
  end.

Definition FUNCTION_CREATION_TOOL_DEFINITION_JS_name : string :=
  "create_dynamic_function".

(** ** class DynamicExecutorJS *)

(** The fields of [this] the methods read.  A getter installed by
    [initialize_store_js] is held as the value it returns; [None] is
    the [null] the constructor leaves. *)
Record executor : Type := {
  host_api_description_getter : option value;
  host_api_execution_dict_getter : option (list (string * capability));
  is_debug : bool;
  MAX_SYNTAX_REPAIR_RETRIES : nat
}.

Definition constructor : executor := {|
  host_api_description_getter := None;
  host_api_execution_dict_getter := None;
  is_debug := true;
  MAX_SYNTAX_REPAIR_RETRIES := 3
|}.

Definition initialize_store_js (this : executor)
    (apiDescriptionGetter : option value)
    (apiExecutionDictGetter : option (list (string * capability))) : executor := {|
  host_api_description_getter := apiDescriptionGetter;
  host_api_execution_dict_getter := apiExecutionDictGetter;
  is_debug := is_debug this;
  MAX_SYNTAX_REPAIR_RETRIES := MAX_SYNTAX_REPAIR_RETRIES this
|}.

Definition no_host_apis_described : string :=
  "No specific host APIs were described for this task. If you need to call any, ensure their names and argument structures are well-known or that the function can operate without them.".

Definition _generateJSFunctionCreationPrompt
    (name description parameters_schema host_provided_api_description : value)
    (is_repair : bool) (previous_code error_message : value) : completion string :=
  let* prompt :=
    if is_repair then
      Normal (repair_template (ToString name) (ToString error_message)
                              (ToString previous_code))
    else
      let* schema_text := JSON.stringify parameters_schema 2 in
      Normal (synthesis_template (ToString name) (ToString description)
                (ToString schema_text)
                (ToString (js_or host_provided_api_description
                                 (VStr no_host_apis_described)))) in
  Normal (prompt +:+ instructions_template (ToString name)).

(** The variables of [create_dynamic_function] that live across the
    iterations of its loop. *)
Record loop_vars : Type := {
  generated_code_string : value;
  last_error : option exn;
  sanitized_code : string
}.

Definition writeFile (p data : string) : M unit :=
  fun w =>
    match fs.writeFileSync (files w) p data with
    | Normal d => (Normal tt, {| files := d; llm_calls := llm_calls w |})
    | Throw e => (Throw e, w)
    | Pending => (Pending, w)
    end.

Definition unlink (p : string) : M unit :=
  fun w =>
    match fs.unlinkSync (files w) p with
    | Normal d => (Normal tt, {| files := d; llm_calls := llm_calls w |})
    | Throw e => (Throw e, w)
    | Pending => (Pending, w)
    end.

(** [{ params: ..., external_apis: ..., JSON, uuidv4, Math, console:
    {...}, setTimeout, clearTimeout, setInterval, clearInterval,
    Promise }] *)
Definition sandbox (function_name : string) (params_for_function : value)
    (external_apis : list (string * capability)) : list (string * binding) :=
  [ ("params", Data params_for_function);
    ("external_apis", Capabilities external_apis);
    ("JSON", Host host_JSON);
    ("uuidv4", Host host_uuidv4);
    ("Math", Host host_Math);
    ("console", Host (host_console function_name));
    ("setTimeout", Host host_setTimeout);
    ("clearTimeout", Host host_clearTimeout);
    ("setInterval", Host host_setInterval);
    ("clearInterval", Host host_clearInterval);
    ("Promise", Host host_Promise) ].

(** ** Test doubles

    Stand-ins for the language model and for the script compiler, for
    the worked runs at the end of the file. *)

(** A model that answers the n-th call with the n-th scripted reply,
    and fails with a connection error once the script is used up. *)
Definition scripted_llm (replies : list (completion value))
  : list string -> string -> completion value :=
  fun history _ =>
    nth (length history) replies (Throw (Error "Error" "Connection error.")).

(** A compiler that accepts every text; what it compiles behaves as [run]. *)
Definition vm_accepting (run : list (string * binding) -> completion value)
  : string -> compiled :=
  fun _ => Script run.

(** A compiler that rejects every text. *)
Definition vm_rejecting (message : string) : string -> compiled :=
  fun _ => CompileError message.

Definition empty_world : world := {| files := ∅; llm_calls := [] |}.

(** A predefined function whose promise never settles. *)
Definition hang_record : value :=
  VObj [ ("name", VStr "hang");
         ("description", VStr "waits for something that never comes");
         ("parameters_schema_json", VStr "{}");
         ("code_string",
          VStr "async function hang(params) { return new Promise(() => {}); }") ].

(** A predefined function that returns nothing. *)
Definition noop_record : value :=
  VObj [ ("name", VStr "noop");
         ("description", VStr "does nothing");
         ("parameters_schema_json", VStr "{}");
         ("code_string", VStr "async function noop(params) { }") ].


Definition bigint_refused : exn := TypeError "Do not know how to serialize a BigInt".

(** An Error object, as the client library and the runtime throw. *)
Definition is_error_object (e : exn) : bool :=
  match e with
  | Error _ _ => true
  | Thrown _ => false
  end.

(** No attempt so far has left anything but an Error object in
    [last_error]. *)
Definition failed_so_far (vars : loop_vars) : Prop :=
  match last_error vars with
  | Some e => is_error_object e = true
  | None => True
  end.

(** The call to the model resolves, or rejects with an Error object. *)
Definition answers_or_rejects (c : completion value) : bool :=
  match c with
  | Normal _ => true
  | Throw e => is_error_object e
  | Pending => false
  end.


(** The schema of the [add] example of the design document. *)
Definition add_schema : value :=
  VObj [ ("type", VStr "object");
         ("properties", VObj [ ("a", VObj [("type", VStr "number")]);
                               ("b", VObj [("type", VStr "number")]) ]);
         ("required", VArr [VStr "a"; VStr "b"]) ].

Definition add_code : string :=
  "async function add(params) { return String(params.a + params.b); }".

(** The loop variables on entry. *)
Definition initial_vars : loop_vars :=
  {| generated_code_string := VStr ""; last_error := None; sanitized_code := "" |}.

(** What running the check script for a candidate that defines no
    function [foo] would do, were it ever run. *)
Definition check_would_throw : list (string * binding) -> completion value :=
  fun _ => Throw (Error "Error" "Generated code did not define a function named foo.").

(** ** JSON text of plain data

    The values that have a JSON text of their own: no [undefined], no
    BigInt, and no object with a repeated key.  For these
    [JSON.stringify] is the printer [print], and [weight] bounds the
    fuel the reader needs. *)

Fixpoint is_json (v : value) : bool :=
  match v with
  | VUndefined | VBigInt _ => false
  | VNull | VBool _ | VNum _ | VStr _ => true
  | VArr items => forallb is_json items
  | VObj props =>
      bool_decide (NoDup (map fst props)) && forallb (fun kv => is_json (snd kv)) props
  end.

(** What separates the parts of an array or object: nothing without a
    gap, otherwise a line feed and the indentation. *)
Definition brk (gap indent : string) : string :=
  if (gap =? "")%string then "" else nl +:+ indent.

Fixpoint print (gap indent : string) (v : value) : string :=
  match v with
  | VUndefined | VBigInt _ => ""
  | VNull => "null"
  | VBool true => "true"
  | VBool false => "false"
  | VNum n => Number_toString n
  | VStr s => JSON.quote s
  | VArr items =>
      match items with
      | [] => "[]"
      | _ =>
          "[" +:+ brk gap (indent +:+ gap)
          +:+ join ("," +:+ brk gap (indent +:+ gap))
                   (map (print gap (indent +:+ gap)) items)
          +:+ brk gap indent +:+ "]"
      end
  | VObj props =>
      match props with
      | [] => "{}"
      | _ =>
          "{" +:+ brk gap (indent +:+ gap)
          +:+ join ("," +:+ brk gap (indent +:+ gap))
                   (map (fun kv =>
                           JSON.quote (fst kv) +:+ ":"
                           +:+ (if (gap =? "")%string then "" else " ")
                           +:+ print gap (indent +:+ gap) (snd kv)) props)
          +:+ brk gap indent +:+ "}"
      end
  end.

Fixpoint weight (v : value) : nat :=
  match v with
  | VArr items => S (list_sum (map (fun x => S (weight x)) items))
  | VObj props => S (list_sum (map (fun kv => S (weight (snd kv))) props))
  | _ => 1
  end.

(** Only white space. *)
Definition blank (s : string) : bool := all_chars JSON.is_ws s.

(** A text before which a number literal ends: it does not go on with a
    digit, a fraction or an exponent. *)
Definition ends_number (s : string) : bool :=
  match s with
  | EmptyString => true
  | String c _ => negb (JSON.is_digit c) && negb (JSON.starts_fraction s)
  end.

(** The first character of a printed value is not white space and
    closes nothing. *)
Definition opens_value (c : ascii) : bool :=
  negb (JSON.is_ws c) && negb (nat_of_ascii c =? 93)%nat
  && negb (nat_of_ascii c =? 125)%nat.

(** [reads v]: the reader, given fuel above the weight of [v], reads
    any print of [v] back and stops right after it. *)
Definition reads (v : value) : Prop :=
  forall (gap indent : string) (fuel : nat) (rest : string),
    blank gap = true -> blank indent = true ->
    weight v < fuel -> ends_number rest = true ->
    JSON.parse_value fuel (print gap indent v +:+ rest) = Some (v, rest).

(** ** What the store holds *)

(** The text of a record as the two writers build it: an object with
    the five properties, the last of them the internal flag, unset. *)
Definition written_record (text : string) : Prop :=
  exists name description parameters_schema_json code_string : value,
    JSON.stringify
      (VObj [ ("name", name);
              ("description", description);
              ("parameters_schema_json", parameters_schema_json);
              ("code_string", code_string);
              ("is_internal_special_function", VBool false) ]) 2
    = Normal (VStr text).

(** Every entry of the directory is a record file. *)
Definition only_records (d : gmap string fs.node) : Prop :=
  forall (f : string) (node : fs.node),
    d !! f = Some node ->
    ends_with f ".json" = true
    /\ exists text, node = fs.File text /\ written_record text.

(** A compiler that takes the texts [ok] accepts and rejects the
    others; what it compiles behaves as [run]. *)
Definition vm_checking (ok : string -> bool) (message : string)
    (run : list (string * binding) -> completion value) : string -> compiled :=
  fun code => if ok code then Script run else CompileError message.

(** An answer of the model wrapped in a code fence. *)
Definition fenced_add_code : string :=
  "```javascript" +:+ nl +:+ add_code +:+ nl +:+ "```".

(** A schema that holds a BigInt. *)
Definition bigint_schema : value :=
  VObj [ ("type", VStr "object"); ("maxProperties", VBigInt 2) ].


Section DynamicExecutorJS.

(** [this.openai_client.chat.completions.create]: given the prompts
    already sent and the new one, what awaiting the call yields, read
    as [response.choices[0]?.message?.content].  A response without a
    [choices] array is a [Throw], as the read of [choices[0]] makes it. *)
Variable chat_completions_create : list string -> string -> completion value.

(** [new vm.Script(code, options)] *)
Variable vm_Script : string -> compiled.

Definition call_llm (prompt : string) : M value :=
  fun w =>
    (chat_completions_create (llm_calls w) prompt,
     {| files := files w; llm_calls := llm_calls w ++ [prompt] |}).

(** [for (const file of files) { if (file.endsWith('.json')) unlinkSync(...) }] *)
Fixpoint unlink_json_files (files : list string) : M unit :=
  match files with
  | [] => ret tt
  | file :: rest =>
      let! _ := (if ends_with file ".json" then unlink file else ret tt) in
      unlink_json_files rest
  end.

Definition clear_function_store_js (this : executor) : M unit :=
  try_catchM
    (let! files := (fun w => (Normal (fs.readdirSync (files w)), w)) in
     unlink_json_files files)
    (fun e => ret tt).

(** [const prompt = this._generateJSFunctionCreationPrompt(...)] with
    the arguments of the call in the loop. *)
Definition attempt_prompt (this : executor)
    (new_function_name new_function_description new_function_parameters_schema
     host_provided_api_description_for_new_func : value)
    (attempt : nat) (vars : loop_vars) : completion string :=
  let* error_message :=
    match last_error vars with
    | Some e => if exn_truthy e then exn_message e else Normal VNull
    | None => Normal VNull
    end in
  _generateJSFunctionCreationPrompt
    new_function_name new_function_description new_function_parameters_schema
    (js_or host_provided_api_description_for_new_func
           match host_api_description_getter this with
           | Some described => described
           | None => VStr "No host APIs provided."
           end)
    (0 <? attempt)%nat (generated_code_string vars) error_message.

(** One turn of the [for] loop: [true] is [break], [false] goes on to
    the next attempt. *)
Definition attempt_body (this : executor)
    (new_function_name new_function_description new_function_parameters_schema
     host_provided_api_description_for_new_func : value)
    (attempt : nat) (vars : loop_vars) : M (bool * loop_vars) :=
  try_catchM
    (let! prompt :=
       lift (attempt_prompt this new_function_name new_function_description
               new_function_parameters_schema
               host_provided_api_description_for_new_func attempt vars) in
     let! content := call_llm prompt in
     let! generated := lift (optional_trim content) in
     if negb (truthy generated) then
       ret (false, {| generated_code_string := generated;
                      last_error := Some (Error "Error" "LLM returned empty code string.");
                      sanitized_code := sanitized_code vars |})
     else
       let sanitized := trim (strip_fences (ToString generated)) in
       match vm_Script (vmScriptCode sanitized (ToString new_function_name)) with
       | Script _ =>
           ret (true, {| generated_code_string := generated;
                         last_error := None;
                         sanitized_code := sanitized |})
       | CompileError message =>
           ret (false, {| generated_code_string := generated;
                          last_error := Some (SyntaxError message);
                          sanitized_code := sanitized |})
       end)
    (fun error =>
       let! _ :=
         lift (if (attempt =? MAX_SYNTAX_REPAIR_RETRIES this)%nat
               then exn_message error else Normal VUndefined) in
       ret (false, {| generated_code_string := generated_code_string vars;
                      last_error := Some error;
                      sanitized_code := sanitized_code vars |})).

(** [for (let attempt = 0; attempt < MAX + 1; attempt++)], entered with
    [remaining = MAX + 1 - attempt]. *)
Fixpoint repair_loop (this : executor)
    (new_function_name new_function_description new_function_parameters_schema
     host_provided_api_description_for_new_func : value)
    (remaining attempt : nat) (vars : loop_vars) : M loop_vars :=
  match remaining with
  | 0 => ret vars
  | S remaining' =>
      let! r := attempt_body this new_function_name new_function_description
                  new_function_parameters_schema
                  host_provided_api_description_for_new_func attempt vars in
      if r.1 then ret r.2
      else repair_loop this new_function_name new_function_description
             new_function_parameters_schema
             host_provided_api_description_for_new_func remaining' (S attempt) r.2
  end.

(** The last [try] block of [create_dynamic_function]: the record is
    built and written to [<name>.json] (the put of the design
    document's FunctionStore). *)
Definition write_function_record
    (new_function_name new_function_description new_function_parameters_schema : value)
    (sanitized_code : string) : M string :=
  try_catchM
    (let! parameters_schema_json :=
       lift (JSON.stringify new_function_parameters_schema 0) in
     let funcData :=
       VObj [ ("name", new_function_name);
              ("description", new_function_description);
              ("parameters_schema_json", parameters_schema_json);
              ("code_string", VStr sanitized_code);
              ("is_internal_special_function", VBool false) ] in
     let filePath := ToString new_function_name +:+ ".json" in
     let! text := lift (JSON.stringify funcData 2) in
     let! _ := writeFile filePath (ToString text) in
     ret ("Successfully created/updated JS dynamic function: "
          +:+ ToString new_function_name))
    (fun db_error =>
       let! message := lift (exn_message db_error) in
       ret ("Error: Failed to store JS function definition "
            +:+ ToString new_function_name +:+ ". " +:+ ToString message)).

Definition create_dynamic_function (this : executor)
    (new_function_name new_function_description new_function_parameters_schema
     host_provided_api_description_for_new_func : value) : M string :=
  if negb (truthy new_function_name) || negb (truthy new_function_description)
     || negb (truthy new_function_parameters_schema) then
    ret "Error: Missing required arguments for JS function creation."
  else if negb (identifier_test (ToString new_function_name)) then
    ret ("Error: Invalid JS function name '" +:+ ToString new_function_name +:+ "'.")
  else
    let! vars :=
      repair_loop this new_function_name new_function_description
        new_function_parameters_schema host_provided_api_description_for_new_func
        (MAX_SYNTAX_REPAIR_RETRIES this + 1) 0 initial_vars in
    if match last_error vars with
       | Some e => exn_truthy e
       | None => false
       end then
      let! message :=
        lift match last_error vars with
             | Some e => exn_message e
             | None => Normal VUndefined
             end in
      ret ("Error: Failed to generate/validate JS code for "
           +:+ ToString new_function_name +:+ " after "
           +:+ Number_toString (Z.of_nat (MAX_SYNTAX_REPAIR_RETRIES this + 1))
           +:+ " attempt(s). Last error: " +:+ ToString message)
    else
      write_function_record new_function_name new_function_description
        new_function_parameters_schema (sanitized_code vars).

Definition store_predefined_function_js (this : executor) (funcData : value) : M string :=
  let! name := lift (get_prop funcData "name") in
  let! description := lift (get_prop funcData "description") in
  let! parameters_schema_json := lift (get_prop funcData "parameters_schema_json") in
  let! code_string := lift (get_prop funcData "code_string") in
  if negb (truthy name) || negb (truthy description)
     || negb (truthy parameters_schema_json) || negb (truthy code_string) then
    ret ("Error: Missing required fields in funcData for "
         +:+ ToString (js_or name (VStr "unnamed function"))
         +:+ ". Required: name, description, parameters_schema_json, code_string.")
  else if negb (identifier_test (ToString name)) then
    ret ("Error: Invalid JS function name '" +:+ ToString name +:+ "'.")
  else
    match vm_Script (vmScriptCode_predefined (ToString code_string) (ToString name)) with
    | CompileError message =>
        let! _ := lift (substring_method code_string 500) in
        ret ("Error: Syntax error in predefined function " +:+ ToString name
             +:+ ": " +:+ message)
    | Script _ =>
        try_catchM
          (let filePath := ToString name +:+ ".json" in
           let dataToStore :=
             VObj [ ("name", name);
                    ("description", description);
                    ("parameters_schema_json", parameters_schema_json);
                    ("code_string", code_string);
                    ("is_internal_special_function", VBool false) ] in
           let! text := lift (JSON.stringify dataToStore 2) in
           let! _ := writeFile filePath (ToString text) in
           ret ("Successfully stored predefined JS function: " +:+ ToString name))
          (fun store_error =>
             let! message := lift (exn_message store_error) in
             ret ("Error storing predefined JS function definition "
                  +:+ ToString name +:+ ": " +:+ ToString message))
    end.

Definition get_function_definition_js (this : executor) (function_name : string)
  : M value :=
  fun w =>
    let filePath := function_name +:+ ".json" in
    if fs.existsSync (files w) filePath then
      (try_catch
         (let* fileContent := fs.readFileSync (files w) filePath in
          let* funcData := JSON.parse fileContent in
          let* parameters_schema_json := get_prop funcData "parameters_schema_json" in
          let* parameters_schema := JSON.parse (ToString parameters_schema_json) in
          Normal (VObj (obj_set "parameters_schema" parameters_schema (spread funcData))))
         (fun e => Normal VNull),
       w)
    else (Normal VNull, w).

Definition requiredArgs : list string :=
  ["new_function_name"; "new_function_description"; "new_function_parameters_schema"].

Definition execute_dynamic_function (this : executor) (function_name : string)
    (params_for_function : value)
    (external_apis_dict_override : option (list (string * capability))) : M value :=
  let! _ :=
    lift (let* shown := JSON.stringify params_for_function 0 in
          substring_method shown 100) in
  if (function_name =? FUNCTION_CREATION_TOOL_DEFINITION_JS_name)%string then
    try_catchM
      (let! hostApiDesc :=
         lift (get_prop params_for_function
                        "host_provided_api_description_for_new_func") in
       let creationParams :=
         obj_delete "host_provided_api_description_for_new_func"
                    (spread params_for_function) in
       match List.find (fun arg =>
                          is_undefined (default VUndefined (assoc arg creationParams)))
                       requiredArgs with
       | Some arg =>
           ret (VStr ("Error: Missing required parameter '" +:+ arg +:+ "' for "
                      +:+ function_name +:+ "."))
       | None =>
           let! answer :=
             create_dynamic_function this
               (default VUndefined (assoc "new_function_name" creationParams))
               (default VUndefined (assoc "new_function_description" creationParams))
               (default VUndefined (assoc "new_function_parameters_schema" creationParams))
               hostApiDesc in
           ret (VStr answer)
       end)
      (fun error =>
         let! message := lift (exn_message error) in
         ret (VStr ("Error: Failed to execute internal JS function " +:+ function_name
                    +:+ ". " +:+ ToString message)))
  else
    let! func_def := get_function_definition_js this function_name in
    let! stored_code := lift (if truthy func_def then get_prop func_def "code_string"
                              else Normal VUndefined) in
    if negb (truthy func_def) || negb (truthy stored_code) then
      ret (VStr ("Error: JS Function '" +:+ function_name +:+ "' not found or has no code."))
    else
      let code_string := stored_code in
      let external_apis :=
        match external_apis_dict_override with
        | Some override => override
        | None => default [] (host_api_execution_dict_getter this)
        end in
      try_catchM
        (match vm_Script (wrappedCode (ToString code_string) function_name) with
         | CompileError message => lift (Throw (SyntaxError message))
         | Script runInContext =>
             let! result :=
               lift (runInContext (sandbox function_name params_for_function external_apis)) in
             match result with
             | VStr _ => ret result
             | _ =>
                 try_catchM
                   (lift (JSON.stringify result 0))
                   (fun stringifyError =>
                      ret (VStr ("Error: Dynamic function " +:+ function_name
                                 +:+ " returned a complex object that could not be serialized. Original type: "
                                 +:+ typeof result)))
             end
         end)
        (fun exec_error =>
           let! _ := lift (exn_stack exec_error) in
           let! _ := lift (substring_method code_string 500) in
           let! message := lift (exn_message exec_error) in
           ret (VStr ("Error: Failed to execute dynamic JS function " +:+ function_name
                      +:+ ". Details: " +:+ ToString message))).

(** The worlds the methods of the class lead to from an empty store
    directory. *)
Inductive reachable : world -> Prop :=
| reach_start (calls : list string) :
    reachable {| files := ∅; llm_calls := calls |}
| reach_create (this : executor) (name description schema api : value) (w : world) :
    reachable w ->
    reachable (snd (create_dynamic_function this name description schema api w))
| reach_store_predefined (this : executor) (funcData : value) (w : world) :
    reachable w ->
    reachable (snd (store_predefined_function_js this funcData w))
| reach_execute (this : executor) (function_name : string) (params : value)
    (override : option (list (string * capability))) (w : world) :
    reachable w ->
    reachable (snd (execute_dynamic_function this function_name params override w))
| reach_clear (this : executor) (w : world) :
    reachable w ->
    reachable (snd (clear_function_store_js this w)).

(** * Properties *)

(** ** Strings and white space *)

Lemma append_cons (c : ascii) (a b : string) : String c a +:+ b = String c (a +:+ b).
Proof using. reflexivity. Qed.

Lemma append_assoc (a b c : string) : (a +:+ b) +:+ c = a +:+ b +:+ c.
Proof using.
  induction a as [ | x a IH ]; [reflexivity|].
  rewrite !append_cons. now f_equal.
Qed.

Lemma length_append (a b : string) :
  String.length (a +:+ b) = String.length a + String.length b.
Proof using.
  induction a as [ | x a IH ]; [reflexivity|].
  rewrite append_cons. cbn [String.length]. now rewrite IH.
Qed.

Lemma skip_ws_blank (b s : string) :
  blank b = true -> JSON.skip_ws (b +:+ s) = JSON.skip_ws s.
Proof using.
  unfold blank. induction b as [ | c b IH ]; [reflexivity|].
  cbn [all_chars]. intros [Hc Hb]%andb_true_iff.
  rewrite append_cons. cbn [JSON.skip_ws]. rewrite Hc. now apply IH.
Qed.

Lemma blank_append (a b : string) :
  blank a = true -> blank b = true -> blank (a +:+ b) = true.
Proof using.
  unfold blank. induction a as [ | c a IH ]; [auto|].
  cbn [all_chars]. intros [Hc Ha]%andb_true_iff Hb.
  rewrite append_cons. cbn [all_chars]. rewrite Hc. now apply IH.
Qed.

Lemma blank_spaces (n : nat) : blank (JSON.spaces n) = true.
Proof using. induction n as [ | n IH ]; [reflexivity|exact IH]. Qed.

Lemma blank_brk (gap indent : string) :
  blank indent = true -> blank (brk gap indent) = true.
Proof using.
  intros H. unfold brk. destruct (gap =? "")%string; [reflexivity|exact H].
Qed.

(** ** String literals *)

Lemma parse_chars_escape (c : ascii) (more : string) :
  JSON.parse_chars (JSON.escape c +:+ more) =
  match JSON.parse_chars more with
  | Some (body, after) => Some (String c body, after)
  | None => None
  end.
Proof using.
  destruct c as [[] [] [] [] [] [] [] []]; reflexivity.
Qed.

Lemma parse_chars_quoted (s rest : string) :
  JSON.parse_chars (JSON.escape_all s +:+ dq +:+ rest) = Some (s, rest).
Proof using.
  induction s as [ | c s IH ]; [reflexivity|].
  change (JSON.escape_all (String c s)) with (JSON.escape c +:+ JSON.escape_all s).
  rewrite append_assoc, parse_chars_escape. now rewrite IH.
Qed.

Lemma append_empty_r (a : string) : a +:+ "" = a.
Proof using.
  induction a as [ | x a IH ]; [reflexivity|].
  rewrite append_cons. now f_equal.
Qed.

(** ** Number literals *)

Lemma digits_of_uint (d : Decimal.uint) :
  all_chars JSON.is_digit (NilEmpty.string_of_uint d) = true.
Proof using.
  induction d; cbn [NilEmpty.string_of_uint all_chars]; auto.
Qed.

Lemma span_digits_all (digits rest : string) :
  all_chars JSON.is_digit digits = true ->
  ends_number rest = true ->
  JSON.span_digits (digits +:+ rest) = (digits, rest).
Proof using.
  induction digits as [ | c digits IH ]; cbn [all_chars].
  - intros _ Hrest. change ("" +:+ rest) with rest.
    destruct rest as [ | c rest ]; [reflexivity|].
    cbn [ends_number] in Hrest. apply andb_true_iff in Hrest as [Hc _].
    cbn [JSON.span_digits]. apply negb_true_iff in Hc. now rewrite Hc.
  - intros [Hc Hdigits]%andb_true_iff Hrest.
    rewrite append_cons. cbn [JSON.span_digits]. rewrite Hc.
    now rewrite (IH Hdigits Hrest).
Qed.

Lemma digits_of_nonnil (d : Decimal.uint) :
  d <> Decimal.Nil ->
  exists c digits,
    NilZero.string_of_uint d = String c digits
    /\ JSON.is_digit c = true
    /\ all_chars JSON.is_digit digits = true.
Proof using.
  intros Hd. pose proof (digits_of_uint d) as Hall.
  destruct d; try congruence; cbn [NilZero.string_of_uint NilEmpty.string_of_uint] in *;
    cbn [all_chars] in Hall; apply andb_true_iff in Hall as [Hc Hall];
    do 2 eexists; repeat split; eauto.
Qed.

Lemma parse_number_print (n : Z) (rest : string) :
  ends_number rest = true ->
  JSON.parse_number (Number_toString n +:+ rest) = Some (n, rest).
Proof using.
  intros Hrest.
  assert (Hfrac : JSON.starts_fraction rest = false).
  { destruct rest as [ | c rest ]; [reflexivity|].
    cbn [ends_number] in Hrest. apply andb_true_iff in Hrest as [_ H].
    now apply negb_true_iff in H. }
  assert (Hback : NilZero.int_of_string (Number_toString n) = Some (Z.to_int n)).
  { unfold Number_toString. apply NilZero.isi; destruct n; cbn [Z.to_int]; try discriminate;
      intros H; injection H as H; now apply DecimalPos.Unsigned.to_uint_nonnil in H. }
  assert (Hshape : exists sign c digits,
            Number_toString n = sign +:+ String c digits
            /\ (sign = "" \/ sign = "-")
            /\ JSON.is_digit c = true
            /\ all_chars JSON.is_digit digits = true).
  { unfold Number_toString. destruct n as [ | p | p ]; cbn [Z.to_int NilZero.string_of_int].
    - exists "", "0"%char, "". repeat split; auto.
    - destruct (digits_of_nonnil (Pos.to_uint p)
                  (DecimalPos.Unsigned.to_uint_nonnil p)) as (c & ds & -> & Hc & Hds).
      exists "", c, ds. repeat split; auto.
    - destruct (digits_of_nonnil (Pos.to_uint p)
                  (DecimalPos.Unsigned.to_uint_nonnil p)) as (c & ds & -> & Hc & Hds).
      exists "-", c, ds. repeat split; auto. }
  destruct Hshape as (sign & c & digits & Hn & Hsign & Hc & Hdigits).
  assert (Hspan : JSON.span_digits (String c digits +:+ rest) = (String c digits, rest)).
  { apply span_digits_all; [|exact Hrest]. cbn [all_chars]. now rewrite Hc. }
  unfold JSON.parse_number. rewrite Hn.
  destruct Hsign as [-> | ->].
  - change ("" +:+ String c digits) with (String c digits) in *.
    rewrite append_cons.
    assert (Hminus : (nat_of_ascii c =? 45)%nat = false).
    { revert Hc. unfold JSON.is_digit. intros [H1 H2]%andb_true_iff.
      apply Nat.leb_le in H1. apply Nat.eqb_neq. lia. }
    rewrite Hminus. rewrite <- append_cons, Hspan.
    change ("" +:+ String c digits) with (String c digits).
    rewrite Hfrac, <- Hn, Hback, DecimalZ.of_to, String.eqb_refl. reflexivity.
  - change ("-" +:+ String c digits) with (String "-" (String c digits)) in *.
    rewrite append_cons.
    change (nat_of_ascii "-" =? 45)%nat with true. cbv iota.
    rewrite Hspan.
    change ("-" +:+ String c digits) with (String "-" (String c digits)).
    rewrite Hfrac, <- Hn, Hback, DecimalZ.of_to, String.eqb_refl. reflexivity.
Qed.

(** ** One step of the reader *)

Lemma skip_ws_idem (s : string) : JSON.skip_ws (JSON.skip_ws s) = JSON.skip_ws s.
Proof using.
  induction s as [ | c s IH ]; [reflexivity|].
  cbn [JSON.skip_ws]. destruct (JSON.is_ws c) eqn:Hc; [exact IH|].
  cbn [JSON.skip_ws]. now rewrite Hc.
Qed.

Lemma parse_value_skip_ws (fuel : nat) (s : string) :
  JSON.parse_value fuel (JSON.skip_ws s) = JSON.parse_value fuel s.
Proof using.
  destruct fuel as [ | fuel ]; [reflexivity|].
  cbn [JSON.parse_value]. now rewrite skip_ws_idem.
Qed.

Lemma parse_value_blank (fuel : nat) (b s : string) :
  blank b = true -> JSON.parse_value fuel (b +:+ s) = JSON.parse_value fuel s.
Proof using.
  intros Hb. rewrite <- (parse_value_skip_ws fuel (b +:+ s)).
  rewrite (skip_ws_blank b s Hb). apply parse_value_skip_ws.
Qed.

Lemma parse_value_string (fuel : nat) (s : string) :
  JSON.parse_value (S fuel) (dq +:+ s) =
  match JSON.parse_chars s with
  | Some (str, after) => Some (VStr str, after)
  | None => None
  end.
Proof using. reflexivity. Qed.

Lemma parse_value_number (fuel : nat) (c : ascii) (s : string) :
  JSON.is_digit c = true \/ c = "-"%char ->
  JSON.parse_value (S fuel) (String c s) =
  match JSON.parse_number (String c s) with
  | Some (z, after) => Some (VNum z, after)
  | None => None
  end.
Proof using.
  intros Hc.
  destruct c as [[] [] [] [] [] [] [] []];
    try reflexivity; exfalso; destruct Hc as [Hc | Hc]; discriminate Hc.
Qed.

Lemma parse_elements_step (fuel : nat) (s : string) :
  JSON.parse_elements (S fuel) s =
  match JSON.parse_value fuel s with
  | Some (v, after) =>
      match JSON.skip_ws after with
      | String c rest =>
          if (nat_of_ascii c =? 44)%nat then
            match JSON.parse_elements fuel rest with
            | Some (vs, after') => Some (v :: vs, after')
            | None => None
            end
          else if (nat_of_ascii c =? 93)%nat then Some ([v], rest)
          else None
      | EmptyString => None
      end
  | None => None
  end.
Proof using. reflexivity. Qed.

Lemma parse_value_array (fuel : nat) (c : ascii) (s t : string) :
  JSON.skip_ws s = String c t ->
  (nat_of_ascii c =? 93)%nat = false ->
  JSON.parse_value (S fuel) (String "[" s) =
  match JSON.parse_elements fuel s with
  | Some (items, after) => Some (VArr items, after)
  | None => None
  end.
Proof using.
  intros Hs Hc. cbn [JSON.parse_value JSON.skip_ws].
  change (JSON.is_ws "[") with false. cbv iota.
  change (nat_of_ascii "[") with 91. cbn [Nat.eqb].
  now rewrite Hs, Hc.
Qed.

Lemma parse_value_object (fuel : nat) (c : ascii) (s t : string) :
  JSON.skip_ws s = String c t ->
  (nat_of_ascii c =? 125)%nat = false ->
  JSON.parse_value (S fuel) (String "{" s) =
  match JSON.parse_members fuel s with
  | Some (props, after) =>
      Some (VObj (fold_left (fun acc kv => obj_set (fst kv) (snd kv) acc) props []), after)
  | None => None
  end.
Proof using.
  intros Hs Hc. cbn [JSON.parse_value JSON.skip_ws].
  change (JSON.is_ws "{") with false. cbv iota.
  change (nat_of_ascii "{") with 123. cbn [Nat.eqb].
  now rewrite Hs, Hc.
Qed.

Lemma parse_members_step (fuel : nat) (k s : string) :
  JSON.parse_members (S fuel) (JSON.quote k +:+ ":" +:+ s) =
  match JSON.parse_value fuel s with
  | Some (v, after) =>
      match JSON.skip_ws after with
      | String c rest' =>
          if (nat_of_ascii c =? 44)%nat then
            match JSON.parse_members fuel rest' with
            | Some (kvs, after') => Some ((k, v) :: kvs, after')
            | None => None
            end
          else if (nat_of_ascii c =? 125)%nat then Some ([(k, v)], rest')
          else None
      | EmptyString => None
      end
  | None => None
  end.
Proof using.
  unfold JSON.quote. rewrite !append_assoc.
  change (dq +:+ JSON.escape_all k +:+ dq +:+ ":" +:+ s)
    with (String (ascii_of_nat 34) (JSON.escape_all k +:+ dq +:+ ":" +:+ s)).
  cbn [JSON.parse_members JSON.skip_ws].
  change (JSON.is_ws (ascii_of_nat 34)) with false. cbv iota.
  change (nat_of_ascii (ascii_of_nat 34) =? 34)%nat with true. cbv iota.
  rewrite parse_chars_quoted. reflexivity.
Qed.

Lemma parse_members_blank (fuel : nat) (b s : string) :
  blank b = true -> JSON.parse_members fuel (b +:+ s) = JSON.parse_members fuel s.
Proof using.
  intros Hb. destruct fuel as [ | fuel ]; [reflexivity|].
  cbn [JSON.parse_members]. now rewrite (skip_ws_blank b s Hb).
Qed.

Lemma parse_elements_blank (fuel : nat) (b s : string) :
  blank b = true -> JSON.parse_elements fuel (b +:+ s) = JSON.parse_elements fuel s.
Proof using.
  intros Hb. destruct fuel as [ | fuel ]; [reflexivity|].
  rewrite !parse_elements_step. now rewrite (parse_value_blank fuel b s Hb).
Qed.

(** ** Reading back what was printed *)

Lemma number_shape (n : Z) :
  exists sign c digits,
    Number_toString n = sign +:+ String c digits
    /\ (sign = "" \/ sign = "-")
    /\ JSON.is_digit c = true
    /\ all_chars JSON.is_digit digits = true.
Proof using.
  unfold Number_toString. destruct n as [ | p | p ]; cbn [Z.to_int NilZero.string_of_int].
  - exists "", "0"%char, "". repeat split; auto.
  - destruct (digits_of_nonnil (Pos.to_uint p)
                (DecimalPos.Unsigned.to_uint_nonnil p)) as (c & ds & -> & Hc & Hds).
    exists "", c, ds. repeat split; auto.
  - destruct (digits_of_nonnil (Pos.to_uint p)
                (DecimalPos.Unsigned.to_uint_nonnil p)) as (c & ds & -> & Hc & Hds).
    exists "-", c, ds. repeat split; auto.
Qed.

Lemma number_head (n : Z) :
  exists c t,
    Number_toString n = String c t /\ (JSON.is_digit c = true \/ c = "-"%char).
Proof using.
  destruct (number_shape n) as (sign & c & digits & -> & [-> | ->] & Hc & _).
  - exists c, digits. split; [reflexivity|]. now left.
  - exists "-"%char, (String c digits). split; [reflexivity|]. now right.
Qed.

Lemma print_head (gap indent : string) (v : value) :
  is_json v = true ->
  exists c t, print gap indent v = String c t /\ opens_value c = true.
Proof using.
  destruct v as [ | | [] | n | n | s | [ | x items] | [ | kv props] ];
    try discriminate; intros _;
    try (do 2 eexists; split; [reflexivity|reflexivity]).
  destruct (number_head n) as (c & t & Heq & Hc).
  exists c, t. split; [exact Heq|].
  destruct Hc as [Hc | ->]; [|reflexivity].
  destruct c as [[] [] [] [] [] [] [] []]; try discriminate Hc; reflexivity.
Qed.

Lemma skip_ws_opens (c : ascii) (t : string) :
  opens_value c = true -> JSON.skip_ws (String c t) = String c t.
Proof using.
  unfold opens_value. intros [[H _]%andb_true_iff _]%andb_true_iff.
  apply negb_true_iff in H. cbn [JSON.skip_ws]. now rewrite H.
Qed.

Lemma ends_number_brk (gap indent : string) (c : ascii) (tail : string) :
  JSON.is_digit c = false ->
  JSON.starts_fraction (String c tail) = false ->
  ends_number (brk gap indent +:+ String c tail) = true.
Proof using.
  intros Hc Hf. unfold brk. destruct (gap =? "")%string.
  - change ("" +:+ String c tail) with (String c tail).
    cbn [ends_number]. now rewrite Hc, Hf.
  - reflexivity.
Qed.

Lemma reads_elements (gap inner outer : string) (items : list value) :
  blank gap = true -> blank inner = true -> blank outer = true ->
  items <> [] ->
  Forall (fun x => is_json x = true -> reads x) items ->
  forallb is_json items = true ->
  forall (fuel : nat) (tail : string),
    list_sum (map (fun x => S (weight x)) items) < fuel ->
    JSON.parse_elements fuel
      (join ("," +:+ brk gap inner) (map (print gap inner) items)
       +:+ brk gap outer +:+ "]" +:+ tail)
    = Some (items, tail).
Proof using.
  intros Hgap Hinner Houter Hne IH. induction IH as [ | x items Hx _ IHitems ];
    [congruence|]. clear Hne.
  cbn [forallb]. intros [Hjx Hjitems]%andb_true_iff fuel tail.
  intros Hfuel.
  destruct fuel as [ | fuel ]; [lia|].
  rewrite parse_elements_step.
  destruct items as [ | y items ].
  - cbn [map join].
    rewrite (Hx Hjx gap inner fuel _ Hgap Hinner); [ | simpl in Hfuel; lia | ].
    2:{ apply ends_number_brk; reflexivity. }
    rewrite (skip_ws_blank _ _ (blank_brk gap outer Houter)).
    reflexivity.
  - change (join ("," +:+ brk gap inner) (map (print gap inner) (x :: y :: items)))
      with (print gap inner x +:+ ("," +:+ brk gap inner)
            +:+ join ("," +:+ brk gap inner) (map (print gap inner) (y :: items))).
    rewrite !append_assoc.
    rewrite (Hx Hjx gap inner fuel _ Hgap Hinner); [ | simpl in Hfuel; lia | reflexivity ].
    change ("," +:+ brk gap inner +:+
            join ("," +:+ brk gap inner) (map (print gap inner) (y :: items)) +:+
            brk gap outer +:+ "]" +:+ tail)
      with (String "," (brk gap inner +:+
            join ("," +:+ brk gap inner) (map (print gap inner) (y :: items)) +:+
            brk gap outer +:+ "]" +:+ tail)).
    cbn [JSON.skip_ws]. change (JSON.is_ws ",") with false. cbv iota.
    change (nat_of_ascii "," =? 44)%nat with true. cbv iota.
    rewrite (parse_elements_blank _ _ _ (blank_brk gap inner Hinner)).
    rewrite (IHitems ltac:(congruence) Hjitems fuel tail); [reflexivity|].
    simpl in Hfuel |- *. lia.
Qed.

Lemma reads_members (gap inner outer : string) (props : list (string * value)) :
  blank gap = true -> blank inner = true -> blank outer = true ->
  props <> [] ->
  Forall (fun kv => is_json (snd kv) = true -> reads (snd kv)) props ->
  forallb (fun kv => is_json (snd kv)) props = true ->
  forall (fuel : nat) (tail : string),
    list_sum (map (fun kv => S (weight (snd kv))) props) < fuel ->
    JSON.parse_members fuel
      (join ("," +:+ brk gap inner)
            (map (fun kv =>
                    JSON.quote (fst kv) +:+ ":"
                    +:+ (if (gap =? "")%string then "" else " ")
                    +:+ print gap inner (snd kv)) props)
       +:+ brk gap outer +:+ "}" +:+ tail)
    = Some (props, tail).
Proof using.
  intros Hgap Hinner Houter Hne IH. induction IH as [ | [k x] props Hx _ IHprops ];
    [congruence|]. clear Hne. cbn [fst snd] in Hx.
  cbn [forallb snd]. intros [Hjx Hjprops]%andb_true_iff fuel tail Hfuel.
  destruct fuel as [ | fuel ]; [simpl in Hfuel; lia|].
  assert (Hsp : blank (if (gap =? "")%string then "" else " ") = true)
    by (destruct (gap =? "")%string; reflexivity).
  destruct props as [ | kv props ].
  - cbn [map join fst snd]. rewrite !append_assoc, parse_members_step.
    rewrite (parse_value_blank _ _ _ Hsp).
    rewrite (Hx Hjx gap inner fuel _ Hgap Hinner); [ | simpl in Hfuel; lia | ].
    2:{ apply ends_number_brk; reflexivity. }
    rewrite (skip_ws_blank _ _ (blank_brk gap outer Houter)).
    reflexivity.
  - set (member := fun kv : string * value =>
                     JSON.quote (fst kv) +:+ ":"
                     +:+ (if (gap =? "")%string then "" else " ")
                     +:+ print gap inner (snd kv)) in *.
    change (join ("," +:+ brk gap inner) (map member ((k, x) :: kv :: props)))
      with (member (k, x) +:+ ("," +:+ brk gap inner)
            +:+ join ("," +:+ brk gap inner) (map member (kv :: props))).
    unfold member at 1. cbn [fst snd].
    rewrite !append_assoc, parse_members_step.
    rewrite (parse_value_blank _ _ _ Hsp).
    rewrite (Hx Hjx gap inner fuel _ Hgap Hinner); [ | simpl in Hfuel; lia | reflexivity ].
    change ("," +:+ brk gap inner +:+
            join ("," +:+ brk gap inner) (map member (kv :: props)) +:+
            brk gap outer +:+ "}" +:+ tail)
      with (String "," (brk gap inner +:+
            join ("," +:+ brk gap inner) (map member (kv :: props)) +:+
            brk gap outer +:+ "}" +:+ tail)).
    cbn [JSON.skip_ws]. change (JSON.is_ws ",") with false. cbv iota.
    change (nat_of_ascii "," =? 44)%nat with true. cbv iota.
    rewrite (parse_members_blank _ _ _ (blank_brk gap inner Hinner)).
    rewrite (IHprops ltac:(congruence) Hjprops fuel tail); [reflexivity|].
    simpl in Hfuel |- *. lia.
Qed.

Lemma obj_set_fresh (k : string) (v : value) (acc : list (string * value)) :
  k ∉ map fst acc -> obj_set k v acc = acc ++ [(k, v)].
Proof using.
  induction acc as [ | [k' v'] acc IH ]; [reflexivity|].
  cbn [map fst obj_set]. intros Hk.
  apply not_elem_of_cons in Hk as [Hne Hk].
  destruct (String.eqb_spec k' k) as [-> | _]; [congruence|].
  cbn [app]. now rewrite IH.
Qed.

Lemma fold_obj_set (props : list (string * value)) :
  forall acc,
    NoDup (map fst (acc ++ props)) ->
    fold_left (fun acc kv => obj_set (fst kv) (snd kv) acc) props acc = acc ++ props.
Proof using.
  induction props as [ | [k v] props IH ]; intros acc Hnodup.
  - cbn [fold_left]. now rewrite app_nil_r.
  - cbn [fold_left fst snd].
    assert (Hfresh : k ∉ map fst acc).
    { rewrite map_app in Hnodup. cbn [map fst] in Hnodup.
      apply NoDup_app in Hnodup as (_ & Hdisj & _).
      intros Hin. apply (Hdisj k Hin). constructor. }
    rewrite (obj_set_fresh k v acc Hfresh).
    rewrite IH; rewrite <- app_assoc; [reflexivity|exact Hnodup].
Qed.

Lemma join_head (sep : string) (parts : list string) (c : ascii) (t : string) :
  parts <> [] ->
  (forall p, head parts = Some p -> exists t', p = String c t') ->
  exists t', join sep parts = String c t'.
Proof using.
  destruct parts as [ | p [ | q parts ] ]; [congruence | | ]; intros _ Hhead.
  - destruct (Hhead p eq_refl) as [t' ->]. now exists t'.
  - destruct (Hhead p eq_refl) as [t' ->]. cbn [join].
    eexists. apply append_cons.
Qed.

Theorem parse_value_print (v : value) : is_json v = true -> reads v.
Proof using.
  induction v as [ | | b | n | n | s | items IH | props IH ] using value_ind;
    intros Hjson gap indent fuel rest Hgap Hindent Hfuel Hrest;
    try discriminate Hjson;
    (destruct fuel as [ | fuel ]; [cbn [weight] in Hfuel; lia|]).
  - vm_compute. reflexivity.
  - destruct b; vm_compute; reflexivity.
  - cbn [print].
    destruct (number_head n) as (c & t & Heq & Hc).
    pose proof (parse_number_print n rest Hrest) as Hnum.
    rewrite Heq in *. rewrite append_cons in *.
    rewrite (parse_value_number fuel c _ Hc). now rewrite Hnum.
  - cbn [print]. unfold JSON.quote. rewrite !append_assoc.
    rewrite parse_value_string. now rewrite parse_chars_quoted.
  - assert (Hinner : blank (indent +:+ gap) = true) by now apply blank_append.
    destruct items as [ | x items ]; [reflexivity|].
    cbn [print]. cbn [is_json] in Hjson.
    set (inner := indent +:+ gap) in *.
    rewrite !append_assoc. rewrite append_cons.
    change ("" +:+ brk gap inner +:+
            join ("," +:+ brk gap inner) (map (print gap inner) (x :: items)) +:+
            brk gap indent +:+ "]" +:+ rest)
      with (brk gap inner +:+
            join ("," +:+ brk gap inner) (map (print gap inner) (x :: items)) +:+
            brk gap indent +:+ "]" +:+ rest).
    assert (Hhead : exists c t,
              JSON.skip_ws (brk gap inner +:+
                join ("," +:+ brk gap inner) (map (print gap inner) (x :: items)) +:+
                brk gap indent +:+ "]" +:+ rest) = String c t
              /\ opens_value c = true).
    { rewrite (skip_ws_blank _ _ (blank_brk gap inner Hinner)).
      cbn [forallb] in Hjson. apply andb_true_iff in Hjson as [Hjx _].
      destruct (print_head gap inner x Hjx) as (c & t & Hprint & Hc).
      destruct (join_head ("," +:+ brk gap inner) (map (print gap inner) (x :: items)) c t)
        as [t' ->]; [discriminate | | ].
      { cbn [map head]. intros p [= <-]. now exists t. }
      rewrite append_cons. exists c. eexists. split; [|exact Hc].
      now apply skip_ws_opens. }
    destruct Hhead as (c & t & Hskip & Hc).
    rewrite (parse_value_array fuel c _ t Hskip).
    2:{ unfold opens_value in Hc.
        apply andb_true_iff in Hc as [[_ Hc]%andb_true_iff _].
        now apply negb_true_iff in Hc. }
    rewrite (parse_elements_blank _ _ _ (blank_brk gap inner Hinner)).
    rewrite (reads_elements gap inner indent (x :: items) Hgap Hinner Hindent
               ltac:(discriminate) IH Hjson fuel rest); [reflexivity|].
    cbn [weight] in Hfuel. lia.
  - assert (Hinner : blank (indent +:+ gap) = true) by now apply blank_append.
    destruct props as [ | kv props ]; [reflexivity|].
    cbn [print]. cbn [is_json] in Hjson.
    apply andb_true_iff in Hjson as [Hnodup Hjson].
    apply bool_decide_eq_true in Hnodup.
    set (inner := indent +:+ gap) in *.
    set (member := fun kv : string * value =>
                     JSON.quote (fst kv) +:+ ":"
                     +:+ (if (gap =? "")%string then "" else " ")
                     +:+ print gap inner (snd kv)) in *.
    rewrite !append_assoc. rewrite append_cons.
    change ("" +:+ brk gap inner +:+
            join ("," +:+ brk gap inner) (map member (kv :: props)) +:+
            brk gap indent +:+ "}" +:+ rest)
      with (brk gap inner +:+
            join ("," +:+ brk gap inner) (map member (kv :: props)) +:+
            brk gap indent +:+ "}" +:+ rest).
    assert (Hhead : exists t,
              JSON.skip_ws (brk gap inner +:+
                join ("," +:+ brk gap inner) (map member (kv :: props)) +:+
                brk gap indent +:+ "}" +:+ rest) = String (ascii_of_nat 34) t).
    { rewrite (skip_ws_blank _ _ (blank_brk gap inner Hinner)).
      destruct (join_head ("," +:+ brk gap inner) (map member (kv :: props))
                  (ascii_of_nat 34)
                  (JSON.escape_all (fst kv) +:+ dq +:+ ":"
                   +:+ (if (gap =? "")%string then "" else " ")
                   +:+ print gap inner (snd kv)))
        as [t' ->]; [discriminate | | ].
      { cbn [map head]. intros p [= <-]. unfold member, JSON.quote.
        rewrite !append_assoc. eexists. reflexivity. }
      rewrite append_cons. eexists. reflexivity. }
    destruct Hhead as (t & Hskip).
    rewrite (parse_value_object fuel _ _ t Hskip); [|reflexivity].
    rewrite (parse_members_blank _ _ _ (blank_brk gap inner Hinner)).
    subst member.
    rewrite (reads_members gap inner indent (kv :: props) Hgap Hinner Hindent
               ltac:(discriminate) IH Hjson fuel rest).
    + now rewrite (fold_obj_set (kv :: props) []).
    + cbn [weight] in Hfuel. lia.
Qed.

(** ** JSON.stringify on plain data is [print] *)

Lemma serialize_print (gap : string) (v : value) :
  is_json v = true ->
  forall indent, JSON.serialize gap indent v = Normal (Some (print gap indent v)).
Proof using.
  induction v as [ | | b | n | n | s | items IH | props IH ] using value_ind;
    intros Hjson indent; try discriminate Hjson; try reflexivity.
  - destruct b; reflexivity.
  - cbn [JSON.serialize]. cbn [is_json] in Hjson.
    set (inner := indent +:+ gap).
    match goal with |- context [bind ?c _] =>
      assert (Hparts : c = Normal (map (print gap inner) items)) end.
    { induction IH as [ | x rest Hx _ IHrest ]; [reflexivity|].
      cbn [forallb] in Hjson. apply andb_true_iff in Hjson as [Hjx Hjrest].
      rewrite (Hx Hjx inner). cbn [bind]. rewrite (IHrest Hjrest). reflexivity. }
    rewrite Hparts. cbn [bind].
    destruct items as [ | x items ]; [reflexivity|].
    cbn [map print]. unfold brk. fold inner.
    destruct (gap =? "")%string; reflexivity.
  - cbn [JSON.serialize]. cbn [is_json] in Hjson.
    apply andb_true_iff in Hjson as [_ Hjson].
    set (inner := indent +:+ gap).
    match goal with |- context [bind ?c _] =>
      assert (Hparts : c = Normal (map (fun kv =>
                           JSON.quote (fst kv) +:+ ":"
                           +:+ (if (gap =? "")%string then "" else " ")
                           +:+ print gap inner (snd kv)) props)) end.
    { induction IH as [ | [k x] rest Hx _ IHrest ]; [reflexivity|].
      cbn [forallb snd] in Hjson. apply andb_true_iff in Hjson as [Hjx Hjrest].
      cbn [snd] in Hx. rewrite (Hx Hjx inner). cbn [bind].
      rewrite (IHrest Hjrest). reflexivity. }
    rewrite Hparts. cbn [bind].
    destruct props as [ | kv props ]; [reflexivity|].
    cbn [map print]. unfold brk. fold inner.
    destruct (gap =? "")%string; reflexivity.
Qed.

(** ** The text is long enough to serve as fuel *)

Lemma join_cons2 (sep p q : string) (parts : list string) :
  join sep (p :: q :: parts) = p +:+ sep +:+ join sep (q :: parts).
Proof using. reflexivity. Qed.

Lemma member_length (key sep text : string) :
  String.length text <= String.length (JSON.quote key +:+ ":" +:+ sep +:+ text).
Proof using. rewrite !length_append. lia. Qed.

Lemma weight_le_length (gap : string) (v : value) :
  is_json v = true ->
  forall indent, weight v <= String.length (print gap indent v).
Proof using.
  induction v as [ | | b | n | n | s | items IH | props IH ] using value_ind;
    intros Hjson indent; try discriminate Hjson; cbn [weight print].
  - cbn; lia.
  - destruct b; cbn; lia.
  - destruct (number_head n) as (c & t & -> & _). cbn [String.length]. lia.
  - unfold JSON.quote. rewrite length_append.
    change (String.length dq) with 1. lia.
  - set (inner := indent +:+ gap). cbn [is_json] in Hjson.
    destruct items as [ | x items ]; [cbn; lia|].
    rewrite append_cons. cbn [String.length]. rewrite !length_append.
    assert (Hsum : list_sum (map (fun x => S (weight x)) (x :: items))
                   <= S (String.length
                           (join ("," +:+ brk gap inner)
                                 (map (print gap inner) (x :: items))))).
    { clear -IH Hjson. induction IH as [ | y rest Hy Hrest IHrest ]; [cbn; lia|].
      cbn [forallb] in Hjson. apply andb_true_iff in Hjson as [Hjy Hjrest].
      specialize (Hy Hjy inner). specialize (IHrest Hjrest).
      destruct rest as [ | z rest ]; [cbn [map join list_sum]; simpl; lia|].
      change (map (print gap inner) (y :: z :: rest))
        with (print gap inner y :: print gap inner z :: map (print gap inner) rest).
      rewrite join_cons2, !length_append. change (String.length ",") with 1.
      change (print gap inner z :: map (print gap inner) rest)
        with (map (print gap inner) (z :: rest)).
      change (list_sum (map (fun x => S (weight x)) (y :: z :: rest)))
        with (S (weight y) + list_sum (map (fun x => S (weight x)) (z :: rest))).
      lia. }
    cbn [String.length]. lia.
  - set (inner := indent +:+ gap). cbn [is_json] in Hjson.
    apply andb_true_iff in Hjson as [_ Hjson].
    destruct props as [ | kv props ]; [cbn; lia|].
    rewrite append_cons. cbn [String.length]. rewrite !length_append.
    set (member := fun kv : string * value =>
                     JSON.quote (fst kv) +:+ ":"
                     +:+ (if (gap =? "")%string then "" else " ")
                     +:+ print gap inner (snd kv)).
    assert (Hmember : forall kv, weight (snd kv) <= String.length (print gap inner (snd kv)) ->
                                 weight (snd kv) <= String.length (member kv)).
    { intros kv0 H. eapply Nat.le_trans; [exact H|]. apply member_length. }
    assert (Hsum : list_sum (map (fun kv => S (weight (snd kv))) (kv :: props))
                   <= S (String.length
                           (join ("," +:+ brk gap inner) (map member (kv :: props))))).
    { clear -IH Hmember Hjson. induction IH as [ | y rest Hy Hrest IHrest ]; [cbn; lia|].
      cbn [forallb] in Hjson. apply andb_true_iff in Hjson as [Hjy Hjrest].
      specialize (Hy Hjy inner). apply Hmember in Hy. specialize (IHrest Hjrest).
      destruct rest as [ | z rest ].
      { change (list_sum (map (fun kv => S (weight (snd kv))) [y]))
          with (S (weight (snd y)) + 0).
        change (join ("," +:+ brk gap inner) (map member [y])) with (member y). lia. }
      change (map member (y :: z :: rest))
        with (member y :: member z :: map member rest).
      rewrite join_cons2, !length_append. change (String.length ",") with 1.
      change (member z :: map member rest) with (map member (z :: rest)).
      change (list_sum (map (fun kv => S (weight (snd kv))) (y :: z :: rest)))
        with (S (weight (snd y))
              + list_sum (map (fun kv => S (weight (snd kv))) (z :: rest))).
      lia. }
    cbn [String.length]. lia.
Qed.

(** ** Round trip *)

Theorem stringify_then_parse (v : value) (space : nat) :
  is_json v = true ->
  exists text,
    JSON.stringify v space = Normal (VStr text) /\ JSON.parse text = Normal v.
Proof using.
  intros Hjson. set (gap := JSON.spaces (Nat.min space 10)).
  exists (print gap "" v). split.
  - unfold JSON.stringify. fold gap. now rewrite (serialize_print gap v Hjson "").
  - unfold JSON.parse.
    pose proof (parse_value_print v Hjson gap "" (S (String.length (print gap "" v))) ""
                  (blank_spaces _) eq_refl) as Hread.
    rewrite append_empty_r in Hread. rewrite Hread; [reflexivity| | reflexivity].
    pose proof (weight_le_length gap v Hjson ""). lia.
Qed.

(** ** The invalid-name gate *)


(** The same gate seen from [execute_dynamic_function]: a creation
    request that carries the three arguments, with a name that fails
    the identifier test, comes back as the invalid-name string and the
    world is untouched. *)
Lemma invalid_name_rejected_by_dispatcher (this : executor) (params : value)
    (override : option (list (string * capability))) (w : world)
    (shown : string) (name description schema : value) :
  JSON.stringify params 0 = Normal (VStr shown) ->
  get_prop params "new_function_name" = Normal name ->
  get_prop params "new_function_description" = Normal description ->
  get_prop params "new_function_parameters_schema" = Normal schema ->
  truthy name && truthy description && truthy schema = true ->
  identifier_test (ToString name) = false ->
  execute_dynamic_function this FUNCTION_CREATION_TOOL_DEFINITION_JS_name params override w
  = (Normal (VStr ("Error: Invalid JS function name '" +:+ ToString name +:+ "'.")), w).
Proof.
  intros Hshown Hname Hdescription Hschema Htruthy Hbad.
  apply andb_true_iff in Htruthy as [[Hn Hd]%andb_true_iff Hs].
  destruct params as [ | | b | z | z | s | items | props ]; try discriminate Hname.
  all: cbn [get_prop] in Hname, Hdescription, Hschema.
  all: injection Hname as <-; injection Hdescription as <-; injection Hschema as <-.
  all: try discriminate Hn.
  unfold execute_dynamic_function. rewrite Hshown.
  unfold bindM at 1. unfold lift at 1. cbn [bind substring_method].
  rewrite String.eqb_refl. unfold try_catchM.
  unfold bindM at 1. unfold lift at 1. cbn [get_prop spread].
  set (creationParams := obj_delete "host_provided_api_description_for_new_func" props).
  assert (Hkeep : forall k,
            k <> "host_provided_api_description_for_new_func" ->
            assoc k creationParams = assoc k props).
  { intros k Hk. unfold creationParams. clear -Hk.
    induction props as [ | [k' v'] props IH ]; [reflexivity|].
    cbn [obj_delete assoc].
    destruct (String.eqb_spec k' "host_provided_api_description_for_new_func")
      as [-> | Hne].
    - destruct (String.eqb_spec "host_provided_api_description_for_new_func" k);
        [congruence|reflexivity].
    - cbn [assoc]. destruct (k' =? k)%string; [reflexivity|exact IH]. }
  assert (Hfind : List.find (fun arg =>
                     is_undefined (default VUndefined (assoc arg creationParams)))
                    requiredArgs = None).
  { unfold requiredArgs. cbn [List.find].
    rewrite !Hkeep by discriminate.
    destruct (default VUndefined (assoc "new_function_name" props)); try discriminate Hn;
    destruct (default VUndefined (assoc "new_function_description" props));
      try discriminate Hd;
    destruct (default VUndefined (assoc "new_function_parameters_schema" props));
      try discriminate Hs; reflexivity. }
  rewrite Hfind. rewrite !Hkeep by discriminate.
  unfold bindM at 1. unfold create_dynamic_function.
  rewrite Hn, Hd, Hs, Hbad. reflexivity.
Qed.

(** ** Lookup of a stored definition *)

Lemma get_function_definition_js_absent (this : executor) (function_name : string)
    (w : world) :
  files w !! (function_name +:+ ".json") = None ->
  get_function_definition_js this function_name w = (Normal VNull, w).
Proof.
  intros Hnone. unfold get_function_definition_js, fs.existsSync.
  now rewrite Hnone.
Qed.

Lemma get_function_definition_js_unreadable (this : executor) (function_name : string)
    (w : world) (node : fs.node) :
  files w !! (function_name +:+ ".json") = Some node ->
  (node = fs.Dir \/
   exists content e, node = fs.File content /\ JSON.parse content = Throw e) ->
  get_function_definition_js this function_name w = (Normal VNull, w).
Proof.
  intros Hnode Hbad.
  unfold get_function_definition_js, fs.existsSync, fs.readFileSync.
  rewrite Hnode.
  destruct Hbad as [-> | (content & e & -> & Hparse)]; cbn [bind try_catch].
  - reflexivity.
  - now rewrite Hparse.
Qed.

(** What [execute_dynamic_function] does with a name other than the
    creation tool's once the lookup has come back [null]. *)
Lemma execute_dynamic_function_null_lookup (this : executor) (function_name : string)
    (params : value) (override : option (list (string * capability))) (w : world) :
  (function_name =? FUNCTION_CREATION_TOOL_DEFINITION_JS_name)%string = false ->
  get_function_definition_js this function_name w = (Normal VNull, w) ->
  execute_dynamic_function this function_name params override w =
  match (let* shown := JSON.stringify params 0 in substring_method shown 100) with
  | Normal _ =>
      (Normal (VStr ("Error: JS Function '" +:+ function_name
                     +:+ "' not found or has no code.")), w)
  | Throw e => (Throw e, w)
  | Pending => (Pending, w)
  end.
Proof.
  intros Hname Hget. unfold execute_dynamic_function.
  rewrite Hname. unfold bindM at 1. unfold lift at 1.
  destruct (let* shown := JSON.stringify params 0 in substring_method shown 100);
    try reflexivity.
  unfold bindM at 1. rewrite Hget. reflexivity.
Qed.

(** C10.  A record file that exists but is a directory, or whose text
    is not JSON, makes the lookup return [null]; running that name then
    ends exactly as running a name with no file at all, and whenever
    the parameters can be shown in the log line the answer is the
    not-found string. *)
Theorem unreadable_record_reads_as_not_found (this : executor) (function_name : string)
    (params : value) (override : option (list (string * capability)))
    (w : world) (node : fs.node) :
  (function_name =? FUNCTION_CREATION_TOOL_DEFINITION_JS_name)%string = false ->
  files w !! (function_name +:+ ".json") = Some node ->
  (node = fs.Dir \/
   exists content e, node = fs.File content /\ JSON.parse content = Throw e) ->
  get_function_definition_js this function_name w = (Normal VNull, w)
  /\ (forall w0 : world,
        files w0 !! (function_name +:+ ".json") = None ->
        (execute_dynamic_function this function_name params override w).1 =
        (execute_dynamic_function this function_name params override w0).1)
  /\ (forall shown : string,
        JSON.stringify params 0 = Normal (VStr shown) ->
        execute_dynamic_function this function_name params override w =
        (Normal (VStr ("Error: JS Function '" +:+ function_name
                       +:+ "' not found or has no code.")), w)).
Proof.
  intros Hname Hnode Hbad.
  pose proof (get_function_definition_js_unreadable this function_name w node Hnode Hbad)
    as Hget.
  split; [exact Hget|]. split.
  - intros w0 Hnone.
    rewrite (execute_dynamic_function_null_lookup _ _ _ _ w Hname Hget).
    rewrite (execute_dynamic_function_null_lookup _ _ _ _ w0 Hname
               (get_function_definition_js_absent this function_name w0 Hnone)).
    destruct (let* shown := JSON.stringify params 0 in substring_method shown 100);
      reflexivity.
  - intros shown Hshown.
    rewrite (execute_dynamic_function_null_lookup _ _ _ _ w Hname Hget).
    now rewrite Hshown.
Qed.

(** ** Running a stored function *)

(** The invocation path once the log line has been built, the record
    found and the wrapper compiled: the answer is read off what
    awaiting the script yields in the sandbox. *)
Lemma execute_dynamic_function_stored (this : executor) (function_name : string)
    (params : value) (override : option (list (string * capability)))
    (w : world) (shown : string) (func_def code : value)
    (run : list (string * binding) -> completion value) :
  (function_name =? FUNCTION_CREATION_TOOL_DEFINITION_JS_name)%string = false ->
  JSON.stringify params 0 = Normal (VStr shown) ->
  get_function_definition_js this function_name w = (Normal func_def, w) ->
  truthy func_def = true ->
  get_prop func_def "code_string" = Normal code ->
  truthy code = true ->
  vm_Script (wrappedCode (ToString code) function_name) = Script run ->
  execute_dynamic_function this function_name params override w =
  (match run (sandbox function_name params
                match override with
                | Some apis => apis
                | None => default [] (host_api_execution_dict_getter this)
                end) with
   | Normal (VStr s) => Normal (VStr s)
   | Normal result =>
       match JSON.stringify result 0 with
       | Throw _ =>
           Normal (VStr ("Error: Dynamic function " +:+ function_name
                         +:+ " returned a complex object that could not be serialized. Original type: "
                         +:+ typeof result))
       | other => other
       end
   | Throw exec_error =>
       let* _ := exn_stack exec_error in
       let* _ := substring_method code 500 in
       let* message := exn_message exec_error in
       Normal (VStr ("Error: Failed to execute dynamic JS function " +:+ function_name
                     +:+ ". Details: " +:+ ToString message))
   | Pending => Pending
   end, w).
Proof.
  intros Hname Hshown Hget Hdef Hcode Htruthy Hscript.
  unfold execute_dynamic_function.
  rewrite Hname, Hshown. unfold bindM at 1. unfold lift at 1. cbn [bind substring_method].
  unfold bindM at 1. rewrite Hget.
  unfold bindM at 1. unfold lift at 1. rewrite Hdef, Hcode, Htruthy. cbn [negb orb].
  rewrite Hscript. unfold try_catchM at 1. unfold bindM at 1. unfold lift at 1.
  destruct (run _) as [result | exec_error |].
  - destruct result; try reflexivity;
      unfold try_catchM, lift, ret;
      match goal with |- context [JSON.stringify ?r 0] =>
        destruct (JSON.stringify r 0); reflexivity end.
  - unfold bindM, lift, ret.
    destruct (exn_stack exec_error); try reflexivity. cbn [bind].
    destruct (substring_method code 500); try reflexivity. cbn [bind].
    destruct (exn_message exec_error); reflexivity.
  - reflexivity.
Qed.

(** C1, at the failing input.  When awaiting the stored function never
    yields, neither does [execute_dynamic_function]: no deadline is set
    on the [await], so no timeout error comes back. *)
Theorem never_settling_call_is_awaited_forever (this : executor) (function_name : string)
    (params : value) (override : option (list (string * capability)))
    (w : world) (shown : string) (func_def code : value)
    (run : list (string * binding) -> completion value) :
  (function_name =? FUNCTION_CREATION_TOOL_DEFINITION_JS_name)%string = false ->
  JSON.stringify params 0 = Normal (VStr shown) ->
  get_function_definition_js this function_name w = (Normal func_def, w) ->
  truthy func_def = true ->
  get_prop func_def "code_string" = Normal code ->
  truthy code = true ->
  vm_Script (wrappedCode (ToString code) function_name) = Script run ->
  (forall context, run context = Pending) ->
  execute_dynamic_function this function_name params override w = (Pending, w).
Proof.
  intros Hname Hshown Hget Hdef Hcode Htruthy Hscript Hnever.
  rewrite (execute_dynamic_function_stored this function_name params override w
             shown func_def code run Hname Hshown Hget Hdef Hcode Htruthy Hscript).
  now rewrite Hnever.
Qed.

(** C3, at the failing inputs.  Parameters that [JSON.stringify] cannot
    show make the first statement of [execute_dynamic_function] throw,
    for every function name; and a stored function that resolves to
    [undefined] makes it return [undefined], which is not a string. *)
Theorem dispatcher_can_throw_and_can_return_undefined (this : executor)
    (function_name : string) (override : option (list (string * capability)))
    (w : world) :
  execute_dynamic_function this function_name VUndefined override w =
    (Throw (TypeError "Cannot read properties of undefined (reading 'substring')"), w)
  /\ execute_dynamic_function this function_name
       (VObj [("amount", VBigInt 1)]) override w =
    (Throw (TypeError "Do not know how to serialize a BigInt"), w)
  /\ forall (params : value) (shown : string) (func_def code : value)
       (run : list (string * binding) -> completion value),
       (function_name =? FUNCTION_CREATION_TOOL_DEFINITION_JS_name)%string = false ->
       JSON.stringify params 0 = Normal (VStr shown) ->
       get_function_definition_js this function_name w = (Normal func_def, w) ->
       truthy func_def = true ->
       get_prop func_def "code_string" = Normal code ->
       truthy code = true ->
       vm_Script (wrappedCode (ToString code) function_name) = Script run ->
       (forall context, run context = Normal VUndefined) ->
       execute_dynamic_function this function_name params override w =
         (Normal VUndefined, w).
Proof.
  split; [reflexivity|]. split; [reflexivity|].
  intros params shown func_def code run Hname Hshown Hget Hdef Hcode Htruthy Hscript Hrun.
  rewrite (execute_dynamic_function_stored this function_name params override w
             shown func_def code run Hname Hshown Hget Hdef Hcode Htruthy Hscript).
  now rewrite Hrun.
Qed.

(** ** The sandbox *)


(** ** JSON.stringify always comes back *)

Lemma serialize_outcome (gap : string) (v : value) :
  forall indent,
    match JSON.serialize gap indent v with
    | Normal _ => True
    | Throw e => e = bigint_refused
    | Pending => False
    end.
Proof using.
  induction v as [ | | b | n | n | s | items IH | props IH ] using value_ind;
    intros indent; try destruct b; try exact I; try reflexivity.
  - cbn [JSON.serialize].
    match goal with |- context [bind ?c _] =>
      assert (Hc : match c with
                   | Normal _ => True
                   | Throw e => e = bigint_refused
                   | Pending => False
                   end) end.
    { induction IH as [ | x rest Hx _ IHrest ]; [exact I|].
      specialize (Hx (indent +:+ gap)).
      destruct (JSON.serialize gap (indent +:+ gap) x); try exact Hx; cbn [bind].
      match goal with |- context [bind ?c _] => destruct c end;
        cbn [bind]; solve [exact I | exact IHrest]. }
    match goal with |- context [bind ?c _] => destruct c end;
      cbn [bind]; solve [exact I | exact Hc].
  - cbn [JSON.serialize].
    match goal with |- context [bind ?c _] =>
      assert (Hc : match c with
                   | Normal _ => True
                   | Throw e => e = bigint_refused
                   | Pending => False
                   end) end.
    { induction IH as [ | [k x] rest Hx _ IHrest ]; [exact I|].
      specialize (Hx (indent +:+ gap)). cbn [snd] in Hx.
      destruct (JSON.serialize gap (indent +:+ gap) x); try exact Hx; cbn [bind].
      match goal with |- context [bind ?c _] => destruct c end;
        cbn [bind]; solve [exact I | exact IHrest]. }
    match goal with |- context [bind ?c _] => destruct c end;
      cbn [bind]; solve [exact I | exact Hc].
Qed.

Lemma stringify_outcome (v : value) (space : nat) :
  match JSON.stringify v space with
  | Normal _ => True
  | Throw e => e = bigint_refused
  | Pending => False
  end.
Proof using.
  unfold JSON.stringify.
  pose proof (serialize_outcome (JSON.spaces (Nat.min space 10)) v "") as H.
  destruct (JSON.serialize _ _ v); cbn [bind]; exact H.
Qed.

(** ** The repair loop *)

Lemma generate_prompt_outcome
    (name description schema api : value) (is_repair : bool) (code message : value) :
  match _generateJSFunctionCreationPrompt name description schema api
          is_repair code message with
  | Normal _ => True
  | Throw e => e = bigint_refused
  | Pending => False
  end.
Proof using.
  unfold _generateJSFunctionCreationPrompt.
  destruct is_repair; cbn [bind]; [exact I|].
  pose proof (stringify_outcome schema 2) as H.
  destruct (JSON.stringify schema 2); cbn [bind]; exact H.
Qed.

(** A repair prompt is built without serialising the schema. *)
Lemma generate_repair_prompt (name description schema api code message : value) :
  _generateJSFunctionCreationPrompt name description schema api true code message
  = Normal (repair_template (ToString name) (ToString message) (ToString code)
            +:+ instructions_template (ToString name)).
Proof using. reflexivity. Qed.

Section rejected_attempts.

Variables (this : executor) (name description schema api : value).

Hypothesis oracle_answers :
  forall history prompt,
    answers_or_rejects (chat_completions_create history prompt) = true.

Hypothesis candidates_rejected :
  forall history prompt s,
    chat_completions_create history prompt = Normal (VStr s) ->
    exists message,
      vm_Script (vmScriptCode (trim (strip_fences (trim s))) (ToString name))
      = CompileError message.

Lemma attempt_body_rejected (attempt : nat) (vars : loop_vars) (w : world) :
  failed_so_far vars ->
  exists vars' w' n m l,
    attempt_body this name description schema api attempt vars w
    = (Normal (false, vars'), w')
    /\ last_error vars' = Some (Error n m)
    /\ files w' = files w
    /\ llm_calls w' = llm_calls w ++ l
    /\ length l <= 1.
Proof.
  intros Hvars. unfold attempt_body, try_catchM.
  unfold bindM at 1. unfold lift at 1.
  assert (Hprompt : match attempt_prompt this name description schema api attempt vars with
                    | Normal _ => True
                    | Throw e => e = bigint_refused
                    | Pending => False
                    end).
  { unfold attempt_prompt. unfold failed_so_far in Hvars.
    destruct (last_error vars) as [[n m | v] | ]; try discriminate;
      cbn [exn_truthy exn_message bind]; apply generate_prompt_outcome. }
  destruct (attempt_prompt this name description schema api attempt vars)
    as [prompt | e0 | ]; [ | subst e0 | contradiction ].
  2:{ unfold bindM, lift, ret. destruct (attempt =? _)%nat; cbn [exn_message bigint_refused TypeError];
      do 2 eexists; exists "TypeError", "Do not know how to serialize a BigInt", [];
      (split; [reflexivity|]); cbn [last_error]; rewrite app_nil_r; repeat split; auto. }
  unfold bindM at 1. unfold call_llm at 1.
  pose proof (oracle_answers (llm_calls w) prompt) as Hanswer.
  pose proof (candidates_rejected (llm_calls w) prompt) as Hreject.
  destruct (chat_completions_create (llm_calls w) prompt) as [content | [n m | v] | ];
    cbn [answers_or_rejects is_error_object] in Hanswer; try discriminate.
  - unfold bindM at 1. unfold lift at 1.
    destruct content as [ | | b | z | z | s | items | props ]; cbn [optional_trim];
      try (cbn [truthy negb]; unfold ret; do 2 eexists;
           exists "Error", "LLM returned empty code string.", [prompt];
           (split; [reflexivity|]); cbn [last_error files llm_calls]; repeat split; auto);
      try (unfold bindM, lift, ret;
           destruct (attempt =? _)%nat; cbn [exn_message TypeError];
           do 2 eexists; exists "TypeError", "trim is not a function", [prompt];
           (split; [reflexivity|]); cbn [last_error files llm_calls]; repeat split; auto).
    destruct (truthy (VStr (trim s))) eqn:Hgen; cbn [negb].
    + destruct (Hreject s eq_refl) as [message Hvm]. cbn [ToString].
      rewrite Hvm. unfold ret. do 2 eexists. exists "SyntaxError", message, [prompt].
      (split; [reflexivity|]); cbn [last_error files llm_calls]; repeat split; auto.
    + unfold ret; do 2 eexists;
        exists "Error", "LLM returned empty code string.", [prompt];
        (split; [reflexivity|]); cbn [last_error files llm_calls]; repeat split; auto.
  - unfold bindM, lift, ret. destruct (attempt =? _)%nat; cbn [exn_message];
      do 2 eexists; exists n, m, [prompt];
      (split; [reflexivity|]); cbn [last_error files llm_calls]; repeat split; auto.
Qed.

Lemma repair_loop_rejected (remaining : nat) :
  forall (attempt : nat) (vars : loop_vars) (w : world),
    failed_so_far vars ->
    exists vars' w' l,
      repair_loop this name description schema api remaining attempt vars w
      = (Normal vars', w')
      /\ failed_so_far vars'
      /\ (0 < remaining -> exists n m, last_error vars' = Some (Error n m))
      /\ files w' = files w
      /\ llm_calls w' = llm_calls w ++ l
      /\ length l <= remaining.
Proof.
  induction remaining as [ | remaining IH ]; intros attempt vars w Hvars.
  - exists vars, w, []. cbn [repair_loop]. unfold ret. rewrite app_nil_r.
    repeat split; auto. intros H; inversion H.
  - cbn [repair_loop]. unfold bindM at 1.
    destruct (attempt_body_rejected attempt vars w Hvars)
      as (vars1 & w1 & n & m & l1 & -> & Herr & Hfiles & Hcalls & Hlen).
    cbn [fst snd].
    assert (Hvars1 : failed_so_far vars1) by (unfold failed_so_far; now rewrite Herr).
    destruct (IH (S attempt) vars1 w1 Hvars1)
      as (vars2 & w2 & l2 & Heq2 & Hvars2 & Hlast & Hfiles2 & Hcalls2 & Hlen2).
    rewrite Heq2.
    exists vars2, w2, (l1 ++ l2). split; [reflexivity|]. split; [exact Hvars2|].
    split.
    { intros _. destruct remaining as [ | remaining' ].
      - cbn [repair_loop] in Heq2. unfold ret in Heq2.
        exists n, m. congruence.
      - apply Hlast. lia. }
    split; [congruence|]. split.
    + rewrite Hcalls2, Hcalls. now rewrite app_assoc.
    + rewrite length_app. lia.
Qed.

End rejected_attempts.

(** C5.  With the constructor's three retries, a model that always
    answers (or rejects with an Error) and whose every candidate is
    refused by the syntax check is asked at most four times; the call
    then returns the failure string, which names the four attempts and
    the message of the error the loop ended on, and the store
    directory is as it was. *)
Theorem repair_budget_is_four_calls (this : executor)
    (name description schema api : value) (w : world) :
  MAX_SYNTAX_REPAIR_RETRIES this = 3 ->
  truthy name = true -> truthy description = true -> truthy schema = true ->
  identifier_test (ToString name) = true ->
  (forall history prompt,
     answers_or_rejects (chat_completions_create history prompt) = true) ->
  (forall history prompt s,
     chat_completions_create history prompt = Normal (VStr s) ->
     exists message,
       vm_Script (vmScriptCode (trim (strip_fences (trim s))) (ToString name))
       = CompileError message) ->
  exists (prompts : list string) (last : string) (w' : world),
    create_dynamic_function this name description schema api w =
      (Normal ("Error: Failed to generate/validate JS code for " +:+ ToString name
               +:+ " after 4 attempt(s). Last error: " +:+ last), w')
    /\ files w' = files w
    /\ llm_calls w' = llm_calls w ++ prompts
    /\ length prompts <= 4
    /\ exists (vars : loop_vars) (kind : string),
         repair_loop this name description schema api 4 0 initial_vars w
         = (Normal vars, w')
         /\ last_error vars = Some (Error kind last).
Proof.
  intros Hmax Hname Hdesc Hschema Hident Horacle Hreject.
  unfold create_dynamic_function.
  rewrite Hname, Hdesc, Hschema, Hident, Hmax. cbn [negb orb].
  unfold bindM at 1.
  destruct (repair_loop_rejected this name description schema api Horacle Hreject
              (3 + 1) 0 initial_vars w I)
    as (vars & w' & prompts & Hloop & _ & Hlast & Hfiles & Hcalls & Hlen).
  destruct Hlast as (n & m & Hlast); [lia|].
  fold initial_vars. rewrite Hloop, Hlast. cbn [exn_truthy exn_message].
  exists prompts, m, w'. unfold bindM, lift, ret. cbn [ToString].
  repeat split; auto. exists vars, n. split; [exact Hloop|exact Hlast].
Qed.

(** ** What the next attempt is asked *)


(** Whatever the model answers, an attempt whose prompt could be built
    sends exactly that prompt, and touches no file. *)
Lemma attempt_body_sends_its_prompt (this : executor)
    (name description schema api : value) (attempt : nat) (vars : loop_vars)
    (w : world) (prompt : string) :
  attempt_prompt this name description schema api attempt vars = Normal prompt ->
  exists outcome w',
    attempt_body this name description schema api attempt vars w = (outcome, w')
    /\ llm_calls w' = llm_calls w ++ [prompt]
    /\ files w' = files w.
Proof.
  intros Hprompt. unfold attempt_body, try_catchM.
  unfold bindM at 1. unfold lift at 1. rewrite Hprompt.
  unfold bindM at 1. unfold call_llm at 1.
  destruct (chat_completions_create (llm_calls w) prompt) as [content | e | ].
  - unfold bindM at 1. unfold lift at 1.
    destruct (optional_trim content) as [generated | e | ].
    + destruct (negb (truthy generated)); [do 2 eexists; repeat split|].
      destruct (vm_Script _); do 2 eexists; repeat split.
    + unfold bindM, lift, ret.
      destruct (if (attempt =? _)%nat then _ else _); do 2 eexists; repeat split.
    + do 2 eexists; repeat split.
  - unfold bindM, lift, ret.
    destruct (if (attempt =? _)%nat then _ else _); do 2 eexists; repeat split.
  - do 2 eexists; repeat split.
Qed.


(** ** The syntax check *)

(** C2, at the failing input.  A candidate passes as soon as the check
    script compiles: the compiled script is never run, so the [typeof]
    test and the [throw] written into it decide nothing, and the loop
    breaks with the candidate accepted whatever running the script
    would have done. *)
Theorem syntax_check_compiles_but_never_runs (this : executor)
    (name description schema api : value) (attempt : nat) (vars : loop_vars)
    (w : world) (prompt s : string)
    (run : list (string * binding) -> completion value) :
  attempt_prompt this name description schema api attempt vars = Normal prompt ->
  chat_completions_create (llm_calls w) prompt = Normal (VStr s) ->
  truthy (VStr (trim s)) = true ->
  vm_Script (vmScriptCode (trim (strip_fences (trim s))) (ToString name)) = Script run ->
  attempt_body this name description schema api attempt vars w =
  (Normal (true, {| generated_code_string := VStr (trim s);
                    last_error := None;
                    sanitized_code := trim (strip_fences (trim s)) |}),
   {| files := files w; llm_calls := llm_calls w ++ [prompt] |}).
Proof.
  intros Hprompt Hreply Hgen Hvm. unfold attempt_body, try_catchM.
  unfold bindM at 1. unfold lift at 1. rewrite Hprompt.
  unfold bindM at 1. unfold call_llm at 1. rewrite Hreply.
  unfold bindM at 1. unfold lift at 1. cbn [optional_trim].
  rewrite Hgen. cbn [negb ToString]. rewrite Hvm. reflexivity.
Qed.

(** ** Writing a record and fetching it *)

(** C7.  A definition with a string name, plain-data description and
    schema, and any code, written to its record file (anything but a
    directory may be in its place), is fetched back with the same
    name, description, serialised schema and code, the schema parsed
    again, and the internal flag unset. *)
Theorem written_record_is_fetched_back (this : executor)
    (name : string) (description schema : value) (code : string) (w : world) :
  is_json description = true ->
  is_json schema = true ->
  files w !! (name +:+ ".json") <> Some fs.Dir ->
  exists (schema_json : string) (w' : world),
    JSON.stringify schema 0 = Normal (VStr schema_json)
    /\ write_function_record (VStr name) description schema code w
       = (Normal ("Successfully created/updated JS dynamic function: " +:+ name), w')
    /\ get_function_definition_js this name w'
       = (Normal (VObj [ ("name", VStr name);
                         ("description", description);
                         ("parameters_schema_json", VStr schema_json);
                         ("code_string", VStr code);
                         ("is_internal_special_function", VBool false);
                         ("parameters_schema", schema) ]), w').
Proof using.
  intros Hdescription Hschema Hpath.
  destruct (stringify_then_parse schema 0 Hschema) as (schema_json & Hjson & Hparse).
  set (funcData := VObj [ ("name", VStr name);
                          ("description", description);
                          ("parameters_schema_json", VStr schema_json);
                          ("code_string", VStr code);
                          ("is_internal_special_function", VBool false) ]).
  assert (Hrecord : is_json funcData = true).
  { unfold funcData. cbn [is_json forallb snd map fst]. rewrite Hdescription.
    vm_compute. reflexivity. }
  destruct (stringify_then_parse funcData 2 Hrecord) as (text & Htext & Hback).
  exists schema_json,
    {| files := <[name +:+ ".json" := fs.File text]> (files w);
       llm_calls := llm_calls w |}.
  split; [exact Hjson|]. split.
  - unfold write_function_record, try_catchM.
    unfold bindM at 1. unfold lift at 1. rewrite Hjson.
    unfold bindM at 1. unfold lift at 1. fold funcData. rewrite Htext.
    unfold bindM at 1. unfold writeFile, fs.writeFileSync. cbn [ToString].
    destruct (files w !! (name +:+ ".json")) as [[content | ] | ]; try reflexivity.
    congruence.
  - unfold get_function_definition_js, fs.existsSync, fs.readFileSync. cbn [files].
    rewrite lookup_insert_eq. cbn [bind]. rewrite Hback. cbn [bind].
    assert (Hprop : get_prop funcData "parameters_schema_json"
                    = Normal (VStr schema_json)) by reflexivity.
    rewrite Hprop. cbn [bind ToString]. rewrite Hparse. reflexivity.
Qed.

(** ** File names of records *)

Lemma list_ascii_of_append (a b : string) :
  list_ascii_of_string (a +:+ b) = list_ascii_of_string a ++ list_ascii_of_string b.
Proof using.
  induction a as [ | c a IH ]; [reflexivity|].
  rewrite append_cons. cbn [list_ascii_of_string app]. now rewrite IH.
Qed.

Lemma string_of_list_app (x y : list ascii) :
  string_of_list_ascii (x ++ y) = string_of_list_ascii x +:+ string_of_list_ascii y.
Proof using.
  induction x as [ | c x IH ]; [reflexivity|].
  cbn [app string_of_list_ascii]. rewrite append_cons. now rewrite IH.
Qed.

Lemma rev_string_append (a b : string) :
  rev_string (a +:+ b) = rev_string b +:+ rev_string a.
Proof using.
  unfold rev_string. now rewrite list_ascii_of_append, rev_app_distr, string_of_list_app.
Qed.

Lemma starts_with_append (p s : string) : starts_with p (p +:+ s) = true.
Proof using.
  induction p as [ | c p IH ]; [reflexivity|].
  rewrite append_cons. cbn [starts_with]. now rewrite Ascii.eqb_refl, IH.
Qed.

Lemma ends_with_append (s suffix : string) : ends_with (s +:+ suffix) suffix = true.
Proof using.
  unfold ends_with. rewrite rev_string_append. apply starts_with_append.
Qed.

(** ** The writers keep the store a store of records *)

Lemma stringify_object (props : list (string * value)) (space : nat) (v : value) :
  JSON.stringify (VObj props) space = Normal v -> exists text, v = VStr text.
Proof using.
  unfold JSON.stringify. cbn [JSON.serialize].
  match goal with |- context [bind (bind ?c _) _] => destruct c end;
    cbn [bind]; intros [= <-]; eauto.
Qed.

Lemma only_records_insert (d : gmap string fs.node) (name text : string) :
  only_records d -> written_record text ->
  only_records (<[name +:+ ".json" := fs.File text]> d).
Proof using.
  intros Hd Htext f node. rewrite lookup_insert.
  destruct (decide (name +:+ ".json" = f)) as [<- | _].
  - intros [= <-]. split; [apply ends_with_append|]. now exists text.
  - apply Hd.
Qed.

Lemma write_function_record_files (name description schema : value) (code : string)
    (w : world) :
  only_records (files w) ->
  only_records (files (snd (write_function_record name description schema code w))).
Proof using.
  intros Hw. unfold write_function_record, try_catchM.
  unfold bindM at 1. unfold lift at 1.
  destruct (JSON.stringify schema 0) as [schema_json | e | ].
  2:{ unfold bindM, lift, ret. destruct (exn_message e); exact Hw. }
  2:{ exact Hw. }
  unfold bindM at 1. unfold lift at 1.
  destruct (JSON.stringify _ 2) as [text_value | e | ] eqn:Htext.
  2:{ unfold bindM, lift, ret. destruct (exn_message e); exact Hw. }
  2:{ exact Hw. }
  destruct (stringify_object _ _ _ Htext) as [text ->]. cbn [ToString].
  unfold bindM at 1. unfold writeFile, fs.writeFileSync.
  destruct (files w !! (ToString name +:+ ".json")) as [[content | ] | ];
    try (apply only_records_insert; [exact Hw|];
         exists name, description, schema_json, (VStr code); exact Htext).
  unfold bindM, lift, ret. cbn [fs.io_error exn_message bind]. exact Hw.
Qed.

Lemma attempt_body_files (this : executor) (name description schema api : value)
    (attempt : nat) (vars : loop_vars) (w : world) :
  files (snd (attempt_body this name description schema api attempt vars w)) = files w.
Proof.
  unfold attempt_body, try_catchM.
  unfold bindM at 1. unfold lift at 1.
  destruct (attempt_prompt this name description schema api attempt vars)
    as [prompt | e | ].
  - unfold bindM at 1. unfold call_llm at 1.
    destruct (chat_completions_create (llm_calls w) prompt) as [content | e | ].
    + unfold bindM at 1. unfold lift at 1.
      destruct (optional_trim content) as [generated | e | ].
      * destruct (negb (truthy generated)); [reflexivity|].
        destruct (vm_Script _); reflexivity.
      * unfold bindM, lift, ret.
        destruct (if (attempt =? _)%nat then _ else _); reflexivity.
      * reflexivity.
    + unfold bindM, lift, ret.
      destruct (if (attempt =? _)%nat then _ else _); reflexivity.
    + reflexivity.
  - unfold bindM, lift, ret.
    destruct (if (attempt =? _)%nat then _ else _); reflexivity.
  - reflexivity.
Qed.

Lemma repair_loop_files (this : executor) (name description schema api : value)
    (remaining : nat) :
  forall (attempt : nat) (vars : loop_vars) (w : world),
    files (snd (repair_loop this name description schema api remaining attempt vars w))
    = files w.
Proof.
  induction remaining as [ | remaining IH ]; intros attempt vars w; [reflexivity|].
  cbn [repair_loop]. unfold bindM.
  pose proof (attempt_body_files this name description schema api attempt vars w) as Hbody.
  destruct (attempt_body this name description schema api attempt vars w)
    as [[[stop vars'] | e | ] w']; cbn [snd fst] in *; try exact Hbody.
  destruct stop; [exact Hbody|]. now rewrite IH.
Qed.

Lemma create_dynamic_function_keeps_records (this : executor)
    (name description schema api : value) (w : world) :
  only_records (files w) ->
  only_records (files (snd (create_dynamic_function this name description schema api w))).
Proof.
  intros Hw. unfold create_dynamic_function.
  destruct (negb (truthy name) || negb (truthy description) || negb (truthy schema));
    [exact Hw|].
  destruct (negb (identifier_test (ToString name))); [exact Hw|].
  unfold bindM at 1.
  pose proof (repair_loop_files this name description schema api
                (MAX_SYNTAX_REPAIR_RETRIES this + 1) 0
                {| generated_code_string := VStr ""; last_error := None;
                   sanitized_code := "" |} w) as Hloop.
  destruct (repair_loop _ _ _ _ _ _ _ _ w) as [[vars | e | ] w'];
    cbn [snd] in Hloop; try (cbn [snd]; now rewrite Hloop).
  rewrite <- Hloop in Hw.
  destruct (match last_error vars with Some e => exn_truthy e | None => false end).
  - unfold bindM, lift, ret.
    destruct (match last_error vars with Some e => exn_message e | None => _ end);
      exact Hw.
  - now apply write_function_record_files.
Qed.

Lemma store_predefined_function_js_keeps_records (this : executor) (funcData : value)
    (w : world) :
  only_records (files w) ->
  only_records (files (snd (store_predefined_function_js this funcData w))).
Proof.
  intros Hw. unfold store_predefined_function_js.
  unfold bindM at 1. unfold lift at 1.
  destruct (get_prop funcData "name") as [name | e | ]; try exact Hw.
  unfold bindM at 1. unfold lift at 1.
  destruct (get_prop funcData "description") as [description | e | ]; try exact Hw.
  unfold bindM at 1. unfold lift at 1.
  destruct (get_prop funcData "parameters_schema_json") as [schema_json | e | ];
    try exact Hw.
  unfold bindM at 1. unfold lift at 1.
  destruct (get_prop funcData "code_string") as [code | e | ]; try exact Hw.
  destruct (negb (truthy name) || negb (truthy description)
            || negb (truthy schema_json) || negb (truthy code)); [exact Hw|].
  destruct (negb (identifier_test (ToString name))); [exact Hw|].
  destruct (vm_Script _).
  2:{ unfold bindM, lift, ret. destruct (substring_method code 500); exact Hw. }
  unfold try_catchM. unfold bindM at 1. unfold lift at 1.
  destruct (JSON.stringify _ 2) as [text_value | e | ] eqn:Htext.
  2:{ unfold bindM, lift, ret. destruct (exn_message e); exact Hw. }
  2:{ exact Hw. }
  destruct (stringify_object _ _ _ Htext) as [text ->]. cbn [ToString].
  unfold bindM at 1. unfold writeFile, fs.writeFileSync.
  destruct (files w !! (ToString name +:+ ".json")) as [[content | ] | ];
    try (apply only_records_insert; [exact Hw|];
         exists name, description, schema_json, code; exact Htext).
  unfold bindM, lift, ret. cbn [fs.io_error exn_message bind]. exact Hw.
Qed.

Lemma execute_dynamic_function_keeps_records (this : executor) (function_name : string)
    (params : value) (override : option (list (string * capability))) (w : world) :
  only_records (files w) ->
  only_records (files (snd (execute_dynamic_function this function_name params override w))).
Proof.
  intros Hw. unfold execute_dynamic_function.
  unfold bindM at 1. unfold lift at 1.
  destruct (let* shown := JSON.stringify params 0 in substring_method shown 100);
    try exact Hw.
  destruct (function_name =? FUNCTION_CREATION_TOOL_DEFINITION_JS_name)%string.
  - unfold try_catchM. unfold bindM at 1. unfold lift at 1.
    destruct (get_prop params _) as [hostApiDesc | e | ].
    2:{ unfold bindM, lift, ret. destruct (exn_message e); exact Hw. }
    2:{ exact Hw. }
    destruct (List.find _ requiredArgs); [exact Hw|].
    unfold bindM at 1.
    match goal with |- context [create_dynamic_function this ?n ?d ?s ?a w] =>
      pose proof (create_dynamic_function_keeps_records this n d s a w Hw) as Hcreate;
      destruct (create_dynamic_function this n d s a w) as [[answer | e | ] w']
    end; cbn [snd] in Hcreate; try exact Hcreate.
    unfold bindM, lift, ret. destruct (exn_message e); exact Hcreate.
  - unfold bindM at 1.
    assert (Hget : snd (get_function_definition_js this function_name w) = w).
    { unfold get_function_definition_js. destruct (fs.existsSync _ _); reflexivity. }
    destruct (get_function_definition_js this function_name w) as [[func_def | e | ] w'];
      cbn [snd] in Hget; subst w'; try exact Hw.
    unfold bindM at 1. unfold lift at 1.
    destruct (if truthy func_def then _ else _) as [stored_code | e | ]; try exact Hw.
    destruct (negb (truthy func_def) || negb (truthy stored_code)); [exact Hw|].
    unfold try_catchM.
    destruct (vm_Script _) as [runInContext | message].
    + unfold bindM at 1. unfold lift at 1.
      destruct (runInContext _) as [result | e | ]; try exact Hw.
      * destruct result; try exact Hw;
          unfold lift, ret;
          match goal with |- context [JSON.stringify ?r 0] =>
            destruct (JSON.stringify r 0); exact Hw end.
      * unfold bindM, lift, ret.
        destruct (exn_stack e); try exact Hw.
        destruct (substring_method stored_code 500); try exact Hw.
        destruct (exn_message e); exact Hw.
    + unfold bindM, lift, ret. cbn [exn_stack SyntaxError].
      destruct (substring_method stored_code 500); exact Hw.
Qed.

(** ** Bulk clear *)

Lemma unlink_json_files_removes (l : list string) :
  forall w : world,
    NoDup l ->
    (forall f, f ∈ l ->
       ends_with f ".json" = true /\ exists text, files w !! f = Some (fs.File text)) ->
    exists d' : gmap string fs.node,
      unlink_json_files l w = (Normal tt, {| files := d'; llm_calls := llm_calls w |})
      /\ forall k, d' !! k = if decide (k ∈ l) then None else files w !! k.
Proof using.
  induction l as [ | file rest IH ]; intros w Hnodup Hfiles.
  - exists (files w). split; [destruct w; reflexivity|].
    intros k. destruct (decide (k ∈ [])) as [Hin | _]; [inversion Hin|reflexivity].
  - apply NoDup_cons in Hnodup as [Hfresh Hnodup].
    destruct (Hfiles file ltac:(left)) as (Hjson & text & Hfile).
    cbn [unlink_json_files]. rewrite Hjson.
    unfold bindM at 1. unfold unlink, fs.unlinkSync. rewrite Hfile.
    destruct (IH {| files := delete file (files w); llm_calls := llm_calls w |} Hnodup)
      as (d' & Hrun & Hd').
    { intros f Hf. destruct (Hfiles f ltac:(now right)) as (Hfjson & ftext & Hflookup).
      split; [exact Hfjson|]. exists ftext. cbn [files].
      rewrite lookup_delete_ne; [exact Hflookup|]. intros ->. contradiction. }
    exists d'. split; [exact Hrun|].
    intros k. rewrite Hd'. cbn [files].
    destruct (decide (k ∈ rest)) as [Hin | Hout].
    + rewrite decide_True; [reflexivity|now right].
    + destruct (decide (k = file)) as [-> | Hne].
      * rewrite lookup_delete_eq. rewrite decide_True; [reflexivity|left].
      * rewrite lookup_delete_ne by congruence.
        rewrite decide_False; [reflexivity|].
        intros [-> | Hin]%elem_of_cons; contradiction.
Qed.

Lemma clear_function_store_js_empties (this : executor) (w : world) :
  only_records (files w) ->
  snd (clear_function_store_js this w) = {| files := ∅; llm_calls := llm_calls w |}.
Proof using.
  intros Hw. unfold clear_function_store_js, try_catchM. unfold bindM at 1.
  destruct (unlink_json_files_removes (fs.readdirSync (files w)) w) as (d' & -> & Hd').
  - apply NoDup_fst_map_to_list.
  - intros f Hf. unfold fs.readdirSync in Hf.
    apply list_elem_of_fmap in Hf as ([f' node] & -> & Hin).
    apply elem_of_map_to_list in Hin. cbn [fst].
    destruct (Hw f' node Hin) as (Hjson & text & -> & _).
    split; [exact Hjson|]. now exists text.
  - cbn [snd]. f_equal. apply map_eq. intros k. rewrite Hd', lookup_empty.
    destruct (decide (k ∈ fs.readdirSync (files w))) as [_ | Hout]; [reflexivity|].
    destruct (files w !! k) as [node | ] eqn:Hk; [|reflexivity].
    exfalso. apply Hout. unfold fs.readdirSync.
    apply list_elem_of_fmap. exists (k, node). split; [reflexivity|].
    now apply elem_of_map_to_list.
Qed.

Lemma only_records_empty : only_records ∅.
Proof using. intros f node Hf. now rewrite lookup_empty in Hf. Qed.

(** C9.  In every world the methods lead to from an empty store, each
    entry of the directory is a [.json] file holding a record whose
    internal flag is [false], and bulk clear leaves the directory
    empty: nothing is exempt. *)
Theorem every_record_is_external_and_cleared (w : world) :
  reachable w ->
  only_records (files w)
  /\ forall this : executor, files (snd (clear_function_store_js this w)) = ∅.
Proof.
  intros Hreach.
  assert (Hrecords : only_records (files w)).
  { induction Hreach as [ calls
                        | this name description schema api w _ IH
                        | this funcData w _ IH
                        | this function_name params override w _ IH
                        | this w _ IH ].
    - apply only_records_empty.
    - now apply create_dynamic_function_keeps_records.
    - now apply store_predefined_function_js_keeps_records.
    - now apply execute_dynamic_function_keeps_records.
    - rewrite (clear_function_store_js_empties this w IH). apply only_records_empty. }
  split; [exact Hrecords|].
  intros this. now rewrite (clear_function_store_js_empties this w Hrecords).
Qed.

(** ** What a definition request costs and changes *)

Lemma attempt_body_calls (this : executor) (name description schema api : value)
    (attempt : nat) (vars : loop_vars) (w : world) :
  exists l,
    llm_calls (snd (attempt_body this name description schema api attempt vars w))
    = llm_calls w ++ l
    /\ length l <= 1.
Proof.
  unfold attempt_body, try_catchM.
  unfold bindM at 1. unfold lift at 1.
  destruct (attempt_prompt this name description schema api attempt vars)
    as [prompt | e | ].
  - exists [prompt]. split; [|cbn; lia].
    unfold bindM at 1. unfold call_llm at 1.
    destruct (chat_completions_create (llm_calls w) prompt) as [content | e | ].
    + unfold bindM at 1. unfold lift at 1.
      destruct (optional_trim content) as [generated | e | ].
      * destruct (negb (truthy generated)); [reflexivity|].
        destruct (vm_Script _); reflexivity.
      * unfold bindM, lift, ret.
        destruct (if (attempt =? _)%nat then _ else _); reflexivity.
      * reflexivity.
    + unfold bindM, lift, ret.
      destruct (if (attempt =? _)%nat then _ else _); reflexivity.
    + reflexivity.
  - exists []. split; [|cbn; lia]. rewrite app_nil_r.
    unfold bindM, lift, ret.
    destruct (if (attempt =? _)%nat then _ else _); reflexivity.
  - exists []. split; [|cbn; lia]. now rewrite app_nil_r.
Qed.

Lemma repair_loop_calls (this : executor) (name description schema api : value)
    (remaining : nat) :
  forall (attempt : nat) (vars : loop_vars) (w : world),
    exists l,
      llm_calls (snd (repair_loop this name description schema api
                        remaining attempt vars w))
      = llm_calls w ++ l
      /\ length l <= remaining.
Proof.
  induction remaining as [ | remaining IH ]; intros attempt vars w.
  - exists []. split; [|cbn; lia]. cbn [repair_loop]. unfold ret. cbn [snd].
    now rewrite app_nil_r.
  - cbn [repair_loop]. unfold bindM.
    destruct (attempt_body_calls this name description schema api attempt vars w)
      as (l1 & Hl1 & Hlen1).
    destruct (attempt_body this name description schema api attempt vars w)
      as [[[stop vars'] | e | ] w']; cbn [snd fst] in *;
      try (exists l1; split; [exact Hl1|lia]).
    destruct stop; [exists l1; split; [exact Hl1|lia]|].
    destruct (IH (S attempt) vars' w') as (l2 & Hl2 & Hlen2).
    exists (l1 ++ l2). rewrite Hl2, Hl1, app_assoc. split; [reflexivity|].
    rewrite length_app. lia.
Qed.

(** What [write_function_record] leaves behind: the new record under
    [<name>.json] together with the success string, or the store as it
    was together with an answer that, when it is a string, starts with
    [Error: ].  It sends nothing to the model. *)
Lemma write_function_record_effect (name description schema : value) (code : string)
    (w : world) (c : completion string) (w' : world) :
  write_function_record name description schema code w = (c, w') ->
  llm_calls w' = llm_calls w
  /\ ((exists text,
         c = Normal ("Successfully created/updated JS dynamic function: "
                     +:+ ToString name)
         /\ written_record text
         /\ files w' = <[ToString name +:+ ".json" := fs.File text]> (files w))
      \/ (files w' = files w
          /\ forall s, c = Normal s -> starts_with "Error: " s = true)).
Proof using.
  unfold write_function_record, try_catchM.
  unfold bindM at 1. unfold lift at 1.
  destruct (JSON.stringify schema 0) as [schema_json | e | ].
  2:{ unfold bindM, lift, ret. destruct (exn_message e); intros [= <- <-];
        (split; [reflexivity|]); right; (split; [reflexivity|]);
        intros s [= <-]; reflexivity. }
  2:{ intros [= <- <-]. split; [reflexivity|]. right. split; [reflexivity|]. intros s [=]. }
  unfold bindM at 1. unfold lift at 1.
  destruct (JSON.stringify _ 2) as [text_value | e | ] eqn:Htext.
  2:{ unfold bindM, lift, ret. destruct (exn_message e); intros [= <- <-];
        (split; [reflexivity|]); right; (split; [reflexivity|]);
        intros s [= <-]; reflexivity. }
  2:{ intros [= <- <-]. split; [reflexivity|]. right. split; [reflexivity|]. intros s [=]. }
  destruct (stringify_object _ _ _ Htext) as [text ->]. cbn [ToString].
  unfold bindM at 1. unfold writeFile, fs.writeFileSync.
  destruct (files w !! (ToString name +:+ ".json")) as [[content | ] | ].
  - intros [= <- <-]. split; [reflexivity|]. left. exists text. split; [reflexivity|].
    split; [|reflexivity]. exists name, description, schema_json, (VStr code). exact Htext.
  - unfold bindM, lift, ret. cbn [fs.io_error exn_message bind].
    intros [= <- <-].
    split; [reflexivity|]. right. split; [reflexivity|]. intros s [= <-]. reflexivity.
  - intros [= <- <-]. split; [reflexivity|]. left. exists text. split; [reflexivity|].
    split; [|reflexivity]. exists name, description, schema_json, (VStr code). exact Htext.
Qed.

(** X1.  Whatever the model and the compiler do, a definition request
    sends at most [MAX_SYNTAX_REPAIR_RETRIES + 1] prompts, after the
    ones already sent. *)
Theorem create_dynamic_function_call_bound (this : executor)
    (name description schema api : value) (w : world) :
  exists prompts : list string,
    llm_calls (snd (create_dynamic_function this name description schema api w))
    = llm_calls w ++ prompts
    /\ length prompts <= MAX_SYNTAX_REPAIR_RETRIES this + 1.
Proof.
  unfold create_dynamic_function.
  destruct (negb (truthy name) || negb (truthy description) || negb (truthy schema)).
  { exists []. cbn. rewrite app_nil_r. split; [reflexivity|lia]. }
  destruct (negb (identifier_test (ToString name))).
  { exists []. cbn. rewrite app_nil_r. split; [reflexivity|lia]. }
  unfold bindM at 1.
  destruct (repair_loop_calls this name description schema api
              (MAX_SYNTAX_REPAIR_RETRIES this + 1) 0 initial_vars w)
    as (prompts & Hcalls & Hlen).
  exists prompts. split; [|exact Hlen].
  destruct (repair_loop _ _ _ _ _ _ _ _ w) as [[vars | e | ] w'];
    cbn [snd] in Hcalls; try exact Hcalls.
  destruct (match last_error vars with Some e => exn_truthy e | None => false end).
  - unfold bindM, lift, ret.
    destruct (match last_error vars with Some e => exn_message e | None => _ end);
      exact Hcalls.
  - destruct (write_function_record name description schema (sanitized_code vars) w')
      as [c w''] eqn:Hrun.
    destruct (write_function_record_effect _ _ _ _ _ _ _ Hrun) as [Hsame _].
    cbn [snd]. now rewrite Hsame.
Qed.

(** X2.  A definition request changes the store in one way only: when
    it answers with the success string, the record file of that name
    holds a freshly written record and every other entry is as before.
    In every other case the store is untouched, and the answer, when
    it is a string, starts with [Error: ]. *)
Theorem create_dynamic_function_writes_only_on_success (this : executor)
    (name description schema api : value) (w : world)
    (c : completion string) (w' : world) :
  create_dynamic_function this name description schema api w = (c, w') ->
  (exists text,
     c = Normal ("Successfully created/updated JS dynamic function: " +:+ ToString name)
     /\ written_record text
     /\ files w' = <[ToString name +:+ ".json" := fs.File text]> (files w))
  \/ (files w' = files w
      /\ forall s, c = Normal s -> starts_with "Error: " s = true).
Proof.
  unfold create_dynamic_function.
  destruct (negb (truthy name) || negb (truthy description) || negb (truthy schema)).
  { intros [= <- <-]. right. split; [reflexivity|]. intros s [= <-]. reflexivity. }
  destruct (negb (identifier_test (ToString name))).
  { intros [= <- <-]. right. split; [reflexivity|]. intros s [= <-]. reflexivity. }
  unfold bindM at 1.
  pose proof (repair_loop_files this name description schema api
                (MAX_SYNTAX_REPAIR_RETRIES this + 1) 0 initial_vars w) as Hloop.
  destruct (repair_loop _ _ _ _ _ _ _ _ w) as [[vars | e | ] w1]; cbn [snd] in Hloop.
  2:{ intros [= <- <-]. right. split; [exact Hloop|]. intros s [=]. }
  2:{ intros [= <- <-]. right. split; [exact Hloop|]. intros s [=]. }
  destruct (match last_error vars with Some e => exn_truthy e | None => false end).
  - unfold bindM, lift, ret.
    destruct (match last_error vars with Some e => exn_message e | None => _ end);
      intros [= <- <-]; right; (split; [exact Hloop|]); intros s [= <-]; reflexivity.
  - intros Hrun.
    destruct (write_function_record_effect _ _ _ _ _ _ _ Hrun)
      as [_ [(text & Hfst & Htext & Hfiles) | [Hfiles Herr]]].
    + left. exists text. rewrite Hfiles, Hloop. repeat split; assumption.
    + right. rewrite Hfiles. split; [exact Hloop|exact Herr].
Qed.

(** X3.  [store_predefined_function_js] changes the store in one way
    only: with the success string, the record file of that name holds
    a freshly written record.  In every other case the store is as it
    was, and the answer, when it is a string, starts with [Error].  It
    never sends a prompt. *)
Theorem store_predefined_function_js_writes_only_on_success (this : executor)
    (funcData : value) (w : world) (c : completion string) (w' : world) :
  store_predefined_function_js this funcData w = (c, w') ->
  llm_calls w' = llm_calls w
  /\ ((exists name text,
         get_prop funcData "name" = Normal name
         /\ c = Normal ("Successfully stored predefined JS function: " +:+ ToString name)
         /\ written_record text
         /\ files w' = <[ToString name +:+ ".json" := fs.File text]> (files w))
      \/ (files w' = files w
          /\ forall s, c = Normal s -> starts_with "Error" s = true)).
Proof.
  unfold store_predefined_function_js.
  unfold bindM at 1. unfold lift at 1.
  destruct (get_prop funcData "name") as [name | e | ].
  2,3: intros [= <- <-]; (split; [reflexivity|]); right; (split; [reflexivity|]);
       intros s [=].
  unfold bindM at 1. unfold lift at 1.
  destruct (get_prop funcData "description") as [description | e | ].
  2,3: intros [= <- <-]; (split; [reflexivity|]); right; (split; [reflexivity|]);
       intros s [=].
  unfold bindM at 1. unfold lift at 1.
  destruct (get_prop funcData "parameters_schema_json") as [schema_json | e | ].
  2,3: intros [= <- <-]; (split; [reflexivity|]); right; (split; [reflexivity|]);
       intros s [=].
  unfold bindM at 1. unfold lift at 1.
  destruct (get_prop funcData "code_string") as [code | e | ].
  2,3: intros [= <- <-]; (split; [reflexivity|]); right; (split; [reflexivity|]);
       intros s [=].
  destruct (negb (truthy name) || negb (truthy description)
            || negb (truthy schema_json) || negb (truthy code)).
  { intros [= <- <-]. split; [reflexivity|]. right. split; [reflexivity|].
    intros s [= <-]. reflexivity. }
  destruct (negb (identifier_test (ToString name))).
  { intros [= <- <-]. split; [reflexivity|]. right. split; [reflexivity|].
    intros s [= <-]. reflexivity. }
  destruct (vm_Script _).
  2:{ unfold bindM, lift, ret. destruct (substring_method code 500);
        intros [= <- <-]; (split; [reflexivity|]); right; (split; [reflexivity|]);
        intros s [= <-]; reflexivity. }
  unfold try_catchM. unfold bindM at 1. unfold lift at 1.
  destruct (JSON.stringify _ 2) as [text_value | e | ] eqn:Htext.
  2:{ unfold bindM, lift, ret. destruct (exn_message e); intros [= <- <-];
        (split; [reflexivity|]); right; (split; [reflexivity|]);
        intros s [= <-]; reflexivity. }
  2:{ intros [= <- <-]. split; [reflexivity|]. right. split; [reflexivity|]. intros s [=]. }
  destruct (stringify_object _ _ _ Htext) as [text ->]. cbn [ToString].
  unfold bindM at 1. unfold writeFile, fs.writeFileSync.
  destruct (files w !! (ToString name +:+ ".json")) as [[content | ] | ].
  - intros [= <- <-]. split; [reflexivity|]. left. exists name, text.
    repeat split. exists name, description, schema_json, code. exact Htext.
  - unfold bindM, lift, ret. cbn [fs.io_error exn_message bind].
    intros [= <- <-].
    split; [reflexivity|]. right. split; [reflexivity|]. intros s [= <-]. reflexivity.
  - intros [= <- <-]. split; [reflexivity|]. left. exists name, text.
    repeat split. exists name, description, schema_json, code. exact Htext.
Qed.

(** ** What an invocation and a lookup never do *)

Lemma parse_settles (text : string) : JSON.parse text <> Pending.
Proof using.
  unfold JSON.parse. destruct (JSON.parse_value _ text) as [[v after] | ]; [|discriminate].
  destruct (JSON.skip_ws after); discriminate.
Qed.



(** X5.  The lookup never throws and never blocks: it returns [null]
    or an object that has a [parameters_schema] property, and leaves
    the world as it is. *)
Theorem get_function_definition_js_returns_null_or_record (this : executor)
    (function_name : string) (w : world) :
  get_function_definition_js this function_name w = (Normal VNull, w)
  \/ exists props schema,
       get_function_definition_js this function_name w = (Normal (VObj props), w)
       /\ assoc "parameters_schema" props = Some schema.
Proof using.
  unfold get_function_definition_js.
  destruct (fs.existsSync _ _); [|now left].
  destruct (fs.readFileSync _ _) as [content | e | ] eqn:Hread; cbn [bind try_catch];
    [ | now left | ].
  2:{ unfold fs.readFileSync in Hread.
      destruct (files w !! _) as [[ | ] | ]; discriminate. }
  pose proof (parse_settles content) as Hparse.
  destruct (JSON.parse content) as [funcData | e | ]; cbn [bind try_catch];
    [ | now left | contradiction ].
  destruct (get_prop funcData "parameters_schema_json") as [schema_json | e | ] eqn:Hprop;
    cbn [bind try_catch]; [ | now left | ].
  2:{ destruct funcData; discriminate. }
  pose proof (parse_settles (ToString schema_json)) as Hparse'.
  destruct (JSON.parse (ToString schema_json)) as [schema | e | ]; cbn [bind try_catch];
    [ | now left | contradiction ].
  right. exists (obj_set "parameters_schema" schema (spread funcData)), schema.
  split; [reflexivity|].
  generalize (spread funcData). intros props.
  induction props as [ | [k v] props IH ]; [reflexivity|].
  cbn [obj_set]. destruct (k =? "parameters_schema")%string eqn:Hk.
  - cbn [assoc]. now rewrite String.eqb_refl.
  - cbn [assoc]. now rewrite Hk.
Qed.

(** ** Bulk clear on any directory *)

Lemma unlink_json_files_effect (l : list string) :
  forall w : world,
    NoDup l ->
    exists (c : completion unit) (d' : gmap string fs.node),
      unlink_json_files l w = (c, {| files := d'; llm_calls := llm_calls w |})
      /\ (c = Normal tt \/ exists e, c = Throw e)
      /\ (forall k node, d' !! k = Some node -> files w !! k = Some node)
      /\ (forall k, ends_with k ".json" = false -> d' !! k = files w !! k)
      /\ (forall k, k ∉ l -> d' !! k = files w !! k)
      /\ ((forall f, f ∈ l -> ends_with f ".json" = true ->
             exists text, files w !! f = Some (fs.File text)) ->
          c = Normal tt
          /\ forall k, k ∈ l -> ends_with k ".json" = true -> d' !! k = None).
Proof using.
  induction l as [ | file rest IH ]; intros w Hnodup.
  - exists (Normal tt), (files w). split; [destruct w; reflexivity|].
    split; [now left|]. repeat split; auto. intros k Hk. inversion Hk.
  - apply NoDup_cons in Hnodup as [Hfresh Hnodup].
    cbn [unlink_json_files].
    destruct (ends_with file ".json") eqn:Hjson.
    + unfold bindM at 1. unfold unlink, fs.unlinkSync.
      destruct (files w !! file) as [[text | ] | ] eqn:Hfile.
      * destruct (IH {| files := delete file (files w); llm_calls := llm_calls w |}
                    Hnodup)
          as (c & d' & Hrun & Hc & Hsub & Hother & Houtside & Hall).
        cbn [files llm_calls] in *.
        exists c, d'. split; [exact Hrun|]. split; [exact Hc|].
        split.
        { intros k node Hk. apply Hsub in Hk.
          destruct (decide (k = file)) as [-> | Hne].
          - now rewrite lookup_delete_eq in Hk.
          - now rewrite lookup_delete_ne in Hk by congruence. }
        split.
        { intros k Hk. rewrite (Hother k Hk).
          apply lookup_delete_ne. intros ->. congruence. }
        split.
        { intros k Hk. apply not_elem_of_cons in Hk as [Hne Hk].
          rewrite (Houtside k Hk). apply lookup_delete_ne. congruence. }
        intros Hfiles.
        destruct Hall as [Hnormal Hgone].
        { intros f Hf Hfjson.
          destruct (Hfiles f ltac:(now right) Hfjson) as [ftext Hflookup].
          exists ftext. rewrite lookup_delete_ne; [exact Hflookup|].
          intros ->. contradiction. }
        split; [exact Hnormal|].
        intros k [-> | Hk]%elem_of_cons Hkjson.
        -- rewrite (Houtside file Hfresh). apply lookup_delete_eq.
        -- now apply Hgone.
      * eexists _, (files w). split; [destruct w; reflexivity|].
        split; [right; eauto|].
        split; [auto|]. split; [auto|]. split; [auto|].
        intros Hfiles. destruct (Hfiles file ltac:(left) Hjson) as [text Htext].
        congruence.
      * eexists _, (files w). split; [destruct w; reflexivity|].
        split; [right; eauto|].
        split; [auto|]. split; [auto|]. split; [auto|].
        intros Hfiles. destruct (Hfiles file ltac:(left) Hjson) as [text Htext].
        congruence.
    + unfold bindM at 1. unfold ret at 1.
      destruct (IH w Hnodup) as (c & d' & Hrun & Hc & Hsub & Hother & Houtside & Hall).
      exists c, d'. split; [exact Hrun|]. split; [exact Hc|].
      split; [exact Hsub|]. split; [exact Hother|].
      split.
      { intros k Hk. apply not_elem_of_cons in Hk as [_ Hk]. now apply Houtside. }
      intros Hfiles.
      destruct Hall as [Hnormal Hgone].
      { intros f Hf. apply Hfiles. now right. }
      split; [exact Hnormal|].
      intros k [-> | Hk]%elem_of_cons Hkjson; [congruence|now apply Hgone].
Qed.

(** X6.  On any store directory, bulk clear returns normally, sends no
    prompt, adds and alters no entry, and keeps every entry whose name
    does not end in [.json]; when no entry is a directory, no name
    ending in [.json] is left. *)
Theorem clear_function_store_js_effect (this : executor) (w : world) :
  exists w' : world,
    clear_function_store_js this w = (Normal tt, w')
    /\ llm_calls w' = llm_calls w
    /\ (forall k node, files w' !! k = Some node -> files w !! k = Some node)
    /\ (forall k, ends_with k ".json" = false -> files w' !! k = files w !! k)
    /\ ((forall k, files w !! k <> Some fs.Dir) ->
        forall k, ends_with k ".json" = true -> files w' !! k = None).
Proof using.
  unfold clear_function_store_js, try_catchM. unfold bindM at 1.
  destruct (unlink_json_files_effect (fs.readdirSync (files w)) w
              (NoDup_fst_map_to_list _))
    as (c & d' & -> & Hc & Hsub & Hother & Houtside & Hall).
  exists {| files := d'; llm_calls := llm_calls w |}.
  split; [destruct Hc as [-> | [e ->]]; reflexivity|].
  split; [reflexivity|]. split; [exact Hsub|]. split; [exact Hother|].
  intros Hnodir k Hjson. cbn [files].
  destruct (files w !! k) as [node | ] eqn:Hk.
  - apply Hall; [ | | exact Hjson].
    + intros f Hf _. unfold fs.readdirSync in Hf.
      apply list_elem_of_fmap in Hf as ([f' node'] & -> & Hin).
      apply elem_of_map_to_list in Hin. cbn [fst].
      destruct node' as [text | ]; [now exists text|].
      exfalso. exact (Hnodir f' Hin).
    + unfold fs.readdirSync. apply list_elem_of_fmap. exists (k, node).
      split; [reflexivity|]. now apply elem_of_map_to_list.
  - rewrite Houtside; [exact Hk|].
    unfold fs.readdirSync. intros Hin.
    apply list_elem_of_fmap in Hin as ([f' node'] & Heq & Hin). cbn [fst] in Heq.
    subst f'. apply elem_of_map_to_list in Hin. congruence.
Qed.

(** ** From the answer of the model to the stored record *)

(** One attempt whose candidate the compiler takes. *)
Lemma attempt_body_accepts (this : executor)
    (name description schema api : value) (attempt : nat) (vars : loop_vars)
    (w : world) (prompt s : string)
    (run : list (string * binding) -> completion value) :
  attempt_prompt this name description schema api attempt vars = Normal prompt ->
  chat_completions_create (llm_calls w) prompt = Normal (VStr s) ->
  truthy (VStr (trim s)) = true ->
  vm_Script (vmScriptCode (trim (strip_fences (trim s))) (ToString name)) = Script run ->
  attempt_body this name description schema api attempt vars w =
  (Normal (true, {| generated_code_string := VStr (trim s);
                    last_error := None;
                    sanitized_code := trim (strip_fences (trim s)) |}),
   {| files := files w; llm_calls := llm_calls w ++ [prompt] |}).
Proof.
  intros Hprompt Hreply Hgen Hvm. unfold attempt_body, try_catchM.
  unfold bindM at 1. unfold lift at 1. rewrite Hprompt.
  unfold bindM at 1. unfold call_llm at 1. rewrite Hreply.
  unfold bindM at 1. unfold lift at 1. cbn [optional_trim].
  rewrite Hgen. cbn [negb ToString]. rewrite Hvm. reflexivity.
Qed.

(** One attempt whose candidate the compiler refuses. *)
Lemma attempt_body_refuses (this : executor)
    (name description schema api : value) (attempt : nat) (vars : loop_vars)
    (w : world) (prompt s message : string) :
  attempt_prompt this name description schema api attempt vars = Normal prompt ->
  chat_completions_create (llm_calls w) prompt = Normal (VStr s) ->
  truthy (VStr (trim s)) = true ->
  vm_Script (vmScriptCode (trim (strip_fences (trim s))) (ToString name))
  = CompileError message ->
  attempt_body this name description schema api attempt vars w =
  (Normal (false, {| generated_code_string := VStr (trim s);
                     last_error := Some (SyntaxError message);
                     sanitized_code := trim (strip_fences (trim s)) |}),
   {| files := files w; llm_calls := llm_calls w ++ [prompt] |}).
Proof.
  intros Hprompt Hreply Hgen Hvm. unfold attempt_body, try_catchM.
  unfold bindM at 1. unfold lift at 1. rewrite Hprompt.
  unfold bindM at 1. unfold call_llm at 1. rewrite Hreply.
  unfold bindM at 1. unfold lift at 1. cbn [optional_trim].
  rewrite Hgen. cbn [negb ToString]. rewrite Hvm. reflexivity.
Qed.

(** The first prompt of a request whose schema is plain data. *)
Lemma first_prompt (this : executor) (name description schema api : value) :
  is_json schema = true ->
  exists prompt,
    attempt_prompt this name description schema api 0 initial_vars = Normal prompt.
Proof using.
  intros Hschema. unfold attempt_prompt, initial_vars. cbn [last_error bind].
  unfold _generateJSFunctionCreationPrompt. cbn [Nat.ltb Nat.leb].
  destruct (stringify_then_parse schema 2 Hschema) as (text & -> & _).
  cbn [bind]. eexists. reflexivity.
Qed.

(** What the lookup returns for a record file whose text and schema
    text both parse. *)
Lemma get_function_definition_js_reads (this : executor) (function_name : string)
    (w : world) (text : string) (props : list (string * value))
    (schema_json schema : value) :
  files w !! (function_name +:+ ".json") = Some (fs.File text) ->
  JSON.parse text = Normal (VObj props) ->
  assoc "parameters_schema_json" props = Some schema_json ->
  JSON.parse (ToString schema_json) = Normal schema ->
  get_function_definition_js this function_name w
  = (Normal (VObj (obj_set "parameters_schema" schema props)), w).
Proof using.
  intros Hfile Htext Hprop Hschema.
  unfold get_function_definition_js, fs.existsSync, fs.readFileSync.
  rewrite Hfile. cbn [bind]. rewrite Htext. cbn [bind get_prop].
  rewrite Hprop. change (default VUndefined (Some schema_json)) with schema_json.
  cbn [bind]. rewrite Hschema. reflexivity.
Qed.

(** Writing the record of a definition made of plain data. *)
Lemma write_function_record_writes (name : string) (description schema : value)
    (code : string) (w : world) :
  is_json description = true ->
  is_json schema = true ->
  files w !! (name +:+ ".json") <> Some fs.Dir ->
  exists schema_json text : string,
    JSON.stringify schema 0 = Normal (VStr schema_json)
    /\ JSON.parse schema_json = Normal schema
    /\ JSON.parse text
       = Normal (VObj [ ("name", VStr name);
                        ("description", description);
                        ("parameters_schema_json", VStr schema_json);
                        ("code_string", VStr code);
                        ("is_internal_special_function", VBool false) ])
    /\ write_function_record (VStr name) description schema code w
       = (Normal ("Successfully created/updated JS dynamic function: " +:+ name),
          {| files := <[name +:+ ".json" := fs.File text]> (files w);
             llm_calls := llm_calls w |}).
Proof using.
  intros Hdescription Hschema Hpath.
  destruct (stringify_then_parse schema 0 Hschema) as (schema_json & Hjson & Hparse).
  set (funcData := VObj [ ("name", VStr name);
                          ("description", description);
                          ("parameters_schema_json", VStr schema_json);
                          ("code_string", VStr code);
                          ("is_internal_special_function", VBool false) ]).
  assert (Hrecord : is_json funcData = true).
  { unfold funcData. cbn [is_json forallb snd map fst]. rewrite Hdescription.
    vm_compute. reflexivity. }
  destruct (stringify_then_parse funcData 2 Hrecord) as (text & Htext & Hback).
  exists schema_json, text.
  split; [exact Hjson|]. split; [exact Hparse|]. split; [exact Hback|].
  unfold write_function_record, try_catchM.
  unfold bindM at 1. unfold lift at 1. rewrite Hjson.
  unfold bindM at 1. unfold lift at 1. fold funcData. rewrite Htext.
  unfold bindM at 1. unfold writeFile, fs.writeFileSync. cbn [ToString].
  destruct (files w !! (name +:+ ".json")) as [[content | ] | ]; try reflexivity.
  congruence.
Qed.

Lemma identifier_is_truthy (name : string) :
  identifier_test name = true -> truthy (VStr name) = true.
Proof using. destruct name; [discriminate|reflexivity]. Qed.

(** X7.  A request for a valid name with plain-data description and
    schema, answered at once with code the compiler takes, costs one
    prompt; the answer is the success string, and the record then
    fetched holds the code with its fences and outer white space
    removed, the schema, and the internal flag unset. *)
Theorem defined_on_the_first_attempt (this : executor)
    (name : string) (description schema api : value) (w : world) (s : string)
    (run : list (string * binding) -> completion value) :
  identifier_test name = true ->
  truthy description = true -> is_json description = true ->
  truthy schema = true -> is_json schema = true ->
  files w !! (name +:+ ".json") <> Some fs.Dir ->
  (forall prompt, chat_completions_create (llm_calls w) prompt = Normal (VStr s)) ->
  truthy (VStr (trim s)) = true ->
  vm_Script (vmScriptCode (trim (strip_fences (trim s))) name) = Script run ->
  exists (prompt schema_json : string) (w' : world),
    create_dynamic_function this (VStr name) description schema api w
    = (Normal ("Successfully created/updated JS dynamic function: " +:+ name), w')
    /\ llm_calls w' = llm_calls w ++ [prompt]
    /\ get_function_definition_js this name w'
       = (Normal (VObj [ ("name", VStr name);
                         ("description", description);
                         ("parameters_schema_json", VStr schema_json);
                         ("code_string", VStr (trim (strip_fences (trim s))));
                         ("is_internal_special_function", VBool false);
                         ("parameters_schema", schema) ]), w').
Proof.
  intros Hident Hdesc Hjdesc Hschema Hjschema Hpath Hreply Hgen Hvm.
  destruct (first_prompt this (VStr name) description schema api Hjschema)
    as [prompt Hprompt].
  pose proof (attempt_body_accepts this (VStr name) description schema api 0
                initial_vars w prompt s run Hprompt (Hreply prompt) Hgen Hvm) as Hbody.
  destruct (write_function_record_writes name description schema
              (trim (strip_fences (trim s)))
              {| files := files w; llm_calls := llm_calls w ++ [prompt] |}
              Hjdesc Hjschema Hpath)
    as (schema_json & text & Hjson & Hparse & Hback & Hwrite).
  exists prompt, schema_json. eexists. split.
  - unfold create_dynamic_function.
    rewrite (identifier_is_truthy name Hident), Hdesc, Hschema. cbn [negb orb ToString].
    rewrite Hident. cbn [negb].
    unfold bindM at 1. rewrite Nat.add_1_r. cbn [repair_loop].
    unfold bindM at 1. rewrite Hbody. cbn [fst snd]. unfold ret at 1.
    cbn [last_error sanitized_code]. exact Hwrite.
  - split; [reflexivity|].
    rewrite (get_function_definition_js_reads this name _ text _
               (VStr schema_json) schema (lookup_insert_eq _ _ _) Hback
               eq_refl Hparse).
    reflexivity.
Qed.

(** X8.  When the first candidate is refused by the compiler and the
    second is taken, the request costs two prompts: the second is the
    repair prompt quoting the first candidate and the compiler's
    message, the answer is the success string, and the stored code is
    the second candidate. *)
Theorem defined_after_one_repair (this : executor)
    (name : string) (description schema api : value) (w : world)
    (s0 message s1 : string)
    (run : list (string * binding) -> completion value) :
  identifier_test name = true ->
  truthy description = true -> is_json description = true ->
  truthy schema = true -> is_json schema = true ->
  files w !! (name +:+ ".json") <> Some fs.Dir ->
  1 <= MAX_SYNTAX_REPAIR_RETRIES this ->
  (forall prompt, chat_completions_create (llm_calls w) prompt = Normal (VStr s0)) ->
  truthy (VStr (trim s0)) = true ->
  vm_Script (vmScriptCode (trim (strip_fences (trim s0))) name) = CompileError message ->
  (forall first prompt,
     chat_completions_create (llm_calls w ++ [first]) prompt = Normal (VStr s1)) ->
  truthy (VStr (trim s1)) = true ->
  vm_Script (vmScriptCode (trim (strip_fences (trim s1))) name) = Script run ->
  exists (first schema_json : string) (w' : world),
    create_dynamic_function this (VStr name) description schema api w
    = (Normal ("Successfully created/updated JS dynamic function: " +:+ name), w')
    /\ llm_calls w'
       = llm_calls w
         ++ [first;
             repair_template name message (trim s0) +:+ instructions_template name]
    /\ get_function_definition_js this name w'
       = (Normal (VObj [ ("name", VStr name);
                         ("description", description);
                         ("parameters_schema_json", VStr schema_json);
                         ("code_string", VStr (trim (strip_fences (trim s1))));
                         ("is_internal_special_function", VBool false);
                         ("parameters_schema", schema) ]), w').
Proof.
  intros Hident Hdesc Hjdesc Hschema Hjschema Hpath Hmax
         Hreply0 Hgen0 Hvm0 Hreply1 Hgen1 Hvm1.
  destruct (first_prompt this (VStr name) description schema api Hjschema)
    as [first Hfirst].
  pose proof (attempt_body_refuses this (VStr name) description schema api 0
                initial_vars w first s0 message Hfirst (Hreply0 first) Hgen0 Hvm0)
    as Hbody0.
  set (vars1 := {| generated_code_string := VStr (trim s0);
                   last_error := Some (SyntaxError message);
                   sanitized_code := trim (strip_fences (trim s0)) |}) in *.
  set (w1 := {| files := files w; llm_calls := llm_calls w ++ [first] |}) in *.
  set (second := repair_template name message (trim s0) +:+ instructions_template name).
  assert (Hsecond : attempt_prompt this (VStr name) description schema api 1 vars1
                    = Normal second) by reflexivity.
  pose proof (attempt_body_accepts this (VStr name) description schema api 1
                vars1 w1 second s1 run Hsecond (Hreply1 first second) Hgen1 Hvm1)
    as Hbody1.
  destruct (write_function_record_writes name description schema
              (trim (strip_fences (trim s1)))
              {| files := files w1; llm_calls := llm_calls w1 ++ [second] |}
              Hjdesc Hjschema Hpath)
    as (schema_json & text & Hjson & Hparse & Hback & Hwrite).
  exists first, schema_json. eexists. split; [|split].
  - unfold create_dynamic_function.
    rewrite (identifier_is_truthy name Hident), Hdesc, Hschema. cbn [negb orb ToString].
    rewrite Hident. cbn [negb].
    destruct (MAX_SYNTAX_REPAIR_RETRIES this) as [ | retries]; [lia|].
    unfold bindM at 1. rewrite Nat.add_1_r. cbn [repair_loop].
    unfold bindM at 1. rewrite Hbody0. cbn [fst snd].
    unfold bindM at 1. rewrite Hbody1. cbn [fst snd]. unfold ret at 1.
    cbn [last_error sanitized_code]. exact Hwrite.
  - cbn [llm_calls]. unfold w1. cbn [llm_calls]. rewrite <- app_assoc. reflexivity.
  - rewrite (get_function_definition_js_reads this name _ text _
               (VStr schema_json) schema (lookup_insert_eq _ _ _) Hback
               eq_refl Hparse).
    reflexivity.
Qed.

(** ** What escapes the handlers *)

(** Reading [message] off a caught value fails only with a TypeError. *)
Lemma exn_message_throws (e e' : exn) :
  exn_message e = Throw e' -> is_error_object e' = true.
Proof using.
  destruct e as [n m | v]; [discriminate|].
  destruct v; cbn; intros H; inversion H; reflexivity.
Qed.

Lemma attempt_body_throws (this : executor) (name description schema api : value)
    (attempt : nat) (vars : loop_vars) (w : world) (e : exn) :
  fst (attempt_body this name description schema api attempt vars w) = Throw e ->
  is_error_object e = true.
Proof.
  assert (Hhandler : forall (error : exn) (w0 : world),
    fst ((let! _ :=
            lift (if (attempt =? MAX_SYNTAX_REPAIR_RETRIES this)%nat
                  then exn_message error else Normal VUndefined) in
          ret (false, {| generated_code_string := generated_code_string vars;
                         last_error := Some error;
                         sanitized_code := sanitized_code vars |})) w0) = Throw e ->
    is_error_object e = true).
  { intros error w0. unfold bindM, lift, ret.
    destruct (attempt =? MAX_SYNTAX_REPAIR_RETRIES this)%nat; [|discriminate].
    destruct (exn_message error) as [message | e' | ] eqn:Hmessage; try discriminate.
    cbn [fst]. intros H. inversion H. subst e'.
    exact (exn_message_throws _ _ Hmessage). }
  unfold attempt_body, try_catchM.
  unfold bindM at 1. unfold lift at 1.
  destruct (attempt_prompt this name description schema api attempt vars)
    as [prompt | e0 | ]; [| apply Hhandler | discriminate].
  unfold bindM at 1. unfold call_llm at 1.
  destruct (chat_completions_create (llm_calls w) prompt) as [content | e0 | ];
    [| apply Hhandler | discriminate].
  unfold bindM at 1. unfold lift at 1.
  destruct (optional_trim content) as [generated | e0 | ];
    [| apply Hhandler | discriminate].
  destruct (negb (truthy generated)); [discriminate|].
  destruct (vm_Script _); discriminate.
Qed.

Lemma repair_loop_throws (this : executor) (name description schema api : value)
    (remaining : nat) :
  forall (attempt : nat) (vars : loop_vars) (w : world) (e : exn),
    fst (repair_loop this name description schema api remaining attempt vars w) = Throw e ->
    is_error_object e = true.
Proof.
  induction remaining as [ | remaining IH ]; intros attempt vars w e; [discriminate|].
  cbn [repair_loop]. unfold bindM.
  pose proof (attempt_body_throws this name description schema api attempt vars w) as Hbody.
  destruct (attempt_body this name description schema api attempt vars w)
    as [[[stop vars'] | e0 | ] w']; cbn [fst snd] in *.
  - destruct stop; [discriminate|]. apply IH.
  - intros H. inversion H. subst e0. now apply Hbody.
  - discriminate.
Qed.

Lemma write_function_record_throws (name description schema : value) (code : string)
    (w : world) (e : exn) :
  fst (write_function_record name description schema code w) = Throw e ->
  is_error_object e = true.
Proof using.
  assert (Hhandler : forall (db_error : exn) (w0 : world),
    fst ((let! message := lift (exn_message db_error) in
          ret ("Error: Failed to store JS function definition "
               +:+ ToString name +:+ ". " +:+ ToString message)) w0) = Throw e ->
    is_error_object e = true).
  { intros db_error w0. unfold bindM, lift, ret.
    destruct (exn_message db_error) as [message | e' | ] eqn:Hmessage; try discriminate.
    cbn [fst]. intros H. inversion H. subst e'.
    exact (exn_message_throws _ _ Hmessage). }
  unfold write_function_record, try_catchM.
  unfold bindM at 1. unfold lift at 1.
  destruct (JSON.stringify schema 0) as [schema_json | e0 | ];
    [| apply Hhandler | discriminate].
  unfold bindM at 1. unfold lift at 1.
  destruct (JSON.stringify _ 2) as [text | e0 | ];
    [| apply Hhandler | discriminate].
  unfold bindM at 1. unfold writeFile.
  destruct (fs.writeFileSync _ _ _) as [d | e0 | ];
    [discriminate | apply Hhandler | discriminate].
Qed.

Lemma create_dynamic_function_throws (this : executor)
    (name description schema api : value) (w : world) (e : exn) :
  fst (create_dynamic_function this name description schema api w) = Throw e ->
  is_error_object e = true.
Proof.
  unfold create_dynamic_function.
  destruct (negb (truthy name) || negb (truthy description) || negb (truthy schema));
    [discriminate|].
  destruct (negb (identifier_test (ToString name))); [discriminate|].
  unfold bindM at 1.
  pose proof (repair_loop_throws this name description schema api
                (MAX_SYNTAX_REPAIR_RETRIES this + 1) 0 initial_vars w) as Hloop.
  destruct (repair_loop this name description schema api
              (MAX_SYNTAX_REPAIR_RETRIES this + 1) 0 initial_vars w)
    as [[vars | e0 | ] w']; cbn [fst] in *.
  - destruct (last_error vars) as [error | ].
    + destruct (exn_truthy error).
      * unfold bindM, lift, ret.
        destruct (exn_message error) as [message | e' | ] eqn:Hmessage; try discriminate.
        cbn [fst]. intros H. inversion H. subst e'.
        exact (exn_message_throws _ _ Hmessage).
      * apply write_function_record_throws.
    + apply write_function_record_throws.
  - intros H. inversion H. subst e0. now apply Hloop.
  - discriminate.
Qed.

(** X9.  A call of the creation tool through the dispatcher, with
    parameters that can be shown in the log line, never throws: it is
    answered with a string, or it waits on the model for ever. *)
Theorem tool_call_is_answered_with_a_string (this : executor)
    (params : value) (override : option (list (string * capability)))
    (w : world) (shown : string) :
  JSON.stringify params 0 = Normal (VStr shown) ->
  (exists s : string,
     fst (execute_dynamic_function this FUNCTION_CREATION_TOOL_DEFINITION_JS_name
            params override w) = Normal (VStr s))
  \/ fst (execute_dynamic_function this FUNCTION_CREATION_TOOL_DEFINITION_JS_name
            params override w) = Pending.
Proof.
  intros Hshown.
  destruct (execute_dynamic_function this FUNCTION_CREATION_TOOL_DEFINITION_JS_name
              params override w) as [c w1] eqn:Hrun.
  cbn [fst]. revert Hrun. unfold execute_dynamic_function.
  rewrite Hshown. unfold bindM at 1. unfold lift at 1. cbn [bind substring_method].
  rewrite String.eqb_refl. unfold try_catchM.
  unfold bindM at 1. unfold lift at 1.
  destruct (get_prop params "host_provided_api_description_for_new_func")
    as [hostApiDesc | e | ] eqn:Hprop.
  - destruct (List.find _ requiredArgs) as [arg | ].
    + intros H. inversion H. left. eexists. reflexivity.
    + unfold bindM at 1.
      match goal with
      | |- context [create_dynamic_function ?t ?n ?d ?s ?a ?v] =>
          pose proof (create_dynamic_function_throws t n d s a v) as Hthrows;
          destruct (create_dynamic_function t n d s a v) as [[answer | e | ] w']
      end; cbn [fst] in *.
      * intros H. inversion H. left. eexists. reflexivity.
      * specialize (Hthrows e eq_refl). destruct e as [n m | v]; [|discriminate].
        intros H. inversion H. left. eexists. reflexivity.
      * intros H. inversion H. right. reflexivity.
  - destruct params; cbn in Hprop; inversion Hprop;
      intros H; inversion H; left; eexists; reflexivity.
  - destruct params; discriminate.
Qed.

(** ** What the caller gets from a stored function *)



(** X12.  A stored function that returns something [JSON.stringify]
    refuses (a BigInt, or data holding one) is answered with the error
    string naming the type of what it returned. *)
Theorem unserializable_result_is_reported_with_its_type (this : executor)
    (function_name : string) (params : value)
    (override : option (list (string * capability))) (w : world)
    (shown : string) (props : list (string * value)) (code : string)
    (run : list (string * binding) -> completion value) (result : value) (e : exn) :
  (function_name =? FUNCTION_CREATION_TOOL_DEFINITION_JS_name)%string = false ->
  JSON.stringify params 0 = Normal (VStr shown) ->
  get_function_definition_js this function_name w = (Normal (VObj props), w) ->
  assoc "code_string" props = Some (VStr code) ->
  code <> "" ->
  vm_Script (wrappedCode code function_name) = Script run ->
  run (sandbox function_name params
         match override with
         | Some apis => apis
         | None => default [] (host_api_execution_dict_getter this)
         end) = Normal result ->
  JSON.stringify result 0 = Throw e ->
  execute_dynamic_function this function_name params override w
  = (Normal (VStr ("Error: Dynamic function " +:+ function_name
                   +:+ " returned a complex object that could not be serialized. Original type: "
                   +:+ typeof result)), w).
Proof.
  intros Hname Hshown Hget Hcode Hnonempty Hscript Hrun Hrefused.
  assert (Htruthy : truthy (VStr code) = true).
  { destruct code; [congruence|reflexivity]. }
  assert (Hprop : get_prop (VObj props) "code_string" = Normal (VStr code)).
  { cbn [get_prop]. now rewrite Hcode. }
  rewrite (execute_dynamic_function_stored this function_name params override w
             shown (VObj props) (VStr code) run Hname Hshown Hget eq_refl Hprop
             Htruthy Hscript).
  rewrite Hrun, Hrefused.
  destruct result; try reflexivity. discriminate Hrefused.
Qed.

(** ** Predefined functions *)


(** ** One name, one file *)





(** ** After the bulk clear *)



(** ** Code fences *)

Lemma rev_string_involutive (s : string) : rev_string (rev_string s) = s.
Proof using.
  unfold rev_string.
  now rewrite list_ascii_of_string_of_list_ascii, rev_involutive,
    string_of_list_ascii_of_string.
Qed.

Lemma drop_string_append (p s : string) : drop_string (String.length p) (p +:+ s) = s.
Proof using.
  induction p as [ | c p IH ]; [now destruct s|].
  rewrite append_cons. cbn [String.length drop_string]. exact IH.
Qed.

Lemma strip_prefix_append (p s : string) : strip_prefix p (p +:+ s) = s.
Proof using.
  unfold strip_prefix. now rewrite starts_with_append, drop_string_append.
Qed.

Lemma strip_suffix_fence (s : string) : strip_suffix "```" (s +:+ "```") = s.
Proof using.
  unfold strip_suffix. rewrite ends_with_append, rev_string_append.
  change (rev_string "```") with "```".
  now rewrite drop_string_append, rev_string_involutive.
Qed.

(** White space is trimmed off the front up to the first other
    character. *)
Lemma trim_start_append (a b : string) :
  trim_start (a +:+ b)
  = match trim_start a with
    | EmptyString => trim_start b
    | String c rest => String c rest +:+ b
    end.
Proof using.
  induction a as [ | c a IH ]; [reflexivity|].
  rewrite append_cons. cbn [trim_start].
  destruct (is_space c); [exact IH|reflexivity].
Qed.

Lemma trim_between_newlines (code : string) : trim (nl +:+ code +:+ nl) = trim code.
Proof using.
  unfold trim.
  change (trim_start (nl +:+ code +:+ nl)) with (trim_start (code +:+ nl)).
  rewrite trim_start_append.
  destruct (trim_start code) as [ | c rest ]; [reflexivity|].
  rewrite rev_string_append. change (rev_string nl) with nl.
  reflexivity.
Qed.

(** Whatever is trimmed off the end, a leading fence stays. *)
Lemma trim_start_keeps_fence (r : string) :
  exists r', trim_start (r +:+ "```") = r' +:+ "```".
Proof using.
  induction r as [ | c r IH ].
  - now exists "".
  - rewrite append_cons. cbn [trim_start].
    destruct (is_space c); [exact IH|]. now exists (String c r).
Qed.

Lemma trim_fence_first (s : string) :
  exists rest, trim ("```" +:+ s) = "```" +:+ rest.
Proof using.
  unfold trim. change (trim_start ("```" +:+ s)) with ("```" +:+ s).
  rewrite rev_string_append. change (rev_string "```") with "```".
  destruct (trim_start_keeps_fence (rev_string s)) as [r' ->].
  rewrite rev_string_append. change (rev_string "```") with "```".
  now exists (rev_string r').
Qed.

Lemma trim_fenced (s : string) :
  trim ("```" +:+ s +:+ "```") = "```" +:+ s +:+ "```".
Proof using.
  unfold trim. change (trim_start ("```" +:+ s +:+ "```")) with ("```" +:+ s +:+ "```").
  rewrite <- (append_assoc "```" s "```").
  rewrite rev_string_append. change (rev_string "```") with "```".
  change (trim_start ("```" +:+ rev_string ("```" +:+ s)))
    with ("```" +:+ rev_string ("```" +:+ s)).
  rewrite rev_string_append. change (rev_string "```") with "```".
  now rewrite rev_string_involutive.
Qed.

(** X16.  An answer wrapped in a [javascript] code fence is reduced to
    the code inside, trimmed. *)
Theorem javascript_fence_is_removed (code : string) :
  trim (strip_fences (trim ("```javascript" +:+ nl +:+ code +:+ nl +:+ "```")))
  = trim code.
Proof using.
  change ("```javascript" +:+ nl +:+ code +:+ nl +:+ "```")
    with ("```" +:+ "javascript" +:+ nl +:+ code +:+ nl +:+ "```").
  pose proof (trim_fenced ("javascript" +:+ nl +:+ code +:+ nl)) as Htrim.
  rewrite !append_assoc in Htrim. rewrite Htrim.
  unfold strip_fences.
  change ("```" +:+ "javascript" +:+ nl +:+ code +:+ nl +:+ "```")
    with ("```javascript" +:+ (nl +:+ code +:+ nl +:+ "```")).
  rewrite strip_prefix_append.
  replace (nl +:+ code +:+ nl +:+ "```") with ((nl +:+ code +:+ nl) +:+ "```")
    by (now rewrite !append_assoc).
  rewrite strip_suffix_fence. apply trim_between_newlines.
Qed.

(** X17.  Only a fence tagged [javascript] is removed from the front:
    an answer that opens with a bare fence keeps it, so the candidate
    handed to the compiler still starts with the three backquotes. *)
Theorem bare_fence_is_kept (code : string) :
  starts_with "```"
    (trim (strip_fences (trim ("```" +:+ nl +:+ code +:+ nl +:+ "```")))) = true.
Proof using.
  pose proof (trim_fenced (nl +:+ code +:+ nl)) as Htrim.
  rewrite !append_assoc in Htrim. rewrite Htrim.
  unfold strip_fences.
  assert (Hprefix : strip_prefix "```javascript" ("```" +:+ nl +:+ code +:+ nl +:+ "```")
                    = "```" +:+ nl +:+ code +:+ nl +:+ "```") by reflexivity.
  rewrite Hprefix.
  replace ("```" +:+ nl +:+ code +:+ nl +:+ "```")
    with (("```" +:+ nl +:+ code +:+ nl) +:+ "```") by (now rewrite !append_assoc).
  rewrite strip_suffix_fence.
  destruct (trim_fence_first (nl +:+ code +:+ nl)) as [rest Hrest].
  rewrite Hrest.
  apply starts_with_append.
Qed.

(** ** A schema that cannot be written as JSON *)

Lemma create_dynamic_function_calls (this : executor)
    (name : string) (description schema api : value) (w : world) :
  identifier_test name = true ->
  truthy description = true ->
  truthy schema = true ->
  llm_calls (snd (create_dynamic_function this (VStr name) description schema api w))
  = llm_calls (snd (repair_loop this (VStr name) description schema api
                      (MAX_SYNTAX_REPAIR_RETRIES this + 1) 0 initial_vars w)).
Proof.
  intros Hident Hdesc Hschema. unfold create_dynamic_function.
  rewrite (identifier_is_truthy name Hident), Hdesc, Hschema. cbn [negb orb ToString].
  rewrite Hident. cbn [negb].
  unfold bindM at 1.
  destruct (repair_loop _ _ _ _ _ _ _ _ w) as [[vars | e | ] w']; try reflexivity.
  destruct (match last_error vars with Some e => exn_truthy e | None => false end).
  - unfold bindM, lift, ret.
    destruct (match last_error vars with Some e => exn_message e | None => _ end);
      reflexivity.
  - destruct (write_function_record (VStr name) description schema (sanitized_code vars) w')
      as [c w''] eqn:Hrun.
    destruct (write_function_record_effect _ _ _ _ _ _ _ Hrun) as [Hsame _].
    exact Hsame.
Qed.

(** X18.  When the schema cannot be written as JSON (it holds a
    BigInt), building the first prompt fails and no synthesis prompt is
    sent; the first prompt the model receives is the repair prompt,
    quoting empty code and the serialization error. *)
Theorem unserializable_schema_starts_with_a_repair_prompt (this : executor)
    (name : string) (description schema api : value) (w : world) (e : exn) :
  identifier_test name = true ->
  truthy description = true ->
  truthy schema = true ->
  JSON.stringify schema 2 = Throw e ->
  1 <= MAX_SYNTAX_REPAIR_RETRIES this ->
  exists rest : list string,
    llm_calls (snd (create_dynamic_function this (VStr name) description schema api w))
    = llm_calls w
      ++ (repair_template name "Do not know how to serialize a BigInt" ""
          +:+ instructions_template name) :: rest.
Proof.
  intros Hident Hdesc Hschema Hrefused Hmax.
  rewrite (create_dynamic_function_calls this name description schema api w
             Hident Hdesc Hschema).
  pose proof (stringify_outcome schema 2) as Hwhich. rewrite Hrefused in Hwhich.
  subst e.
  set (vars1 := {| generated_code_string := VStr "";
                   last_error := Some bigint_refused;
                   sanitized_code := "" |}).
  assert (Hfirst : attempt_body this (VStr name) description schema api 0 initial_vars w
                   = (Normal (false, vars1), w)).
  { unfold attempt_body, try_catchM. unfold bindM at 1. unfold lift at 1.
    unfold attempt_prompt, initial_vars. cbn [last_error bind Nat.ltb Nat.leb].
    unfold _generateJSFunctionCreationPrompt. rewrite Hrefused. cbn [bind].
    destruct (MAX_SYNTAX_REPAIR_RETRIES this) as [ | retries ]; [lia|].
    reflexivity. }
  destruct (MAX_SYNTAX_REPAIR_RETRIES this) as [ | retries ] eqn:Hretries; [lia|].
  rewrite Nat.add_1_r. cbn [repair_loop].
  unfold bindM at 1. rewrite Hfirst. cbn [fst snd].
  unfold bindM at 1.
  set (second := repair_template name "Do not know how to serialize a BigInt" ""
                 +:+ instructions_template name).
  assert (Hsecond : attempt_prompt this (VStr name) description schema api 1 vars1
                    = Normal second) by reflexivity.
  destruct (attempt_body_sends_its_prompt this (VStr name) description schema api 1
              vars1 w second Hsecond) as (outcome & w' & Hrun & Hcalls & _).
  rewrite Hrun.
  destruct outcome as [[stop vars2] | e | ]; cbn [fst snd].
  - destruct stop.
    + exists []. exact Hcalls.
    + destruct (repair_loop_calls this (VStr name) description schema api retries 2
                  vars2 w') as (l & Hl & _).
      exists l. rewrite Hl, Hcalls, <- app_assoc. reflexivity.
  - exists []. exact Hcalls.
  - exists []. exact Hcalls.
Qed.

(** ** The creation tool through the dispatcher *)

Lemma assoc_obj_delete_ne (k k' : string) (props : list (string * value)) :
  k <> k' -> assoc k (obj_delete k' props) = assoc k props.
Proof using.
  intros Hne. induction props as [ | [key v] rest IH ]; [reflexivity|].
  cbn [obj_delete assoc].
  destruct (key =? k')%string eqn:Hdel.
  - apply String.eqb_eq in Hdel. subst key.
    destruct (k' =? k)%string eqn:Hk; [|reflexivity].
    apply String.eqb_eq in Hk. congruence.
  - cbn [assoc]. now rewrite IH.
Qed.

(** X19.  A call of the creation tool whose three required parameters
    are there is the definition request for them, with the description
    of the host functions split off: the dispatcher hands on the answer
    and the world of [create_dynamic_function]. *)
Theorem tool_call_is_the_definition_request (this : executor)
    (props : list (string * value)) (override : option (list (string * capability)))
    (w : world) (shown : string) (name description schema : value)
    (answer : string) (w' : world) :
  JSON.stringify (VObj props) 0 = Normal (VStr shown) ->
  assoc "new_function_name" props = Some name ->
  assoc "new_function_description" props = Some description ->
  assoc "new_function_parameters_schema" props = Some schema ->
  is_undefined name = false ->
  is_undefined description = false ->
  is_undefined schema = false ->
  create_dynamic_function this name description schema
    (default VUndefined (assoc "host_provided_api_description_for_new_func" props)) w
  = (Normal answer, w') ->
  execute_dynamic_function this FUNCTION_CREATION_TOOL_DEFINITION_JS_name
    (VObj props) override w
  = (Normal (VStr answer), w').
Proof.
  intros Hshown Hname Hdescription Hschema Hn Hd Hs Hcreate.
  unfold execute_dynamic_function.
  rewrite Hshown. unfold bindM at 1. unfold lift at 1. cbn [bind substring_method].
  rewrite String.eqb_refl. unfold try_catchM.
  unfold bindM at 1. unfold lift at 1. cbn [get_prop spread].
  unfold requiredArgs. cbn [List.find].
  rewrite !assoc_obj_delete_ne by discriminate.
  rewrite Hname, Hdescription, Hschema.
  change (default VUndefined (Some ?v)) with v.
  rewrite Hn, Hd, Hs.
  unfold bindM at 1. rewrite Hcreate. reflexivity.
Qed.

(** X20.  A call of the creation tool that lacks one of the three
    required parameters is refused with the string naming a missing
    one; no prompt is sent and the store is not touched. *)
Theorem tool_call_without_a_required_parameter_is_refused (this : executor)
    (props : list (string * value)) (override : option (list (string * capability)))
    (w : world) (shown : string) (arg : string) :
  JSON.stringify (VObj props) 0 = Normal (VStr shown) ->
  In arg requiredArgs ->
  assoc arg props = None ->
  exists missing : string,
    In missing requiredArgs
    /\ default VUndefined (assoc missing props) = VUndefined
    /\ execute_dynamic_function this FUNCTION_CREATION_TOOL_DEFINITION_JS_name
         (VObj props) override w
       = (Normal (VStr ("Error: Missing required parameter '" +:+ missing +:+ "' for "
                        +:+ FUNCTION_CREATION_TOOL_DEFINITION_JS_name +:+ ".")), w).
Proof.
  intros Hshown Hin Habsent.
  set (creationParams := obj_delete "host_provided_api_description_for_new_func" props).
  assert (Hsame : forall a, In a requiredArgs ->
                    assoc a creationParams = assoc a props).
  { intros a Ha. apply assoc_obj_delete_ne.
    unfold requiredArgs in Ha. cbn [In] in Ha.
    destruct Ha as [<- | [<- | [<- | []]]]; discriminate. }
  destruct (List.find (fun a => is_undefined (default VUndefined (assoc a creationParams)))
              requiredArgs) as [missing | ] eqn:Hfind.
  - pose proof (find_some _ _ Hfind) as [Hmissing Hundefined].
    exists missing. split; [exact Hmissing|]. split.
    + cbn beta in Hundefined. rewrite (Hsame missing Hmissing) in Hundefined.
      destruct (default VUndefined (assoc missing props)); try discriminate. reflexivity.
    + unfold execute_dynamic_function.
      rewrite Hshown. unfold bindM at 1. unfold lift at 1. cbn [bind substring_method].
      rewrite String.eqb_refl. unfold try_catchM.
      unfold bindM at 1. unfold lift at 1. cbn [get_prop spread].
      fold creationParams. rewrite Hfind. reflexivity.
  - exfalso. pose proof (find_none _ _ Hfind arg Hin) as Hdefined.
    cbn beta in Hdefined. rewrite (Hsame arg Hin), Habsent in Hdefined.
    discriminate Hdefined.
Qed.

End DynamicExecutorJS.

(** * Worked runs *)


Lemma unreadable_record_reads_as_not_found_witness :
  let w := {| files := {[ "add.json" := fs.File "{oops" ]}; llm_calls := [] |} in
  let run := execute_dynamic_function (scripted_llm []) (vm_rejecting "Unexpected token")
               constructor "add" (VObj [("a", VNum 2)]) None in
  get_function_definition_js constructor "add" w = (Normal VNull, w)
  /\ (forall w0 : world,
        files w0 !! ("add" +:+ ".json") = None -> (run w).1 = (run w0).1)
  /\ (forall shown : string,
        JSON.stringify (VObj [("a", VNum 2)]) 0 = Normal (VStr shown) ->
        run w = (Normal (VStr ("Error: JS Function '" +:+ "add"
                               +:+ "' not found or has no code.")), w)).
Proof.
  apply (unreadable_record_reads_as_not_found
           (scripted_llm []) (vm_rejecting "Unexpected token")
           constructor "add" (VObj [("a", VNum 2)]) None
           {| files := {[ "add.json" := fs.File "{oops" ]}; llm_calls := [] |}
           (fs.File "{oops")).
  - reflexivity.
  - vm_compute. reflexivity.
  - right. exists "{oops", (SyntaxError "Unexpected token in JSON").
    split; reflexivity.
Defined.

Lemma never_settling_call_is_awaited_forever_witness :
  let vm := vm_accepting (fun _ => Pending) in
  let w := snd (store_predefined_function_js vm constructor hang_record empty_world) in
  execute_dynamic_function (scripted_llm []) vm constructor "hang" (VObj []) None w
  = (Pending, w).
Proof.
  eapply (never_settling_call_is_awaited_forever
            (scripted_llm []) (vm_accepting (fun _ => Pending))
            constructor "hang" (VObj []) None).
  - reflexivity.
  - vm_compute. reflexivity.
  - vm_compute. reflexivity.
  - reflexivity.
  - vm_compute. reflexivity.
  - reflexivity.
  - reflexivity.
  - reflexivity.
Defined.

Lemma dispatcher_can_throw_and_can_return_undefined_witness :
  let vm := vm_accepting (fun _ => Normal VUndefined) in
  let w := snd (store_predefined_function_js vm constructor noop_record empty_world) in
  execute_dynamic_function (scripted_llm []) vm constructor "noop" VUndefined None w
  = (Throw (TypeError "Cannot read properties of undefined (reading 'substring')"), w)
  /\ execute_dynamic_function (scripted_llm []) vm constructor "noop" (VObj []) None w
     = (Normal VUndefined, w).
Proof.
  destruct (dispatcher_can_throw_and_can_return_undefined
              (scripted_llm []) (vm_accepting (fun _ => Normal VUndefined))
              constructor "noop" None
              (snd (store_predefined_function_js
                      (vm_accepting (fun _ => Normal VUndefined))
                      constructor noop_record empty_world)))
    as (Hthrow & _ & Hundefined).
  split; [exact Hthrow|].
  eapply Hundefined.
  - reflexivity.
  - vm_compute. reflexivity.
  - vm_compute. reflexivity.
  - reflexivity.
  - vm_compute. reflexivity.
  - reflexivity.
  - reflexivity.
  - reflexivity.
Defined.


Lemma repair_budget_is_four_calls_witness :
  let llm := scripted_llm [ Normal (VStr "function add(params) {");
                            Normal (VStr "async function add(params) { return ");
                            Normal VUndefined;
                            Normal (VStr "```javascript
async function add(params { }
```") ] in
  let vm := vm_rejecting "Unexpected end of input" in
  exists (prompts : list string) (last : string) (w' : world),
    create_dynamic_function llm vm constructor
      (VStr "add") (VStr "adds two numbers") (VObj [("type", VStr "object")]) VUndefined
      empty_world =
      (Normal ("Error: Failed to generate/validate JS code for " +:+ "add"
               +:+ " after 4 attempt(s). Last error: " +:+ last), w')
    /\ files w' = files empty_world
    /\ llm_calls w' = llm_calls empty_world ++ prompts
    /\ length prompts <= 4
    /\ exists (vars : loop_vars) (kind : string),
         repair_loop llm vm constructor
           (VStr "add") (VStr "adds two numbers") (VObj [("type", VStr "object")])
           VUndefined 4 0 initial_vars empty_world
         = (Normal vars, w')
         /\ last_error vars = Some (Error kind last).
Proof.
  apply (repair_budget_is_four_calls
           (scripted_llm [ Normal (VStr "function add(params) {");
                           Normal (VStr "async function add(params) { return ");
                           Normal VUndefined;
                           Normal (VStr "```javascript
async function add(params { }
```") ])
           (vm_rejecting "Unexpected end of input") constructor
           (VStr "add") (VStr "adds two numbers") (VObj [("type", VStr "object")])
           VUndefined empty_world); try reflexivity.
  - intros history prompt. unfold scripted_llm.
    destruct (length history) as [ | [ | [ | [ | [ | k ] ] ] ] ]; reflexivity.
  - intros history prompt s _. exists "Unexpected end of input". reflexivity.
Defined.



Lemma syntax_check_compiles_but_never_runs_witness :
  let llm := scripted_llm [Normal (VStr "const x = 1;")] in
  let vm := vm_accepting check_would_throw in
  exists prompt : string,
    attempt_body llm vm constructor (VStr "foo") (VStr "returns one") add_schema
      VUndefined 0 initial_vars empty_world =
    (Normal (true, {| generated_code_string := VStr "const x = 1;";
                      last_error := None;
                      sanitized_code := "const x = 1;" |}),
     {| files := ∅; llm_calls := [prompt] |}).
Proof.
  cbv zeta.
  assert (Hprompt : exists prompt,
            attempt_prompt constructor (VStr "foo") (VStr "returns one") add_schema
              VUndefined 0 initial_vars = Normal prompt).
  { eexists. vm_compute. reflexivity. }
  destruct Hprompt as [prompt Hprompt]. exists prompt.
  exact (syntax_check_compiles_but_never_runs
           (scripted_llm [Normal (VStr "const x = 1;")])
           (vm_accepting check_would_throw)
           constructor (VStr "foo") (VStr "returns one") add_schema VUndefined
           0 initial_vars empty_world prompt "const x = 1;" check_would_throw
           Hprompt eq_refl eq_refl eq_refl).
Defined.

(** The whole definition request for that candidate: it is stored, and
    can be fetched. *)
Example code_without_the_function_is_stored :
  let llm := scripted_llm [Normal (VStr "const x = 1;")] in
  let vm := vm_accepting check_would_throw in
  let r := create_dynamic_function llm vm constructor
             (VStr "foo") (VStr "returns one") add_schema VUndefined empty_world in
  fst r = Normal "Successfully created/updated JS dynamic function: foo"
  /\ length (llm_calls (snd r)) = 1
  /\ (let* func_def := fst (get_function_definition_js constructor "foo" (snd r)) in
      get_prop func_def "code_string") = Normal (VStr "const x = 1;").
Proof. vm_compute. repeat split. Qed.

Lemma written_record_is_fetched_back_witness :
  exists (schema_json : string) (w' : world),
    JSON.stringify add_schema 0 = Normal (VStr schema_json)
    /\ write_function_record (VStr "add") (VStr "adds two numbers") add_schema add_code
         empty_world
       = (Normal ("Successfully created/updated JS dynamic function: " +:+ "add"), w')
    /\ get_function_definition_js constructor "add" w'
       = (Normal (VObj [ ("name", VStr "add");
                         ("description", VStr "adds two numbers");
                         ("parameters_schema_json", VStr schema_json);
                         ("code_string", VStr add_code);
                         ("is_internal_special_function", VBool false);
                         ("parameters_schema", add_schema) ]), w').
Proof.
  apply (written_record_is_fetched_back constructor "add" (VStr "adds two numbers")
           add_schema add_code empty_world).
  - reflexivity.
  - vm_compute. reflexivity.
  - vm_compute. discriminate.
Defined.

(** The example of the design document: [add] is defined on the first
    attempt, stored once, and run with [{a: 2, b: 3}]. *)
Example add_is_defined_stored_and_run :
  let llm := scripted_llm [Normal (VStr add_code)] in
  let vm := vm_accepting (fun context =>
              match resolve context "params" with
              | Normal (Data (VObj [("a", VNum a); ("b", VNum b)])) =>
                  Normal (VStr (Number_toString (a + b)))
              | _ => Throw (TypeError "unexpected parameters")
              end) in
  let created := execute_dynamic_function llm vm constructor "create_dynamic_function"
                   (VObj [ ("new_function_name", VStr "add");
                           ("new_function_description", VStr "adds two numbers");
                           ("new_function_parameters_schema", add_schema) ])
                   None empty_world in
  fst created = Normal (VStr "Successfully created/updated JS dynamic function: add")
  /\ length (llm_calls (snd created)) = 1
  /\ fst (execute_dynamic_function llm vm constructor "add"
            (VObj [("a", VNum 2); ("b", VNum 3)]) None (snd created))
     = Normal (VStr "5").
Proof. vm_compute. repeat split. Qed.

Lemma every_record_is_external_and_cleared_witness :
  let llm := scripted_llm [Normal (VStr add_code)] in
  let vm := vm_accepting (fun _ => Normal (VStr "5")) in
  let w := snd (store_predefined_function_js vm constructor noop_record
                  (snd (create_dynamic_function llm vm constructor
                          (VStr "add") (VStr "adds two numbers") add_schema VUndefined
                          empty_world))) in
  reachable llm vm w
  /\ size (files w) = 2
  /\ only_records (files w)
  /\ files (snd (clear_function_store_js constructor w)) = ∅.
Proof.
  cbv zeta.
  assert (Hreach : reachable (scripted_llm [Normal (VStr add_code)])
                     (vm_accepting (fun _ => Normal (VStr "5")))
                     (snd (store_predefined_function_js
                             (vm_accepting (fun _ => Normal (VStr "5")))
                             constructor noop_record
                             (snd (create_dynamic_function
                                     (scripted_llm [Normal (VStr add_code)])
                                     (vm_accepting (fun _ => Normal (VStr "5")))
                                     constructor (VStr "add") (VStr "adds two numbers")
                                     add_schema VUndefined empty_world))))).
  { apply reach_store_predefined, reach_create, reach_start. }
  split; [exact Hreach|]. split; [vm_compute; reflexivity|].
  destruct (every_record_is_external_and_cleared _ _ _ Hreach) as [Hrecords Hclear].
  split; [exact Hrecords|apply Hclear].
Defined.

(** A stored function that reaches for [require]: the name is not in
    the sandbox, the run throws, and the caller gets the error string. *)
Example require_is_reported_as_undefined :
  let vm := vm_accepting (fun context =>
              let* _ := resolve context "require" in Normal (VStr "loaded")) in
  let w := snd (store_predefined_function_js vm constructor noop_record empty_world) in
  fst (execute_dynamic_function (scripted_llm []) vm constructor "noop" (VObj []) None w)
  = Normal (VStr "Error: Failed to execute dynamic JS function noop. Details: require is not defined").
Proof. vm_compute. reflexivity. Qed.

(** ** Runs for the properties of the store and the dispatcher *)

Lemma create_dynamic_function_writes_only_on_success_witness :
  let llm := scripted_llm [Normal (VStr add_code)] in
  let vm := vm_accepting (fun _ => Normal (VStr "5")) in
  let r := create_dynamic_function llm vm constructor
             (VStr "add") (VStr "adds two numbers") add_schema VUndefined empty_world in
  (exists text,
     fst r = Normal ("Successfully created/updated JS dynamic function: "
                     +:+ ToString (VStr "add"))
     /\ written_record text
     /\ files (snd r) = <[ToString (VStr "add") +:+ ".json" := fs.File text]>
                          (files empty_world))
  \/ (files (snd r) = files empty_world
      /\ forall s, fst r = Normal s -> starts_with "Error: " s = true).
Proof.
  cbv zeta.
  apply (create_dynamic_function_writes_only_on_success
           (scripted_llm [Normal (VStr add_code)])
           (vm_accepting (fun _ => Normal (VStr "5")))
           constructor (VStr "add") (VStr "adds two numbers") add_schema VUndefined
           empty_world).
  apply surjective_pairing.
Defined.

Lemma store_predefined_function_js_writes_only_on_success_witness :
  let vm := vm_accepting (fun _ => Normal VUndefined) in
  let r := store_predefined_function_js vm constructor noop_record empty_world in
  llm_calls (snd r) = llm_calls empty_world
  /\ ((exists name text,
         get_prop noop_record "name" = Normal name
         /\ fst r = Normal ("Successfully stored predefined JS function: "
                            +:+ ToString name)
         /\ written_record text
         /\ files (snd r) = <[ToString name +:+ ".json" := fs.File text]>
                              (files empty_world))
      \/ (files (snd r) = files empty_world
          /\ forall s, fst r = Normal s -> starts_with "Error" s = true)).
Proof.
  cbv zeta.
  apply (store_predefined_function_js_writes_only_on_success
           (vm_accepting (fun _ => Normal VUndefined)) constructor noop_record
           empty_world).
  apply surjective_pairing.
Defined.


Lemma clear_function_store_js_effect_witness :
  let w := {| files := {[ "add.json" := fs.File "{}"; "notes.txt" := fs.File "keep" ]};
              llm_calls := ["earlier prompt"] |} in
  exists w' : world,
    clear_function_store_js constructor w = (Normal tt, w')
    /\ llm_calls w' = llm_calls w
    /\ (forall k node, files w' !! k = Some node -> files w !! k = Some node)
    /\ (forall k, ends_with k ".json" = false -> files w' !! k = files w !! k)
    /\ ((forall k, files w !! k <> Some fs.Dir) ->
        forall k, ends_with k ".json" = true -> files w' !! k = None).
Proof.
  cbv zeta.
  exact (clear_function_store_js_effect constructor
           {| files := {[ "add.json" := fs.File "{}"; "notes.txt" := fs.File "keep" ]};
              llm_calls := ["earlier prompt"] |}).
Defined.

Lemma defined_on_the_first_attempt_witness :
  let llm := scripted_llm [Normal (VStr fenced_add_code)] in
  let vm := vm_accepting (fun _ => Normal (VStr "5")) in
  exists (prompt schema_json : string) (w' : world),
    create_dynamic_function llm vm constructor
      (VStr "add") (VStr "adds two numbers") add_schema VUndefined empty_world
    = (Normal ("Successfully created/updated JS dynamic function: " +:+ "add"), w')
    /\ llm_calls w' = llm_calls empty_world ++ [prompt]
    /\ get_function_definition_js constructor "add" w'
       = (Normal (VObj [ ("name", VStr "add");
                         ("description", VStr "adds two numbers");
                         ("parameters_schema_json", VStr schema_json);
                         ("code_string",
                          VStr (trim (strip_fences (trim fenced_add_code))));
                         ("is_internal_special_function", VBool false);
                         ("parameters_schema", add_schema) ]), w').
Proof.
  cbv zeta.
  apply (defined_on_the_first_attempt
           (scripted_llm [Normal (VStr fenced_add_code)])
           (vm_accepting (fun _ => Normal (VStr "5")))
           constructor "add" (VStr "adds two numbers") add_schema VUndefined
           empty_world fenced_add_code (fun _ => Normal (VStr "5"))).
  - reflexivity.
  - reflexivity.
  - reflexivity.
  - reflexivity.
  - vm_compute. reflexivity.
  - vm_compute. discriminate.
  - intros prompt. reflexivity.
  - vm_compute. reflexivity.
  - reflexivity.
Defined.

Lemma defined_after_one_repair_witness :
  let llm := scripted_llm [ Normal (VStr "async function add(params) {");
                            Normal (VStr add_code) ] in
  let vm := vm_checking (fun code => (code =? vmScriptCode add_code "add")%string)
              "Unexpected end of input" (fun _ => Normal (VStr "5")) in
  exists (first schema_json : string) (w' : world),
    create_dynamic_function llm vm constructor
      (VStr "add") (VStr "adds two numbers") add_schema VUndefined empty_world
    = (Normal ("Successfully created/updated JS dynamic function: " +:+ "add"), w')
    /\ llm_calls w'
       = llm_calls empty_world
         ++ [first;
             repair_template "add" "Unexpected end of input"
               (trim "async function add(params) {")
             +:+ instructions_template "add"]
    /\ get_function_definition_js constructor "add" w'
       = (Normal (VObj [ ("name", VStr "add");
                         ("description", VStr "adds two numbers");
                         ("parameters_schema_json", VStr schema_json);
                         ("code_string", VStr (trim (strip_fences (trim add_code))));
                         ("is_internal_special_function", VBool false);
                         ("parameters_schema", add_schema) ]), w').
Proof.
  cbv zeta.
  apply (defined_after_one_repair
           (scripted_llm [ Normal (VStr "async function add(params) {");
                           Normal (VStr add_code) ])
           (vm_checking (fun code => (code =? vmScriptCode add_code "add")%string)
              "Unexpected end of input" (fun _ => Normal (VStr "5")))
           constructor "add" (VStr "adds two numbers") add_schema VUndefined
           empty_world "async function add(params) {" "Unexpected end of input"
           add_code (fun _ => Normal (VStr "5"))).
  - reflexivity.
  - reflexivity.
  - reflexivity.
  - reflexivity.
  - vm_compute. reflexivity.
  - vm_compute. discriminate.
  - cbn. lia.
  - intros prompt. reflexivity.
  - vm_compute. reflexivity.
  - vm_compute. reflexivity.
  - intros first prompt. reflexivity.
  - vm_compute. reflexivity.
  - vm_compute. reflexivity.
Defined.

Lemma tool_call_is_answered_with_a_string_witness :
  let run := execute_dynamic_function (scripted_llm []) (vm_rejecting "Unexpected token")
               constructor FUNCTION_CREATION_TOOL_DEFINITION_JS_name VNull None
               empty_world in
  (exists s : string, fst run = Normal (VStr s)) \/ fst run = Pending.
Proof.
  cbv zeta.
  apply (tool_call_is_answered_with_a_string
           (scripted_llm []) (vm_rejecting "Unexpected token")
           constructor VNull None empty_world "null").
  reflexivity.
Defined.



Lemma unserializable_result_is_reported_with_its_type_witness :
  let vm := vm_accepting (fun _ => Normal (VBigInt 1)) in
  let w := snd (store_predefined_function_js vm constructor noop_record empty_world) in
  execute_dynamic_function (scripted_llm []) vm constructor "noop" (VObj []) None w
  = (Normal (VStr ("Error: Dynamic function " +:+ "noop"
                   +:+ " returned a complex object that could not be serialized. Original type: "
                   +:+ typeof (VBigInt 1))), w).
Proof.
  cbv zeta.
  eapply (unserializable_result_is_reported_with_its_type
            (scripted_llm []) (vm_accepting (fun _ => Normal (VBigInt 1)))
            constructor "noop" (VObj []) None _ "{}" _
            "async function noop(params) { }" _ (VBigInt 1) bigint_refused).
  - reflexivity.
  - reflexivity.
  - vm_compute. reflexivity.
  - reflexivity.
  - discriminate.
  - reflexivity.
  - reflexivity.
  - reflexivity.
Defined.




Lemma unserializable_schema_starts_with_a_repair_prompt_witness :
  let llm := scripted_llm [Normal (VStr add_code)] in
  let vm := vm_accepting (fun _ => Normal (VStr "5")) in
  exists rest : list string,
    llm_calls (snd (create_dynamic_function llm vm constructor
                      (VStr "add") (VStr "adds two numbers") bigint_schema VUndefined
                      empty_world))
    = llm_calls empty_world
      ++ (repair_template "add" "Do not know how to serialize a BigInt" ""
          +:+ instructions_template "add") :: rest.
Proof.
  cbv zeta.
  apply (unserializable_schema_starts_with_a_repair_prompt
           (scripted_llm [Normal (VStr add_code)])
           (vm_accepting (fun _ => Normal (VStr "5")))
           constructor "add" (VStr "adds two numbers") bigint_schema VUndefined
           empty_world bigint_refused).
  - reflexivity.
  - reflexivity.
  - reflexivity.
  - vm_compute. reflexivity.
  - cbn. lia.
Defined.

Lemma tool_call_is_the_definition_request_witness :
  let llm := scripted_llm [Normal (VStr add_code)] in
  let vm := vm_accepting (fun _ => Normal (VStr "5")) in
  let request := create_dynamic_function llm vm constructor
                   (VStr "add") (VStr "adds two numbers") add_schema
                   (VStr "external_apis.log(text)") empty_world in
  execute_dynamic_function llm vm constructor FUNCTION_CREATION_TOOL_DEFINITION_JS_name
    (VObj [ ("new_function_name", VStr "add");
            ("new_function_description", VStr "adds two numbers");
            ("new_function_parameters_schema", add_schema);
            ("host_provided_api_description_for_new_func",
             VStr "external_apis.log(text)") ])
    None empty_world
  = (Normal (VStr "Successfully created/updated JS dynamic function: add"), snd request).
Proof.
  cbv zeta.
  eapply (tool_call_is_the_definition_request
            (scripted_llm [Normal (VStr add_code)])
            (vm_accepting (fun _ => Normal (VStr "5")))
            constructor _ None empty_world _
            (VStr "add") (VStr "adds two numbers") add_schema).
  - vm_compute. reflexivity.
  - reflexivity.
  - reflexivity.
  - reflexivity.
  - reflexivity.
  - reflexivity.
  - reflexivity.
  - apply injective_projections; [vm_compute; reflexivity|reflexivity].
Defined.

Lemma tool_call_without_a_required_parameter_is_refused_witness :
  exists missing : string,
    In missing requiredArgs
    /\ default VUndefined (assoc missing [("new_function_name", VStr "add")]) = VUndefined
    /\ execute_dynamic_function (scripted_llm []) (vm_rejecting "Unexpected token")
         constructor FUNCTION_CREATION_TOOL_DEFINITION_JS_name
         (VObj [("new_function_name", VStr "add")]) None empty_world
       = (Normal (VStr ("Error: Missing required parameter '" +:+ missing +:+ "' for "
                        +:+ FUNCTION_CREATION_TOOL_DEFINITION_JS_name +:+ ".")),
          empty_world).
Proof.
  eapply (tool_call_without_a_required_parameter_is_refused
            (scripted_llm []) (vm_rejecting "Unexpected token")
            constructor [("new_function_name", VStr "add")] None empty_world _
            "new_function_description").
  - vm_compute. reflexivity.
  - right. left. reflexivity.
  - reflexivity.
Defined.
